(** * AImath: persistence dispatch, markup normalisation and batch export

    A shallow embedding of the TypeScript sources

      - [src/App.tsx]                         (module [App])
      - [services/supabaseService.ts]         (module [SupabaseService])
      - [services/mongoDbService.ts]          (module [MongoDbService])
      - [services/googleDriveService.ts]      (module [GoogleDriveService])
      - [services/geminiService.ts]           (module [GeminiService])
      - [components/ProblemHistoryModal.tsx]  (module [ProblemHistoryModal])

    JavaScript strings are sequences of UTF-16 code units; module-level
    [let] bindings and React state become explicit state records; an
    [async] function becomes a function from the state before the call and
    the outcome of what it awaits to the state after the returned promise
    has settled. *)

From Stdlib Require Import List ZArith NArith Bool Lia String Ascii.
From Stdlib Require Import Numbers.DecimalString.
From Stdlib Require Import Floats.SpecFloat.
Import ListNotations.

(* ------------------------------------------------------------------ *)
(** * JavaScript strings *)

Module JS.

(** A string is its list of UTF-16 code units. *)
Definition jsstring := list N.

(** Code units of one code point (a surrogate pair above the BMP). *)
Definition utf16_of_code_point (cp : N) : jsstring :=
  if (cp <? 65536)%N then [cp]
  else [(55296 + (cp - 65536) / 1024)%N; (56320 + (cp - 65536) mod 1024)%N].

(** Decoder for the UTF-8 bytes of a literal of this file: [acc] is the
    code point being assembled, [need] the continuation bytes missing. *)
Fixpoint utf8_decode (acc : N) (need : nat) (bs : list N) : jsstring :=
  match bs with
  | [] => []
  | b :: r =>
      match need with
      | O =>
          if (b <? 128)%N then b :: utf8_decode 0%N 0 r
          else if (b <? 224)%N then utf8_decode (b - 192)%N 1 r
          else if (b <? 240)%N then utf8_decode (b - 224)%N 2 r
          else utf8_decode (b - 240)%N 3 r
      | S O =>
          utf16_of_code_point (acc * 64 + (b - 128))%N ++ utf8_decode 0%N 0 r
      | S n => utf8_decode (acc * 64 + (b - 128))%N n r
      end
  end.

Fixpoint bytes_of_string (s : string) : list N :=
  match s with
  | EmptyString => []
  | String c r => N_of_ascii c :: bytes_of_string r
  end.

(** [js "..."] is the JavaScript string written by the literal. *)
Definition js (s : string) : jsstring := utf8_decode 0%N 0 (bytes_of_string s).

Definition char_eqb (a b : N) : bool := N.eqb a b.

Fixpoint eqb (a b : jsstring) : bool :=
  match a, b with
  | [], [] => true
  | x :: a', y :: b' => char_eqb x y && eqb a' b'
  | _, _ => false
  end.

(** Truthiness of a string value: only the empty string is falsy. *)
Definition truthy (s : jsstring) : bool :=
  match s with [] => false | _ => true end.

(** [String.prototype.startsWith] *)
Fixpoint startsWith (s p : jsstring) : bool :=
  match p, s with
  | [], _ => true
  | x :: p', y :: s' => char_eqb y x && startsWith s' p'
  | _ :: _, [] => false
  end.

(** [String.prototype.includes] *)
Fixpoint includes (s p : jsstring) : bool :=
  startsWith s p ||
  match s with
  | [] => false
  | _ :: r => includes r p
  end.

(** White space and line terminators: the class [\s] of a regular
    expression and the characters removed by [String.prototype.trim]. *)
Definition isWhiteSpace (c : N) : bool :=
  ((9 <=? c) && (c <=? 13) || (c =? 32) || (c =? 160) || (c =? 5760)
   || (8192 <=? c) && (c <=? 8202) || (c =? 8232) || (c =? 8233)
   || (c =? 8239) || (c =? 8287) || (c =? 12288) || (c =? 65279))%N.

Fixpoint dropWhile (f : N -> bool) (s : jsstring) : jsstring :=
  match s with
  | [] => []
  | c :: r => if f c then dropWhile f r else s
  end.

Fixpoint takeWhile (f : N -> bool) (s : jsstring) : jsstring :=
  match s with
  | [] => []
  | c :: r => if f c then c :: takeWhile f r else []
  end.

Definition trimStart (s : jsstring) : jsstring := dropWhile isWhiteSpace s.
Definition trimEnd (s : jsstring) : jsstring :=
  rev (dropWhile isWhiteSpace (rev s)).

(** [String.prototype.trim] *)
Definition trim (s : jsstring) : jsstring := trimEnd (trimStart s).

(** [s.split(sep)[0]] for a non-empty [sep]: the text before the first
    [sep], all of [s] when there is none. *)
Fixpoint before_first (sep s : jsstring) : jsstring :=
  if startsWith s sep then []
  else match s with
       | [] => []
       | c :: r => c :: before_first sep r
       end.

(** Decimal rendering of a non-negative integer, as in a template literal. *)
Definition of_N (n : N) : jsstring :=
  bytes_of_string (NilEmpty.string_of_uint (N.to_uint n)).

(** ** Global regular-expression replacement

    A pattern is modelled by its matcher at one position: on the text
    that starts there it answers with the replacement text and the
    number of code units the match covers (always at least one for the
    patterns of this program). [replace_g] is [s.replace(/.../g, ...)]:
    it scans left to right, and after a match resumes behind it; [skip]
    counts the code units of the current match still to be passed. *)
Definition matcher := jsstring -> option (jsstring * nat).

Fixpoint replace_g (m : matcher) (skip : nat) (s : jsstring) : jsstring :=
  match s with
  | [] => []
  | c :: r =>
      match skip with
      | S k => replace_g m k r
      | O =>
          match m s with
          | Some (rep, S k) => rep ++ replace_g m k r
          | Some (rep, O) => rep ++ c :: replace_g m 0 r
          | None => c :: replace_g m 0 r
          end
      end
  end.

(** A pattern that is one literal text, replaced by a fixed text. *)
Definition literal (pat rep : jsstring) : matcher :=
  fun s => if startsWith s pat then Some (rep, List.length pat) else None.

(** Helpers for matchers written by hand: the text behind a required
    code unit, and the text behind a required literal. *)
Definition expect (c : N) (s : jsstring) : option jsstring :=
  match s with
  | x :: r => if char_eqb x c then Some r else None
  | [] => None
  end.

Definition expect_lit (p s : jsstring) : option jsstring :=
  if startsWith s p then Some (skipn (List.length p) s) else None.

End JS.

Import JS.
Arguments js _%_string : simpl never.

Notation "'do' x <- a ; b" :=
  (match a with Some x => b | None => None end)
  (at level 10, x name, a at level 200, b at level 200).

(* ------------------------------------------------------------------ *)
(** * Errors and settled promises *)

(** A thrown value: an [Error] or a [TypeError], with its message. *)
Inductive JsError :=
| Error (message : jsstring)
| TypeError (message : jsstring).

Definition error_message (e : JsError) : jsstring :=
  match e with Error m => m | TypeError m => m end.

(** How the promise returned by an [async] function settles. *)
Inductive Settled (A : Type) :=
| Fulfilled (a : A)
| Rejected (e : JsError).
Arguments Fulfilled {A} a.
Arguments Rejected {A} e.

(* ------------------------------------------------------------------ *)
(** * Numbers *)

(** A JavaScript number is an IEEE 754 double: a zero, an infinity, NaN,
    or a finite [m * 2^e] with its sign, where [m < 2^53] and
    [-1074 <= e <= 971], and [2^52 <= m] unless [e = -1074]. *)
Definition Number := spec_float.

(** The double nearest to [m * 2^e], ties going to the even mantissa:
    the number a decimal text of that value is read as. *)
Definition Number_of (m e : Z) : Number := binary_normalize 53 1024 m e false.

Definition Number_of_Z (n : Z) : Number := Number_of n 0.

Definition of_Z (n : Z) : jsstring :=
  bytes_of_string (NilEmpty.string_of_int (Z.to_int n)).

(** The digits of [Number::toString]: the shortest decimal that reads
    back as the number, and of several the nearest one. *)
Module Shortest.

Local Open Scope Z_scope.

(** [a * 10^q] compared with [b * 2^p], in integers. *)
Definition compare_scaled (a q b p : Z) : comparison :=
  Z.compare (a * 10 ^ Z.max q 0 * 2 ^ Z.max (- p) 0)
            (b * 2 ^ Z.max p 0 * 10 ^ Z.max (- q) 0).

(** Whether the decimal [s * 10^q] reads back as the double [m * 2^e]:
    it lies between the midpoints to the two neighbouring doubles, the
    midpoints included when [m] is even. The lower neighbour is half as
    far away when [m] is the least mantissa of its binade. *)
Definition reads_back (m e s q : Z) : bool :=
  let below := if (m =? 2 ^ 52) && (-1074 <? e) then 4 * m - 1 else 4 * m - 2 in
  let above := 4 * m + 2 in
  match compare_scaled s q below (e - 2), compare_scaled s q above (e - 2) with
  | Gt, Lt => true
  | Eq, Lt | Gt, Eq => Z.even m
  | _, _ => false
  end.

(** The least [n], from [n] on, with [m * 2^e < 10^n]. *)
Fixpoint magnitude (fuel : nat) (m e n : Z) : Z :=
  match fuel with
  | O => n
  | S fuel' =>
      match compare_scaled 1 n m e with
      | Gt => n
      | _ => magnitude fuel' m e (n + 1)
      end
  end.

(** [| s * 10^q - m * 2^e |] in units of [10^(-Q) * 2^(-P)]. *)
Definition distance (m e Q P s q : Z) : Z :=
  Z.abs (s * 10 ^ (q + Q) * 2 ^ P - m * 2 ^ (e + P) * 10 ^ Q).

(** The [k]-digit decimals [s * 10^(n-k)] that read back as [m * 2^e],
    as pairs [(s, n)], where [10^(n0-1) <= m * 2^e < 10^n0]: only [n0]
    and [n0 + 1] can do, and for each only the two multiples of
    [10^(n-k)] around the number. *)
Definition candidates (m e n0 k : Z) : list (Z * Z) :=
  let around (n : Z) :=
    let q := n - k in
    let s := (m * 2 ^ Z.max e 0 * 10 ^ Z.max (- q) 0)
             / (2 ^ Z.max (- e) 0 * 10 ^ Z.max q 0) in
    [(s, n); (s + 1, n)] in
  filter (fun c =>
            let '(s, n) := c in
            (10 ^ (k - 1) <=? s) && (s <? 10 ^ k) && reads_back m e s (n - k))
         (around n0 ++ around (n0 + 1)).

(** The candidate nearest to the number; of two equally near, the one
    with even [s]. *)
Definition nearest (m e n0 k : Z) (cs : list (Z * Z)) : option (Z * Z) :=
  let Q := Z.max (k - n0) 0 in
  let P := Z.max (- e) 0 in
  let d (c : Z * Z) := distance m e Q P (fst c) (snd c - k) in
  fold_left
    (fun best c =>
       match best with
       | None => Some c
       | Some b =>
           match Z.compare (d c) (d b) with
           | Lt => Some c
           | Eq => if Z.even (fst c) then Some c else Some b
           | Gt => Some b
           end
       end)
    cs None.

(** The integers [(k, s, n)] of [Number::toString]: [s] has [k] digits,
    [s * 10^(n-k)] reads back as [m * 2^e], and [k] is as small as
    possible. Seventeen digits are enough for every double. *)
Fixpoint shortest (fuel : nat) (m e n0 k : Z) : Z * Z * Z :=
  match nearest m e n0 k (candidates m e n0 k) with
  | Some (s, n) => (k, s, n)
  | None =>
      match fuel with
      | O => (k, 0, n0)
      | S fuel' => shortest fuel' m e n0 (k + 1)
      end
  end.

Definition zeros (n : Z) : jsstring := repeat 48%N (Z.to_nat n).

(** The text for the digits of [s] and the position [n] of the decimal
    point: plain digits up to [10^21], a decimal fraction down to
    [10^-6], and the exponent form beyond. *)
Definition format (k s n : Z) : jsstring :=
  let digits := of_Z s in
  if (k <=? n) && (n <=? 21) then digits ++ zeros (n - k)
  else if (0 <? n) && (n <=? 21) then
    firstn (Z.to_nat n) digits ++ js "." ++ skipn (Z.to_nat n) digits
  else if (-6 <? n) && (n <=? 0) then js "0." ++ zeros (- n) ++ digits
  else
    let exponent :=
      js "e" ++ (if 0 <? n - 1 then js "+" else js "-") ++ of_Z (Z.abs (n - 1)) in
    if k =? 1 then digits ++ exponent
    else firstn 1 digits ++ js "." ++ skipn 1 digits ++ exponent.

(** The text of the positive double [m * 2^e]. The magnitude is looked
    for from just below [log10 (m * 2^e)], estimated from the bit
    length. *)
Definition positive_finite (m e : Z) : jsstring :=
  let bits := Z.log2 m + 1 + e in
  let n0 := magnitude 8 m e ((bits - 1) * 30103 / 100000 - 2) in
  let '(k, s, n) := shortest 16 m e n0 1 in
  format k s n.

End Shortest.

(** The text of a positive number. A mantissa and exponent that are
    not those of a double are first rounded to one. *)
Definition Number_toString_positive (x : Number) : jsstring :=
  match x with
  | S754_nan => js "NaN"
  | S754_zero _ => js "0"
  | S754_infinity _ => js "Infinity"
  | S754_finite _ m e =>
      match Number_of (Zpos m) e with
      | S754_finite _ m' e' => Shortest.positive_finite (Zpos m') e'
      | S754_infinity _ => js "Infinity"
      | _ => js "0"
      end
  end.

(** [Number::toString(x)] in radix 10, the conversion of a number by a
    template literal. *)
Definition Number_toString (x : Number) : jsstring :=
  match x with
  | S754_finite true _ _ | S754_infinity true =>
      js "-" ++ Number_toString_positive x
  | _ => Number_toString_positive x
  end.

(* ------------------------------------------------------------------ *)
(** * Domain types ([types.ts]) *)

Inductive Level := Elementary | Middle | High.

Inductive Difficulty :=
  Concept | Basic | Fundamental | Medium | Advanced | Intense | Top.

(** The string values of the two enums. *)
Definition Level_value (l : Level) : jsstring :=
  match l with
  | Elementary => js "초등"
  | Middle => js "중등"
  | High => js "고등"
  end.

Definition Difficulty_value (d : Difficulty) : jsstring :=
  match d with
  | Concept => js "개념 확인"
  | Basic => js "기초"
  | Fundamental => js "기본"
  | Medium => js "보통"
  | Advanced => js "발전"
  | Intense => js "심화"
  | Top => js "최상위"
  end.

(** A JSON value. *)
#[warnings="-register-all"]
Inductive JsValue :=
| JNull
| JBool (b : bool)
| JNum (x : Number)
| JStr (s : jsstring)
| JArr (items : list JsValue)
| JObj (props : list (jsstring * JsValue)).

(** An object is the list of its own enumerable properties in the order
    in which they are enumerated: for the property names of this program
    the order of creation. *)
Definition JsObject := list (jsstring * JsValue).

Fixpoint obj_get (o : JsObject) (k : jsstring) : option JsValue :=
  match o with
  | [] => None
  | (k', v) :: r => if JS.eqb k' k then Some v else obj_get r k
  end.

(** Defining property [k]: an existing property keeps its place and takes
    the new value, a new one goes last. *)
Fixpoint obj_set (o : JsObject) (k : jsstring) (v : JsValue) : JsObject :=
  match o with
  | [] => [(k, v)]
  | (k', v') :: r =>
      if JS.eqb k' k then (k', v) :: r else (k', v') :: obj_set r k v
  end.

(** Truthiness, the test of [a || b] and of [if (a)]. *)
Definition ToBoolean (v : JsValue) : bool :=
  match v with
  | JNull => false
  | JBool b => b
  | JNum x => match x with S754_zero _ | S754_nan => false | _ => true end
  | JStr s => truthy s
  | JArr _ | JObj _ => true
  end.

Fixpoint join (sep : jsstring) (l : list jsstring) : jsstring :=
  match l with
  | [] => []
  | [x] => x
  | x :: r => x ++ sep ++ join sep r
  end.

(** String conversion, as performed by a template literal. *)
Fixpoint ToString (v : JsValue) : jsstring :=
  match v with
  | JNull => js "null"
  | JBool true => js "true"
  | JBool false => js "false"
  | JNum x => Number_toString x
  | JStr s => s
  | JArr items =>
      join (js ",")
        (map (fun x => match x with JNull => [] | _ => ToString x end) items)
  | JObj _ => js "[object Object]"
  end.

(** [v.k] for a parsed JSON value [v]: reading a property of [null]
    throws, primitives and arrays have no property of a JSON key's name
    that this program reads, an object answers with its own property. *)
Inductive PropertyRead :=
| ReadThrows
| ReadUndefined
| ReadValue (v : JsValue).

Definition get_property (v : JsValue) (k : jsstring) : PropertyRead :=
  match v with
  | JNull => ReadThrows
  | JObj props =>
      match obj_get props k with
      | Some x => ReadValue x
      | None => ReadUndefined
      end
  | _ => ReadUndefined
  end.

(** [interface Problem]: three required markup fields and the optional
    fields a stored row carries. *)
Record Problem := {
  id : option Z;
  created_at : option jsstring;
  problem : jsstring;
  answer : jsstring;
  solution : jsstring;
  level : option Level;
  topic : option jsstring;
  difficulty : option Difficulty;
  problem_plain : option jsstring;
  answer_plain : option jsstring;
  solution_plain : option jsstring
}.

(** A freshly generated problem: only the three required fields. *)
Definition mkProblem (p a s : jsstring) : Problem :=
  {| id := None; created_at := None; problem := p; answer := a;
     solution := s; level := None; topic := None; difficulty := None;
     problem_plain := None; answer_plain := None; solution_plain := None |}.

(* ------------------------------------------------------------------ *)
(** * services/supabaseService.ts *)

Module SupabaseService.

(** [/\$\$|\\\[|\\\]|\$/g]: the alternatives are tried in the order
    written. *)
Definition re_delimiters : matcher := fun s =>
  if startsWith s (js "$$") then Some ([], 2)
  else if startsWith s (js "\[") then Some ([], 2)
  else if startsWith s (js "\]") then Some ([], 2)
  else if startsWith s (js "$") then Some ([], 1)
  else None.

Definition re_times : matcher := literal (js "\times") (js "x").
Definition re_div : matcher := literal (js "\div") (js "÷").
Definition re_cdot : matcher := literal (js "\cdot") (js "·").

Definition notCloseBrace (c : N) : bool := negb (char_eqb c 125).

(** [/\\frac\s*\{([^}]+)\}\s*\{([^}]+)\}/g] with replacement ['$1/$2'].
    Both starred and plussed classes exclude the character required
    right after them, so the greedy choice is the only one that can
    match and no backtracking is involved. *)
Definition re_frac : matcher := fun s =>
  do s1 <- expect_lit (js "\frac") s;
  let ws1 := takeWhile isWhiteSpace s1 in
  do s2 <- expect 123 (dropWhile isWhiteSpace s1);
  let g1 := takeWhile notCloseBrace s2 in
  if negb (truthy g1) then None else
  do s3 <- expect 125 (dropWhile notCloseBrace s2);
  let ws2 := takeWhile isWhiteSpace s3 in
  do s4 <- expect 123 (dropWhile isWhiteSpace s3);
  let g2 := takeWhile notCloseBrace s4 in
  if negb (truthy g2) then None else
  do _s5 <- expect 125 (dropWhile notCloseBrace s4);
  Some (g1 ++ js "/" ++ g2,
        5 + List.length ws1 + 1 + List.length g1 + 1
          + List.length ws2 + 1 + List.length g2 + 1).

(** [/[{}]/g] *)
Definition re_braces : matcher := fun s =>
  match s with
  | c :: _ => if char_eqb c 123 || char_eqb c 125 then Some ([], 1) else None
  | [] => None
  end.

Definition convertLatexToPlainText (latex : jsstring) : jsstring :=
  if negb (truthy latex) then []
  else
    trim
      (replace_g re_braces 0
        (replace_g re_frac 0
          (replace_g re_cdot 0
            (replace_g re_div 0
              (replace_g re_times 0
                (replace_g re_delimiters 0 latex)))))).

(** The client handle built by [createClient(url, key)]. *)
Record SupabaseClient := { supabaseUrl : jsstring; supabaseKey : jsstring }.

(** The module-level [let supabase: SupabaseClient | null]. *)
Definition State := option SupabaseClient.
Definition initial : State := None.

(** [supabase.from(table).insert(rows)] as issued through a client. *)
Record InsertRequest := {
  via : SupabaseClient;
  table : jsstring;
  rows : list JsObject
}.

Section WithLibrary.

(** [createClient] of the client library; [None] when it throws. It
    opens no connection. *)
Variable createClient : jsstring -> jsstring -> option SupabaseClient.

Definition initSupabase (st : State) (url key : jsstring) : State * bool :=
  if truthy url && truthy key then
    match createClient url key with
    | Some c => (Some c, true)
    | None => (None, false)
    end
  else (st, false).

End WithLibrary.

Definition not_initialized : jsstring :=
  js "Supabase 클라이언트가 초기화되지 않았습니다. 먼저 데이터베이스에 연결하세요.".

Definition save_failed (message : jsstring) : jsstring :=
  js "데이터베이스에 문제를 저장하는 데 실패했습니다: " ++ message.

Definition row_of (problemData : Problem) (level : Level) (topic : jsstring)
    (difficulty : Difficulty) : JsObject :=
  let problem := problemData.(problem) in
  let answer := problemData.(answer) in
  let solution := problemData.(solution) in
  let problem_plain := convertLatexToPlainText problem in
  let answer_plain := convertLatexToPlainText answer in
  let solution_plain := convertLatexToPlainText solution in
  [ (js "level", JStr (Level_value level));
    (js "topic", JStr topic);
    (js "difficulty", JStr (Difficulty_value difficulty));
    (js "problem", JStr problem);
    (js "answer", JStr answer);
    (js "solution", JStr solution);
    (js "problem_plain", JStr problem_plain);
    (js "answer_plain", JStr answer_plain);
    (js "solution_plain", JStr solution_plain) ].

(** [saveProblemToDb]. [respond] is the [error] of the awaited insert:
    [None] for [null], otherwise the backend's message. The result is
    the list of requests issued and how the promise settles. *)
Definition saveProblemToDb (st : State) (respond : InsertRequest -> option jsstring)
    (problemData : Problem) (level : Level) (topic : jsstring)
    (difficulty : Difficulty) : list InsertRequest * Settled unit :=
  match st with
  | None => ([], Rejected (Error not_initialized))
  | Some supabase =>
      let request :=
        {| via := supabase; table := js "math_problems";
           rows := [row_of problemData level topic difficulty] |} in
      match respond request with
      | Some message => ([request], Rejected (Error (save_failed message)))
      | None => ([request], Fulfilled tt)
      end
  end.

(** What [supabase.from(table).select(columns).order(column, options)]
    is called with. *)
Record SelectRequest := {
  select_via : SupabaseClient;
  select_table : jsstring;
  columns : jsstring;
  order_column : jsstring;
  ascending : bool
}.

(** The awaited [{ data, error }] of a select. *)
Inductive SelectResponse :=
| SelectData (data : list Problem)
| SelectError (message : jsstring).

Definition not_initialized_for_read : jsstring :=
  js "Supabase 클라이언트가 초기화되지 않았습니다.".

Definition fetch_failed : jsstring :=
  js "데이터베이스에서 문제를 불러오는 데 실패했습니다.".

(** [getProblemsFromDb] *)
Definition getProblemsFromDb (st : State)
    (respond : SelectRequest -> SelectResponse)
    : list SelectRequest * Settled (list Problem) :=
  match st with
  | None => ([], Rejected (Error not_initialized_for_read))
  | Some supabase =>
      let request :=
        {| select_via := supabase; select_table := js "math_problems";
           columns := js "*"; order_column := js "created_at";
           ascending := false |} in
      match respond request with
      | SelectError _ => ([request], Rejected (Error fetch_failed))
      | SelectData data => ([request], Fulfilled data)
      end
  end.

(** The calls this module makes into the client library, console output
    apart. *)
Inductive Call :=
| CreateClient (url key : jsstring)
| Insert (request : InsertRequest)
| Select (request : SelectRequest).

(** The calls that go to the network: the two queries. [createClient]
    checks its arguments and builds the client object. *)
Definition is_network_call (c : Call) : bool :=
  match c with
  | CreateClient _ _ => false
  | Insert _ | Select _ => true
  end.

Section Connect.

Variable createClient : jsstring -> jsstring -> option SupabaseClient.

(** [initSupabase] with the calls it makes, in order. *)
Definition initSupabase_calls (st : State) (url key : jsstring)
    : State * bool * list Call :=
  if truthy url && truthy key then
    match createClient url key with
    | Some c => (Some c, true, [CreateClient url key])
    | None => (None, false, [CreateClient url key])
    end
  else (st, false, []).

End Connect.

End SupabaseService.

(* ------------------------------------------------------------------ *)
(** * services/mongoDbService.ts *)

Module MongoDbService.

(** The module-level [let backendUrl: string | null]. *)
Definition State := option jsstring.
Definition initial : State := None.

(** What [fetch] is called with. *)
Record FetchRequest := {
  endpoint : jsstring;
  method : jsstring;
  headers : list (jsstring * jsstring);
  body : jsstring
}.

(** The parts of a [Response] the service reads; [json] is [None] when
    [response.json()] rejects because the body is not JSON. *)
Record Response := {
  status : N;
  statusText : jsstring;
  json : option JsValue
}.

(** [response.ok] *)
Definition ok (r : Response) : bool :=
  ((200 <=? r.(status)) && (r.(status) <=? 299))%N.

(** [!backendUrl] *)
Definition unset (st : State) : bool :=
  match st with
  | None => true
  | Some u => negb (truthy u)
  end.

Definition not_initialized : jsstring :=
  js "MongoDB 백엔드 서비스가 초기화되지 않았습니다. 먼저 백엔드에 연결하세요.".

Definition status_line (r : Response) : jsstring :=
  js "서버 오류: " ++ of_N r.(status) ++ js " " ++ r.(statusText).

Definition save_failed (errorMessage : jsstring) : jsstring :=
  js "MongoDB에 문제를 저장하는 데 실패했습니다: " ++ errorMessage.

Definition unreachable : jsstring :=
  js "백엔드 서버에 연결할 수 없습니다. URL 및 네트워크 연결을 확인하세요.".

(** The own properties of a [Problem] object, the optional ones when
    present, listed in the order of the interface. The type is erased
    at run time: an object that was built elsewhere may list them in
    another order and carry further ones, see
    [saveProblemToMongoDb_object]. *)
Definition opt_prop {A} (k : string) (f : A -> JsValue) (o : option A) : JsObject :=
  match o with
  | Some a => [(js k, f a)]
  | None => []
  end.

Definition Problem_props (p : Problem) : JsObject :=
  opt_prop "id" (fun n => JNum (Number_of_Z n)) p.(id)
  ++ opt_prop "created_at" JStr p.(created_at)
  ++ [ (js "problem", JStr p.(problem));
       (js "answer", JStr p.(answer));
       (js "solution", JStr p.(solution)) ]
  ++ opt_prop "level" (fun l => JStr (Level_value l)) p.(level)
  ++ opt_prop "topic" JStr p.(topic)
  ++ opt_prop "difficulty" (fun d => JStr (Difficulty_value d)) p.(difficulty)
  ++ opt_prop "problem_plain" JStr p.(problem_plain)
  ++ opt_prop "answer_plain" JStr p.(answer_plain)
  ++ opt_prop "solution_plain" JStr p.(solution_plain).

(** [{ ...problemData, level, topic, difficulty }] for the object that
    [problemData] is at run time: its own properties in their order,
    then the three shorthand properties, each taking the place of a
    property of its name or going last. *)
Definition payload_of_object (problemData : JsObject) (level : Level)
    (topic : jsstring) (difficulty : Difficulty) : JsObject :=
  obj_set
    (obj_set
      (obj_set problemData (js "level") (JStr (Level_value level)))
      (js "topic") (JStr topic))
    (js "difficulty") (JStr (Difficulty_value difficulty)).

(** [{ ...problemData, level, topic, difficulty }] *)
Definition payload_of (problemData : Problem) (level : Level) (topic : jsstring)
    (difficulty : Difficulty) : JsObject :=
  obj_set
    (obj_set
      (obj_set (Problem_props problemData) (js "level") (JStr (Level_value level)))
      (js "topic") (JStr topic))
    (js "difficulty") (JStr (Difficulty_value difficulty)).

(** The message of a failed response:
    [errorData.message || errorMessage] inside [try { ... } catch {}]. *)
Definition errorMessage_of (r : Response) : jsstring :=
  match r.(json) with
  | None => status_line r
  | Some errorData =>
      match get_property errorData (js "message") with
      | ReadValue m => if ToBoolean m then ToString m else status_line r
      | ReadUndefined => status_line r
      | ReadThrows => status_line r
      end
  end.

(** The [catch (error)] block around the request. *)
Definition rethrow (error : JsError) : JsError :=
  match error with
  | TypeError m =>
      if includes m (js "fetch") then Error unreachable else error
  | Error _ => error
  end.

Section WithPlatform.

(** [new URL(url)] succeeds. *)
Variable URL_parses : jsstring -> bool.
(** [new URL(relative, base).toString()], or what it throws. *)
Variable URL_resolve : jsstring -> jsstring -> Settled jsstring.
(** [JSON.stringify] *)
Variable JSON_stringify : JsObject -> jsstring.

Definition initMongoDb (st : State) (url : jsstring) : State * bool :=
  if truthy url && (startsWith url (js "http://") || startsWith url (js "https://"))
  then
    if URL_parses url then (Some url, true) else (None, false)
  else (st, false).

(** [saveProblemToMongoDb]. [network] is how the awaited [fetch]
    settles. The result is the list of requests issued and how the
    promise settles. *)
Definition saveProblemToMongoDb (st : State)
    (network : FetchRequest -> Settled Response)
    (problemData : Problem) (level : Level) (topic : jsstring)
    (difficulty : Difficulty) : list FetchRequest * Settled unit :=
  if unset st then ([], Rejected (Error not_initialized))
  else
    let backendUrl := match st with Some u => u | None => [] end in
    let payload := payload_of problemData level topic difficulty in
    match URL_resolve (js "api/problems") backendUrl with
    | Rejected error => ([], Rejected (rethrow error))
    | Fulfilled endpoint =>
        let request :=
          {| endpoint := endpoint;
             method := js "POST";
             headers := [(js "Content-Type", js "application/json")];
             body := JSON_stringify payload |} in
        match network request with
        | Rejected error => ([request], Rejected (rethrow error))
        | Fulfilled response =>
            if negb (ok response) then
              ([request],
               Rejected (rethrow (Error (save_failed (errorMessage_of response)))))
            else ([request], Fulfilled tt)
        end
    end.

(** [saveProblemToMongoDb] on the object it is handed at run time. *)
Definition saveProblemToMongoDb_object (st : State)
    (network : FetchRequest -> Settled Response)
    (problemData : JsObject) (level : Level) (topic : jsstring)
    (difficulty : Difficulty) : list FetchRequest * Settled unit :=
  if unset st then ([], Rejected (Error not_initialized))
  else
    let backendUrl := match st with Some u => u | None => [] end in
    let payload := payload_of_object problemData level topic difficulty in
    match URL_resolve (js "api/problems") backendUrl with
    | Rejected error => ([], Rejected (rethrow error))
    | Fulfilled endpoint =>
        let request :=
          {| endpoint := endpoint;
             method := js "POST";
             headers := [(js "Content-Type", js "application/json")];
             body := JSON_stringify payload |} in
        match network request with
        | Rejected error => ([request], Rejected (rethrow error))
        | Fulfilled response =>
            if negb (ok response) then
              ([request],
               Rejected (rethrow (Error (save_failed (errorMessage_of response)))))
            else ([request], Fulfilled tt)
        end
    end.

End WithPlatform.

(** The calls this module makes out of itself, console output apart. *)
Inductive Call :=
| NewURL (url : jsstring)
| Fetch (request : FetchRequest).

(** The calls that go to the network. [new URL] parses a text. *)
Definition is_network_call (c : Call) : bool :=
  match c with
  | NewURL _ => false
  | Fetch _ => true
  end.

Section Connect.

Variable URL_parses : jsstring -> bool.

(** [initMongoDb] with the calls it makes, in order. *)
Definition initMongoDb_calls (st : State) (url : jsstring)
    : State * bool * list Call :=
  if truthy url && (startsWith url (js "http://") || startsWith url (js "https://"))
  then
    if URL_parses url then (Some url, true, [NewURL url])
    else (None, false, [NewURL url])
  else (st, false, []).

End Connect.

End MongoDbService.

(* ------------------------------------------------------------------ *)
(** * services/geminiService.ts *)

Module GeminiService.

Definition dquote : jsstring := [34%N].

(** [problemSchema]; [Type.OBJECT] and [Type.STRING] are the strings
    ["OBJECT"] and ["STRING"]. *)
Definition problemSchema : JsValue :=
  JObj
    [ (js "type", JStr (js "OBJECT"));
      (js "properties",
       JObj
         [ (js "problem",
            JObj [ (js "type", JStr (js "STRING"));
                   (js "description",
                    JStr (js "LaTeX 형식의 수학 문제입니다. 블록 방정식에는 $$를, 인라인에는 $를 사용합니다.")) ]);
           (js "answer",
            JObj [ (js "type", JStr (js "STRING"));
                   (js "description",
                    JStr (js "설명이나 단위가 없는 최종 숫자 또는 간단한 대수적 답입니다.")) ]);
           (js "solution",
            JObj [ (js "type", JStr (js "STRING"));
                   (js "description",
                    JStr (js "문제를 해결하는 방법에 대한 단계별 설명이며, LaTeX 형식입니다.")) ]) ]);
      (js "required",
       JArr [JStr (js "problem"); JStr (js "answer"); JStr (js "solution")]) ].

(** [generateProblemPrompt] *)
Definition generateProblemPrompt (level : Level) (topic : jsstring)
    (difficulty : Difficulty) : jsstring :=
  let prompt :=
    dquote ++ Level_value level ++ dquote ++ js " 과정의 "
    ++ dquote ++ topic ++ dquote ++ js "에 대한 "
    ++ dquote ++ Difficulty_value difficulty ++ dquote
    ++ js " 난이도의 수학 문제를 생성해 주세요." in
  let prompt :=
    match difficulty with
    | Concept =>
        prompt ++ js " 이것은 학생의 핵심 개념 이해도를 확인하기 위한 기본적인 질문이어야 합니다."
    | _ => prompt
    end in
  prompt ++ js " 문제와 풀이는 모든 수학적 표기에 LaTeX를 사용해야 합니다. 제공된 스키마를 엄격히 준수하는 JSON 객체로 출력 형식을 지정해 주세요.".

(** What [ai.models.generateContent] is called with; the temperature is
    kept as its numeral. *)
Record GenerateRequest := {
  model : jsstring;
  contents : jsstring;
  responseMimeType : jsstring;
  responseSchema : JsValue;
  temperature : jsstring
}.

Definition invalid_format : jsstring :=
  js "API로부터 유효하지 않은 문제 형식을 받았습니다.".

Definition generation_failed : jsstring :=
  js "수학 문제를 생성하는 데 실패했습니다. 자세한 내용은 콘솔을 확인하세요.".

(** [a && b]: the first operand when it is falsy, else the second. *)
Definition and_then (a : PropertyRead) (b : PropertyRead) : PropertyRead :=
  match a with
  | ReadThrows => ReadThrows
  | ReadUndefined => ReadUndefined
  | ReadValue v => if ToBoolean v then b else a
  end.

(** The test [data.problem && data.answer && data.solution]: [None]
    when reading a property throws. *)
Definition basic_validation (data : JsValue) : option bool :=
  match and_then
          (and_then (get_property data (js "problem"))
             (get_property data (js "answer")))
          (get_property data (js "solution")) with
  | ReadThrows => None
  | ReadUndefined => Some false
  | ReadValue v => Some (ToBoolean v)
  end.

Section WithPlatform.

(** [JSON.parse]; [None] when it throws. *)
Variable JSON_parse : jsstring -> option JsValue.

(** [callGeminiApi]. [ai] is how the awaited [generateContent] settles:
    with the [text] of the response ([None] when it has none) or with
    an error. Everything thrown inside the [try] is replaced by one
    fixed error in its [catch]. *)
Definition callGeminiApi (ai : GenerateRequest -> Settled (option jsstring))
    (prompt : jsstring) : list GenerateRequest * Settled JsValue :=
  let request :=
    {| model := js "gemini-2.5-flash"; contents := prompt;
       responseMimeType := js "application/json";
       responseSchema := problemSchema; temperature := js "0.8" |} in
  let try_block : Settled JsValue :=
    match ai request with
    | Rejected error => Rejected error
    | Fulfilled None =>
        Rejected (TypeError (js "Cannot read properties of undefined"))
    | Fulfilled (Some text) =>
        let jsonText := trim text in
        match JSON_parse jsonText with
        | None => Rejected (Error (js "Unexpected token"))
        | Some data =>
            match basic_validation data with
            | Some true => Fulfilled data
            | Some false => Rejected (Error invalid_format)
            | None =>
                Rejected (TypeError (js "Cannot read properties of null"))
            end
        end
    end in
  ([request],
   match try_block with
   | Fulfilled data => Fulfilled data
   | Rejected _ => Rejected (Error generation_failed)
   end).

(** [generateMathProblem] *)
Definition generateMathProblem (ai : GenerateRequest -> Settled (option jsstring))
    (level : Level) (topic : jsstring) (difficulty : Difficulty)
    : list GenerateRequest * Settled JsValue :=
  let prompt := generateProblemPrompt level topic difficulty in
  callGeminiApi ai prompt.

End WithPlatform.

End GeminiService.

(* ------------------------------------------------------------------ *)
(** * services/googleDriveService.ts *)

Module GoogleDriveService.

Definition DISCOVERY_DOC : jsstring :=
  js "https://www.googleapis.com/discovery/v1/apis/drive/v3/rest".
Definition SCOPES : jsstring :=
  js "https://www.googleapis.com/auth/drive.file".

(** The configuration a token client was created with. *)
Record TokenClient := { client_id : jsstring; scope : jsstring }.

(** The module-level [gapi], [google] and [tokenClient] (the first two
    are [true] once assigned from [window]), together with the token held
    by [gapi.client], the session handle of this backend. *)
Record State := {
  gapi : bool;
  google : bool;
  tokenClient : option TokenClient;
  token : option jsstring
}.

Definition initial : State :=
  {| gapi := false; google := false; tokenClient := None; token := None |}.

Record UploadRequest := {
  path : jsstring;
  method : jsstring;
  params : list (jsstring * jsstring);
  headers : list (jsstring * jsstring);
  body : jsstring
}.

(** Calls into the Google libraries, in the order made. *)
Inductive Call :=
| GapiLoad (library : jsstring)
| GapiClientInit (discoveryDocs : list jsstring)
| InitTokenClient (config : TokenClient)
| RequestAccessToken (prompt : jsstring)
| Revoke (access_token : jsstring)
| ClientRequest (request : UploadRequest).

(** The calls that go to the network: loading a library module, fetching
    the discovery document, opening the consent flow, revoking a token
    and uploading. Creating the token client stays local. *)
Definition is_network_call (c : Call) : bool :=
  match c with
  | InitTokenClient _ => false
  | _ => true
  end.

(** What a failing library call throws. *)
Inductive Thrown :=
| NotAnError
| AnError (e : JsError).

Definition init_failed (error : Thrown) : jsstring :=
  js "Google Client 초기화에 실패했습니다. Client ID가 유효한지, 그리고 Google Cloud Console에서 Drive API가 활성화되었는지 확인하세요."
  ++ match error with
     | AnError e => [10%N] ++ js "원래 오류: " ++ error_message e
     | NotAnError => []
     end.

(** How the two library calls inside the [try] of [initGoogleClient] end:
    what the awaited [gapi.client.init] throws and what [initTokenClient]
    throws for a configuration ([None]: the call succeeds). *)
Record Libraries := {
  client_init : option Thrown;
  token_client_init : TokenClient -> option Thrown
}.

(** [initGoogleClient], once [gapi.load] has called back. The [apiKey]
    is not passed on. *)
Definition initGoogleClient (st : State) (libs : Libraries)
    (apiKey clientId : jsstring) : State * list Call * Settled unit :=
  let st1 := {| gapi := true; google := true;
                tokenClient := st.(tokenClient); token := st.(token) |} in
  let calls := [GapiLoad (js "client"); GapiClientInit [DISCOVERY_DOC]] in
  match libs.(client_init) with
  | None =>
      let config := {| client_id := clientId; scope := SCOPES |} in
      match libs.(token_client_init) config with
      | None =>
          ({| gapi := true; google := true;
              tokenClient := Some config; token := st.(token) |},
           calls ++ [InitTokenClient config],
           Fulfilled tt)
      | Some error =>
          (st1, calls ++ [InitTokenClient config],
           Rejected (Error (init_failed error)))
      end
  | Some error => (st1, calls, Rejected (Error (init_failed error)))
  end.

(** [handleAuthClick] *)
Definition handleAuthClick (st : State) : list Call :=
  match st.(tokenClient) with
  | Some _ => [RequestAccessToken (js "consent")]
  | None => []
  end.

(** The token client's [callback]: the new state and the value handed
    to [updateAuthStatus]. *)
Definition callback (st : State) (access_token : option jsstring) : State * bool :=
  match access_token with
  | Some t =>
      if truthy t then
        ({| gapi := st.(gapi); google := st.(google);
            tokenClient := st.(tokenClient); token := Some t |}, true)
      else (st, false)
  | None => (st, false)
  end.

(** [handleSignoutClick]. [revoked] tells whether the revocation calls
    its completion callback. The last component is the value handed to
    [updateAuthStatus], if it is called. *)
Definition handleSignoutClick (st : State) (revoked : bool)
    : State * list Call * option bool :=
  if st.(gapi) && st.(google) then
    match st.(token) with
    | Some t =>
        if revoked then
          ({| gapi := st.(gapi); google := st.(google);
              tokenClient := st.(tokenClient); token := None |},
           [Revoke t], Some false)
        else (st, [Revoke t], None)
    | None => (st, [], None)
    end
  else (st, [], None).

Definition nl : jsstring := [10%N].
Definition crlf : jsstring := [13%N; 10%N].
Definition dquote : jsstring := [34%N].
Definition rule : jsstring := js "====================".

(** [createProblemFileContent] *)
Definition createProblemFileContent (problemData : Problem) (level : Level)
    (topic : jsstring) (difficulty : Difficulty) : jsstring :=
  trim
    (nl ++ js "교육과정: " ++ Level_value level
     ++ nl ++ js "주제: " ++ topic
     ++ nl ++ js "난이도: " ++ Difficulty_value difficulty
     ++ nl
     ++ nl ++ rule ++ nl ++ js "문제" ++ nl ++ rule
     ++ nl ++ problemData.(problem)
     ++ nl
     ++ nl ++ rule ++ nl ++ js "정답" ++ nl ++ rule
     ++ nl ++ problemData.(answer)
     ++ nl
     ++ nl ++ rule ++ nl ++ js "풀이" ++ nl ++ rule
     ++ nl ++ problemData.(solution)
     ++ nl ++ js "    ").

Definition not_logged_in : jsstring :=
  js "Google Drive에 로그인되어 있지 않습니다.".

Definition bad_status (status : N) : jsstring :=
  js "Google Drive에 저장하는 데 실패했습니다. 응답 코드: " ++ of_N status.

Definition save_failed : jsstring :=
  js "Google Drive에 문제를 저장하는 데 실패했습니다. 자세한 내용은 콘솔을 확인하세요.".

Section WithPlatform.

(** [JSON.stringify] *)
Variable JSON_stringify : JsObject -> jsstring.
(** [new Date().toISOString()] at the time of the call. *)
Variable now : jsstring.

Definition upload_of (problemData : Problem) (level : Level)
    (topic : jsstring) (difficulty : Difficulty) : UploadRequest :=
  let fileContent := createProblemFileContent problemData level topic difficulty in
  let fileName :=
    js "수학 문제 - " ++ Level_value level ++ js " - "
    ++ before_first (js " (") topic ++ js " - " ++ now ++ js ".txt" in
  let boundary := js "-------314159265358979323846" in
  let delimiter := crlf ++ js "--" ++ boundary ++ crlf in
  let close_delim := crlf ++ js "--" ++ boundary ++ js "--" in
  let metadata :=
    [ (js "name", JStr fileName); (js "mimeType", JStr (js "text/plain")) ] in
  let multipartRequestBody :=
    delimiter
    ++ js "Content-Type: application/json; charset=UTF-8" ++ crlf ++ crlf
    ++ JSON_stringify metadata
    ++ delimiter
    ++ js "Content-Type: text/plain; charset=UTF-8" ++ crlf ++ crlf
    ++ fileContent
    ++ close_delim in
  {| path := js "https://www.googleapis.com/upload/drive/v3/files";
     method := js "POST";
     params := [(js "uploadType", js "multipart")];
     headers :=
       [(js "Content-Type",
         js "multipart/related; boundary=" ++ dquote ++ boundary ++ dquote)];
     body := multipartRequestBody |}.

(** [saveProblemToDrive]. [respond] is how the awaited
    [gapi.client.request] settles: the response status, or whatever it
    rejects with. The [throw] for a status other than 200 sits inside
    the [try] whose [catch] replaces every error by one fixed
    message. *)
Definition saveProblemToDrive (st : State)
    (respond : UploadRequest -> Settled N)
    (problemData : Problem) (level : Level) (topic : jsstring)
    (difficulty : Difficulty) : list Call * Settled unit :=
  match st.(gapi), st.(token) with
  | true, Some _ =>
      let request := upload_of problemData level topic difficulty in
      let try_block : Settled unit :=
        match respond request with
        | Rejected error => Rejected error
        | Fulfilled status =>
            if negb (status =? 200)%N then Rejected (Error (bad_status status))
            else Fulfilled tt
        end in
      ([ClientRequest request],
       match try_block with
       | Rejected _ => Rejected (Error save_failed)
       | Fulfilled _ => Fulfilled tt
       end)
  | _, _ => ([], Rejected (Error not_logged_in))
  end.

End WithPlatform.

End GoogleDriveService.

(* ------------------------------------------------------------------ *)
(** * App.tsx *)

Module App.

(** ** The app's own copy of the normaliser (used by [handleCopy]) *)

Definition re_delimiters : matcher := fun s =>
  if startsWith s (js "$$") then Some ([], 2)
  else if startsWith s (js "\[") then Some ([], 2)
  else if startsWith s (js "\]") then Some ([], 2)
  else if startsWith s (js "$") then Some ([], 1)
  else None.

Definition re_times : matcher := literal (js "\times") (js "x").
Definition re_div : matcher := literal (js "\div") (js "÷").
Definition re_cdot : matcher := literal (js "\cdot") (js "·").

Definition notCloseBrace (c : N) : bool := negb (char_eqb c 125).

Definition re_frac : matcher := fun s =>
  do s1 <- expect_lit (js "\frac") s;
  let ws1 := takeWhile isWhiteSpace s1 in
  do s2 <- expect 123 (dropWhile isWhiteSpace s1);
  let g1 := takeWhile notCloseBrace s2 in
  if negb (truthy g1) then None else
  do s3 <- expect 125 (dropWhile notCloseBrace s2);
  let ws2 := takeWhile isWhiteSpace s3 in
  do s4 <- expect 123 (dropWhile isWhiteSpace s3);
  let g2 := takeWhile notCloseBrace s4 in
  if negb (truthy g2) then None else
  do _s5 <- expect 125 (dropWhile notCloseBrace s4);
  Some (g1 ++ js "/" ++ g2,
        5 + List.length ws1 + 1 + List.length g1 + 1
          + List.length ws2 + 1 + List.length g2 + 1).

Definition re_braces : matcher := fun s =>
  match s with
  | c :: _ => if char_eqb c 123 || char_eqb c 125 then Some ([], 1) else None
  | [] => None
  end.

Definition convertLatexToPlainText (latex : jsstring) : jsstring :=
  if negb (truthy latex) then []
  else
    trim
      (replace_g re_braces 0
        (replace_g re_frac 0
          (replace_g re_cdot 0
            (replace_g re_div 0
              (replace_g re_times 0
                (replace_g re_delimiters 0 latex)))))).

(** ** React state, grouped by the handler that reads it

    A handler is modelled from the click to the moment its promise has
    settled. The busy flags of the save and connect buttons
    ([isSaving], [isSupabaseConnecting], ...) are [false] before the
    click and [false] again afterwards and are not part of the records
    below. *)

Record Selection := {
  level : Level;
  topic : jsstring;
  difficulty : Difficulty;
  problems : list Problem;
  activeProblemIndex : nat
}.

(** [problems[activeProblemIndex]] *)
Definition problemToSave (sel : Selection) : option Problem :=
  nth_error sel.(problems) sel.(activeProblemIndex).

Definition unknown_error : jsstring := js "알 수 없는 오류가 발생했습니다.".

(** The outcome of one click on a save button: nothing happened (the
    handler returned at its guard), or the dispatcher was called and its
    promise settled. *)
Inductive SaveOutcome :=
| NotIssued
| Saved
| SaveFailed (message : jsstring).

Definition outcome_of (r : Settled unit) : SaveOutcome :=
  match r with
  | Fulfilled _ => Saved
  | Rejected e => SaveFailed (error_message e)
  end.

(** *** Supabase *)

Record SupabasePanel := {
  supabaseUrl : jsstring;
  supabaseAnonKey : jsstring;
  isSupabaseConnected : bool;
  supabaseError : option jsstring;
  saveError : option jsstring;
  saveSuccess : bool;
  supabase : SupabaseService.State
}.

Definition supabase_start (url key : jsstring) : SupabasePanel :=
  {| supabaseUrl := url; supabaseAnonKey := key;
     isSupabaseConnected := false; supabaseError := None;
     saveError := None; saveSuccess := false;
     supabase := SupabaseService.initial |}.

Section Supabase.

Variable createClient :
  jsstring -> jsstring -> option SupabaseService.SupabaseClient.

Definition handleSupabaseConnect (p : SupabasePanel) : SupabasePanel :=
  let (st, success) :=
    SupabaseService.initSupabase createClient p.(supabase)
      p.(supabaseUrl) p.(supabaseAnonKey) in
  {| supabaseUrl := p.(supabaseUrl); supabaseAnonKey := p.(supabaseAnonKey);
     isSupabaseConnected := success;
     supabaseError :=
       if success then None else Some (js "URL과 키를 확인해주세요.");
     saveError := p.(saveError); saveSuccess := p.(saveSuccess);
     supabase := st |}.

End Supabase.

(** The disconnect button: [setIsSupabaseConnected(false)]. *)
Definition supabaseDisconnect (p : SupabasePanel) : SupabasePanel :=
  {| supabaseUrl := p.(supabaseUrl); supabaseAnonKey := p.(supabaseAnonKey);
     isSupabaseConnected := false; supabaseError := p.(supabaseError);
     saveError := p.(saveError); saveSuccess := p.(saveSuccess);
     supabase := p.(supabase) |}.

Definition handleSaveToDb (sel : Selection) (p : SupabasePanel)
    (respond : SupabaseService.InsertRequest -> option jsstring)
    : SupabasePanel * list SupabaseService.InsertRequest * SaveOutcome :=
  match problemToSave sel, p.(isSupabaseConnected) with
  | Some problemToSave, true =>
      let (requests, r) :=
        SupabaseService.saveProblemToDb p.(supabase) respond problemToSave
          sel.(level) sel.(topic) sel.(difficulty) in
      ({| supabaseUrl := p.(supabaseUrl); supabaseAnonKey := p.(supabaseAnonKey);
          isSupabaseConnected := true; supabaseError := p.(supabaseError);
          saveError :=
            match r with Rejected e => Some (error_message e) | Fulfilled _ => None end;
          saveSuccess :=
            match r with Rejected _ => false | Fulfilled _ => true end;
          supabase := p.(supabase) |},
       requests, outcome_of r)
  | _, _ => (p, [], NotIssued)
  end.

(** *** MongoDB backend *)

Record MongoPanel := {
  mongoDbBackendUrl : jsstring;
  isMongoDbConnected : bool;
  mongoDbError : option jsstring;
  mongoDbSaveSuccess : bool;
  mongoDbSaveError : option jsstring;
  backend : MongoDbService.State
}.

Definition mongo_start (url : jsstring) : MongoPanel :=
  {| mongoDbBackendUrl := url; isMongoDbConnected := false;
     mongoDbError := None; mongoDbSaveSuccess := false;
     mongoDbSaveError := None; backend := MongoDbService.initial |}.

Section Mongo.

Variable URL_parses : jsstring -> bool.
Variable URL_resolve : jsstring -> jsstring -> Settled jsstring.
Variable JSON_stringify : JsObject -> jsstring.

Definition handleMongoDbConnect (p : MongoPanel) : MongoPanel :=
  let (st, success) :=
    MongoDbService.initMongoDb URL_parses p.(backend) p.(mongoDbBackendUrl) in
  {| mongoDbBackendUrl := p.(mongoDbBackendUrl);
     isMongoDbConnected := success;
     mongoDbError :=
       if success then None else Some (js "유효한 백엔드 서버 URL을 입력하세요.");
     mongoDbSaveSuccess := p.(mongoDbSaveSuccess);
     mongoDbSaveError := p.(mongoDbSaveError);
     backend := st |}.

Definition handleSaveToMongo (sel : Selection) (p : MongoPanel)
    (network : MongoDbService.FetchRequest -> Settled MongoDbService.Response)
    : MongoPanel * list MongoDbService.FetchRequest * SaveOutcome :=
  match problemToSave sel, p.(isMongoDbConnected) with
  | Some problemToSave, true =>
      let (requests, r) :=
        MongoDbService.saveProblemToMongoDb URL_resolve JSON_stringify
          p.(backend) network problemToSave
          sel.(level) sel.(topic) sel.(difficulty) in
      ({| mongoDbBackendUrl := p.(mongoDbBackendUrl);
          isMongoDbConnected := true; mongoDbError := p.(mongoDbError);
          mongoDbSaveSuccess :=
            match r with Rejected _ => false | Fulfilled _ => true end;
          mongoDbSaveError :=
            match r with Rejected e => Some (error_message e) | Fulfilled _ => None end;
          backend := p.(backend) |},
       requests, outcome_of r)
  | _, _ => (p, [], NotIssued)
  end.

End Mongo.

(** The disconnect button: [setIsMongoDbConnected(false)]. *)
Definition mongoDisconnect (p : MongoPanel) : MongoPanel :=
  {| mongoDbBackendUrl := p.(mongoDbBackendUrl); isMongoDbConnected := false;
     mongoDbError := p.(mongoDbError);
     mongoDbSaveSuccess := p.(mongoDbSaveSuccess);
     mongoDbSaveError := p.(mongoDbSaveError); backend := p.(backend) |}.


(** *** Google Drive *)

Record DrivePanel := {
  googleApiKey : jsstring;
  googleClientId : jsstring;
  isGoogleAuthReady : bool;
  isGoogleLoggedIn : bool;
  googleAuthError : option jsstring;
  driveSaveError : option jsstring;
  driveSaveSuccess : bool;
  drive : GoogleDriveService.State
}.

Definition drive_start (apiKey clientId : jsstring) : DrivePanel :=
  {| googleApiKey := apiKey; googleClientId := clientId;
     isGoogleAuthReady := false; isGoogleLoggedIn := false;
     googleAuthError := None; driveSaveError := None;
     driveSaveSuccess := false; drive := GoogleDriveService.initial |}.

(** [handleGoogleConnect], once the two library scripts have loaded. *)
Definition handleGoogleConnect (p : DrivePanel)
    (libs : GoogleDriveService.Libraries)
    : DrivePanel * list GoogleDriveService.Call :=
  match GoogleDriveService.initGoogleClient p.(drive) libs
          p.(googleApiKey) p.(googleClientId) with
  | (st, calls, Fulfilled _) =>
      ({| googleApiKey := p.(googleApiKey); googleClientId := p.(googleClientId);
          isGoogleAuthReady := true; isGoogleLoggedIn := p.(isGoogleLoggedIn);
          googleAuthError := None; driveSaveError := p.(driveSaveError);
          driveSaveSuccess := p.(driveSaveSuccess); drive := st |},
       calls ++ GoogleDriveService.handleAuthClick st)
  | (st, calls, Rejected error) =>
      ({| googleApiKey := p.(googleApiKey); googleClientId := p.(googleClientId);
          isGoogleAuthReady := false; isGoogleLoggedIn := p.(isGoogleLoggedIn);
          googleAuthError :=
            Some (js "Google Drive 연결 초기화 실패: " ++ error_message error);
          driveSaveError := p.(driveSaveError);
          driveSaveSuccess := p.(driveSaveSuccess); drive := st |},
       calls)
  end.

(** The consent flow answers: the token client's callback runs with
    [setIsGoogleLoggedIn] as [updateAuthStatus]. *)
Definition onTokenResponse (p : DrivePanel) (access_token : option jsstring)
    : DrivePanel :=
  let (st, signedIn) := GoogleDriveService.callback p.(drive) access_token in
  {| googleApiKey := p.(googleApiKey); googleClientId := p.(googleClientId);
     isGoogleAuthReady := p.(isGoogleAuthReady); isGoogleLoggedIn := signedIn;
     googleAuthError := p.(googleAuthError); driveSaveError := p.(driveSaveError);
     driveSaveSuccess := p.(driveSaveSuccess); drive := st |}.

(** The disconnect button: [onSignout]. *)
Definition onSignout (p : DrivePanel) (revoked : bool)
    : DrivePanel * list GoogleDriveService.Call :=
  match GoogleDriveService.handleSignoutClick p.(drive) revoked with
  | (st, calls, status) =>
      ({| googleApiKey := p.(googleApiKey); googleClientId := p.(googleClientId);
          isGoogleAuthReady := false;
          isGoogleLoggedIn :=
            match status with Some b => b | None => p.(isGoogleLoggedIn) end;
          googleAuthError := p.(googleAuthError); driveSaveError := None;
          driveSaveSuccess := false; drive := st |},
       calls)
  end.

Section Drive.

Variable JSON_stringify : JsObject -> jsstring.
Variable now : jsstring.

Definition handleSaveToDrive (sel : Selection) (p : DrivePanel)
    (respond : GoogleDriveService.UploadRequest -> Settled N)
    : DrivePanel * list GoogleDriveService.Call * SaveOutcome :=
  match problemToSave sel, p.(isGoogleLoggedIn) with
  | Some problemToSave, true =>
      let (calls, r) :=
        GoogleDriveService.saveProblemToDrive JSON_stringify now
          p.(drive) respond problemToSave
          sel.(level) sel.(topic) sel.(difficulty) in
      ({| googleApiKey := p.(googleApiKey); googleClientId := p.(googleClientId);
          isGoogleAuthReady := p.(isGoogleAuthReady); isGoogleLoggedIn := true;
          googleAuthError := p.(googleAuthError);
          driveSaveError :=
            match r with Rejected e => Some (error_message e) | Fulfilled _ => None end;
          driveSaveSuccess :=
            match r with Rejected _ => false | Fulfilled _ => true end;
          drive := p.(drive) |},
       calls, outcome_of r)
  | _, _ => (p, [], NotIssued)
  end.

End Drive.

(** ** Export to a Word document *)

(** A child of [document.body]; [node_id] stands for the identity of the
    element object. *)
Record Node := {
  node_id : nat;
  tagName : jsstring;
  hidden : bool;
  innerHTML : jsstring
}.

(** What a click on the download link hands to the browser. *)
Record Download := {
  filename : jsstring;
  mime : jsstring;
  content : jsstring
}.

(** The document: the children of its body, the number of elements
    created so far, and the downloads triggered. *)
Record Page := {
  children : list Node;
  created : nat;
  downloads : list Download
}.

Definition appendChild (pg : Page) (n : Node) : Page :=
  {| children := pg.(children) ++ [n]; created := pg.(created);
     downloads := pg.(downloads) |}.

Definition removeChild (pg : Page) (n : Node) : Page :=
  {| children :=
       filter (fun c => negb (Nat.eqb c.(node_id) n.(node_id))) pg.(children);
     created := pg.(created); downloads := pg.(downloads) |}.

Definition is_child (pg : Page) (n : Node) : bool :=
  existsb (fun c => Nat.eqb c.(node_id) n.(node_id)) pg.(children).

(** [window.MathJax]: each method, when present, maps the container's
    markup to its markup after typesetting, or fails. *)
Record MathJax := {
  typesetPromise : option (jsstring -> Settled jsstring);
  typeset : option (jsstring -> Settled jsstring)
}.

Record DownloadUi := {
  isDownloading : bool;
  error : option jsstring
}.

Definition nl : jsstring := [10%N].
Definition dquote : jsstring := [34%N].

(** The markup of problem number [index + 1]. *)
Definition fragment (index : nat) (p : Problem) : jsstring :=
  nl ++ js "            <div style=" ++ dquote ++ js "page-break-after: always;"
    ++ dquote ++ js ">"
  ++ nl ++ js "                <h1>문제 " ++ of_N (N.of_nat (index + 1)) ++ js "</h1>"
  ++ nl ++ js "                <hr>"
  ++ nl ++ js "                <h2>문제</h2>"
  ++ nl ++ js "                <div>" ++ p.(problem) ++ js "</div>"
  ++ nl ++ js "                <h2>정답</h2>"
  ++ nl ++ js "                <div>" ++ p.(answer) ++ js "</div>"
  ++ nl ++ js "                <h2>풀이</h2>"
  ++ nl ++ js "                <div>" ++ p.(solution) ++ js "</div>"
  ++ nl ++ js "            </div>"
  ++ nl ++ js "        ".

(** [problems.map((p, index) => ...)] *)
Fixpoint map_index (index : nat) (ps : list Problem) : list jsstring :=
  match ps with
  | [] => []
  | p :: r => fragment index p :: map_index (S index) r
  end.

Definition contentHtml_of (ps : list Problem) : jsstring :=
  join [] (map_index 0 ps).

(** The document envelope around the rendered markup. *)
Definition staticSource_of (renderedContent : jsstring) : jsstring :=
  nl ++ js "            <html xmlns:o=" ++ dquote
    ++ js "urn:schemas-microsoft-com:office:office" ++ dquote
    ++ js " xmlns:w=" ++ dquote ++ js "urn:schemas-microsoft-com:office:word"
    ++ dquote ++ js " xmlns=" ++ dquote ++ js "http://www.w3.org/TR/REC-html40"
    ++ dquote ++ js ">"
  ++ nl ++ js "                <head>"
  ++ nl ++ js "                    <meta charset=" ++ dquote ++ js "utf-8"
    ++ dquote ++ js ">"
  ++ nl ++ js "                    <title>수학 문제</title>"
  ++ nl ++ js "                    <style>"
  ++ nl ++ js "                        body { font-family: 'Malgun Gothic', sans-serif; }"
  ++ nl ++ js "                        h1, h2 { color: #333; }"
  ++ nl ++ js "                        hr { border: 0; border-top: 1px solid #ccc; }"
  ++ nl ++ js "                    </style>"
  ++ nl ++ js "                </head>"
  ++ nl ++ js "                <body>"
  ++ nl ++ js "                    " ++ renderedContent
  ++ nl ++ js "                </body>"
  ++ nl ++ js "            </html>"
  ++ nl ++ js "        ".

Definition export_failed : jsstring := js "Word 파일을 생성하는 데 실패했습니다.".

Section ExportPipeline.

(** The markup read back from [innerHTML] after assigning a text to
    it (the browser parses and re-serialises). *)
Variable serialized : jsstring -> jsstring.

(** The hidden container created by the export for [ps]. *)
Definition renderDiv_of (pg : Page) (ps : list Problem) : Node :=
  {| node_id := pg.(created); tagName := js "div"; hidden := true;
     innerHTML := serialized (contentHtml_of ps) |}.

(** Step 3: [typesetPromise] when it is a function, otherwise
    [typeset] when present, followed by the fixed wait. *)
Definition typesetting (mathJax : option MathJax) (html : jsstring)
    : Settled jsstring :=
  match mathJax with
  | Some m =>
      match m.(typesetPromise) with
      | Some run => run html
      | None =>
          match m.(typeset) with
          | Some run => run html
          | None => Fulfilled html
          end
      end
  | None => Fulfilled html
  end.

(** [handleDownloadAsWord]: the state and the page once the returned
    promise has settled. *)
Definition handleDownloadAsWord (sel : Selection) (mathJax : option MathJax)
    (ui : DownloadUi) (pg : Page) : DownloadUi * Page :=
  match sel.(problems) with
  | [] => (ui, pg)
  | _ :: _ =>
      let renderDiv := renderDiv_of pg sel.(problems) in
      let pg1 :=
        appendChild {| children := pg.(children); created := S pg.(created);
                       downloads := pg.(downloads) |} renderDiv in
      match typesetting mathJax renderDiv.(innerHTML) with
      | Rejected err =>
          ({| isDownloading := false; error := Some export_failed |}, pg1)
      | Fulfilled renderedContent =>
          let pg2 := removeChild pg1 renderDiv in
          let staticSource := staticSource_of renderedContent in
          let link :=
            {| node_id := pg2.(created); tagName := js "a"; hidden := false;
               innerHTML := [] |} in
          let pg3 :=
            appendChild {| children := pg2.(children); created := S pg2.(created);
                           downloads := pg2.(downloads) |} link in
          let clicked :=
            {| children := pg3.(children); created := pg3.(created);
               downloads :=
                 pg3.(downloads)
                 ++ [{| filename :=
                          js "수학_문제_" ++ Level_value sel.(level) ++ js "_"
                          ++ before_first (js " (") sel.(topic)
                          ++ js ".doc";
                        mime := js "application/msword";
                        content := staticSource |}] |} in
          ({| isDownloading := false; error := None |}, removeChild clicked link)
      end
  end.

End ExportPipeline.


(** ** Copying, view modes, the number of problems and generation *)

(** [handleCopy]: the text handed to [navigator.clipboard.writeText]. *)
Definition handleCopy (latexContent : jsstring) : jsstring :=
  let plainText := convertLatexToPlainText latexContent in
  plainText.

Inductive ViewMode := rendered | latex.

(** [Record<number, ViewMode>]: the mode stored for an index, if any. *)
Definition ViewModes := nat -> option ViewMode.

(** [viewModes[index] || 'rendered'] *)
Definition currentViewMode (viewModes : ViewModes) (index : nat) : ViewMode :=
  match viewModes index with
  | Some mode => mode
  | None => rendered
  end.

(** [handleToggleViewMode] *)
Definition handleToggleViewMode (activeProblemIndex : nat) (prev : ViewModes)
    : ViewModes :=
  fun index =>
    if Nat.eqb index activeProblemIndex then
      Some (match prev activeProblemIndex with
            | Some latex => rendered
            | _ => latex
            end)
    else prev index.

(** The decimal digits at the start of a text, as a number. *)
Definition isDigit (c : N) : bool := ((48 <=? c) && (c <=? 57))%N.

Fixpoint digits_value (acc : N) (s : jsstring) : N :=
  match s with
  | c :: r => if isDigit c then digits_value (10 * acc + (c - 48))%N r else acc
  | [] => acc
  end.

(** [parseInt(s, 10)]; [None] is [NaN]. Leading white space is skipped,
    one sign is accepted, and the digits that follow are read up to the
    first other character. *)
Definition parseInt (s : jsstring) : option Z :=
  let t := trimStart s in
  let negative := match t with c :: _ => char_eqb c 45 | [] => false end in
  let u :=
    match t with
    | c :: r => if char_eqb c 45 || char_eqb c 43 then r else t
    | [] => t
    end in
  match u with
  | c :: _ =>
      if isDigit c then
        Some (if negative then - Z.of_N (digits_value 0 u)
              else Z.of_N (digits_value 0 u))%Z
      else None
  | [] => None
  end.

(** The [onChange] of the number-of-problems input: the new value of
    [numberOfProblems]. *)
Definition onNumberOfProblemsChange (numberOfProblems : Z) (value : jsstring) : Z :=
  match parseInt value with
  | Some val =>
      if ((0 <? val) && (val <=? 10))%Z then val
      else if negb (truthy value) then 1%Z else numberOfProblems
  | None => if negb (truthy value) then 1%Z else numberOfProblems
  end.

(** The three resets of a save status, as done when the active tab
    changes and when problems are generated. *)
Definition supabaseResetStatus (p : SupabasePanel) : SupabasePanel :=
  {| supabaseUrl := p.(supabaseUrl); supabaseAnonKey := p.(supabaseAnonKey);
     isSupabaseConnected := p.(isSupabaseConnected);
     supabaseError := p.(supabaseError);
     saveError := None; saveSuccess := false; supabase := p.(supabase) |}.

Definition mongoResetStatus (p : MongoPanel) : MongoPanel :=
  {| mongoDbBackendUrl := p.(mongoDbBackendUrl);
     isMongoDbConnected := p.(isMongoDbConnected);
     mongoDbError := p.(mongoDbError);
     mongoDbSaveSuccess := false; mongoDbSaveError := None;
     backend := p.(backend) |}.

Definition driveResetStatus (p : DrivePanel) : DrivePanel :=
  {| googleApiKey := p.(googleApiKey); googleClientId := p.(googleClientId);
     isGoogleAuthReady := p.(isGoogleAuthReady);
     isGoogleLoggedIn := p.(isGoogleLoggedIn);
     googleAuthError := p.(googleAuthError);
     driveSaveError := None; driveSaveSuccess := false; drive := p.(drive) |}.

(** The state of the component. *)
Record AppState := {
  selection : Selection;
  numberOfProblems : Z;
  ui : DownloadUi;
  viewModes : ViewModes;
  supabasePanel : SupabasePanel;
  mongoPanel : MongoPanel;
  drivePanel : DrivePanel
}.

(** [Promise.all]: fulfilled with all values in order when no promise
    rejects, otherwise rejected with the rejection that settles first,
    the one numbered [earliest] among the rejections. *)
Fixpoint rejections {A} (outcomes : list (Settled A)) : list JsError :=
  match outcomes with
  | [] => []
  | Rejected e :: r => e :: rejections r
  | Fulfilled _ :: r => rejections r
  end.

Fixpoint values {A} (outcomes : list (Settled A)) : list A :=
  match outcomes with
  | [] => []
  | Fulfilled a :: r => a :: values r
  | Rejected _ :: r => values r
  end.

Definition Promise_all {A} (outcomes : list (Settled A)) (earliest : nat)
    : Settled (list A) :=
  match rejections outcomes with
  | [] => Fulfilled (values outcomes)
  | e :: rest => Rejected (nth earliest (e :: rest) e)
  end.

(** [handleGenerateProblem]. [generate i] is how call number [i] of
    [generateMathProblem] settles. *)
Definition handleGenerateProblem (st : AppState)
    (generate : nat -> Settled Problem) (earliest : nat) : AppState :=
  let promises :=
    map generate (seq 0 (Z.to_nat st.(numberOfProblems))) in
  let sel := st.(selection) in
  match Promise_all promises earliest with
  | Fulfilled newProblems =>
      {| selection :=
           {| level := sel.(level); topic := sel.(topic);
              difficulty := sel.(difficulty); problems := newProblems;
              activeProblemIndex := 0 |};
         numberOfProblems := st.(numberOfProblems);
         ui := {| isDownloading := st.(ui).(isDownloading); error := None |};
         viewModes := fun _ => None;
         supabasePanel := supabaseResetStatus st.(supabasePanel);
         mongoPanel := mongoResetStatus st.(mongoPanel);
         drivePanel := driveResetStatus st.(drivePanel) |}
  | Rejected err =>
      {| selection :=
           {| level := sel.(level); topic := sel.(topic);
              difficulty := sel.(difficulty); problems := [];
              activeProblemIndex := sel.(activeProblemIndex) |};
         numberOfProblems := st.(numberOfProblems);
         ui := {| isDownloading := st.(ui).(isDownloading);
                  error := Some (error_message err) |};
         viewModes := fun _ => None;
         supabasePanel := supabaseResetStatus st.(supabasePanel);
         mongoPanel := mongoResetStatus st.(mongoPanel);
         drivePanel := driveResetStatus st.(drivePanel) |}
  end.

(** A click on tab [index]: [setActiveProblemIndex(index)], and, when
    the index changes, the effect that resets the save statuses. *)
Definition selectTab (st : AppState) (index : nat) : AppState :=
  let sel := st.(selection) in
  if Nat.eqb index sel.(activeProblemIndex) then st
  else
    {| selection :=
         {| level := sel.(level); topic := sel.(topic);
            difficulty := sel.(difficulty); problems := sel.(problems);
            activeProblemIndex := index |};
       numberOfProblems := st.(numberOfProblems);
       ui := st.(ui);
       viewModes := st.(viewModes);
       supabasePanel := supabaseResetStatus st.(supabasePanel);
       mongoPanel := mongoResetStatus st.(mongoPanel);
       drivePanel := driveResetStatus st.(drivePanel) |}.

End App.

(* ------------------------------------------------------------------ *)
(** * components/ProblemHistoryModal.tsx *)

Module ProblemHistoryModal.

Record State := {
  problems : list Problem;
  error : option jsstring;
  selectedProblemId : option Z
}.

Definition initial : State :=
  {| problems := []; error := None; selectedProblemId := None |}.

Definition connect_first : jsstring :=
  js "데이터를 불러오려면 먼저 Supabase에 연결해야 합니다.".

(** [fetchProblems]: the state once the promise has settled and the
    requests issued. *)
Definition fetchProblems (isSupabaseConnected : bool)
    (supabase : SupabaseService.State)
    (respond : SupabaseService.SelectRequest -> SupabaseService.SelectResponse)
    (m : State) : State * list SupabaseService.SelectRequest :=
  if negb isSupabaseConnected then
    ({| problems := []; error := Some connect_first;
        selectedProblemId := m.(selectedProblemId) |}, [])
  else
    match SupabaseService.getProblemsFromDb supabase respond with
    | (requests, Fulfilled data) =>
        ({| problems := data; error := None;
            selectedProblemId := m.(selectedProblemId) |}, requests)
    | (requests, Rejected err) =>
        ({| problems := m.(problems); error := Some (error_message err);
            selectedProblemId := m.(selectedProblemId) |}, requests)
    end.

(** [toggleProblem] *)
Definition toggleProblem (m : State) (id : Z) : State :=
  {| problems := m.(problems); error := m.(error);
     selectedProblemId :=
       match m.(selectedProblemId) with
       | Some selected => if Z.eqb selected id then None else Some id
       | None => Some id
       end |}.

End ProblemHistoryModal.

(* ------------------------------------------------------------------ *)
(** * The component as a state machine

    One event per handler that the rendered page offers. A tab exists
    only for an index below the number of problems, and the token
    client's callback exists only once a token client was created. *)

Module Machine.

Section WithPlatform.

Variable createClient :
  jsstring -> jsstring -> option SupabaseService.SupabaseClient.
Variable URL_parses : jsstring -> bool.
Variable URL_resolve : jsstring -> jsstring -> Settled jsstring.
Variable JSON_stringify : JsObject -> jsstring.
Variable now : jsstring.
Variable serialized : jsstring -> jsstring.

Inductive Event :=
| SetLevel (value : Level) (firstTopic : jsstring)
| SetTopic (value : jsstring)
| SetDifficulty (value : Difficulty)
| NumberOfProblemsChange (value : jsstring)
| GenerateProblem (generate : nat -> Settled Problem) (earliest : nat)
| SelectTab (index : nat)
| ToggleViewMode
| DownloadAsWord (mathJax : option App.MathJax)
| SetSupabaseUrl (value : jsstring)
| SetSupabaseAnonKey (value : jsstring)
| SupabaseConnect
| SupabaseDisconnect
| SaveToDb (respond : SupabaseService.InsertRequest -> option jsstring)
| SetMongoDbBackendUrl (value : jsstring)
| MongoDbConnect
| MongoDbDisconnect
| SaveToMongo
    (network : MongoDbService.FetchRequest -> Settled MongoDbService.Response)
| SetGoogleApiKey (value : jsstring)
| SetGoogleClientId (value : jsstring)
| GoogleConnect (libs : GoogleDriveService.Libraries)
| TokenResponse (access_token : option jsstring)
| Signout (revoked : bool)
| SaveToDrive (respond : GoogleDriveService.UploadRequest -> Settled N).

Definition with_selection (st : App.AppState) (sel : App.Selection) : App.AppState :=
  {| App.selection := sel; App.numberOfProblems := st.(App.numberOfProblems);
     App.ui := st.(App.ui); App.viewModes := st.(App.viewModes);
     App.supabasePanel := st.(App.supabasePanel);
     App.mongoPanel := st.(App.mongoPanel);
     App.drivePanel := st.(App.drivePanel) |}.

Definition with_supabasePanel (st : App.AppState) (p : App.SupabasePanel)
    : App.AppState :=
  {| App.selection := st.(App.selection);
     App.numberOfProblems := st.(App.numberOfProblems);
     App.ui := st.(App.ui); App.viewModes := st.(App.viewModes);
     App.supabasePanel := p; App.mongoPanel := st.(App.mongoPanel);
     App.drivePanel := st.(App.drivePanel) |}.

Definition with_mongoPanel (st : App.AppState) (p : App.MongoPanel)
    : App.AppState :=
  {| App.selection := st.(App.selection);
     App.numberOfProblems := st.(App.numberOfProblems);
     App.ui := st.(App.ui); App.viewModes := st.(App.viewModes);
     App.supabasePanel := st.(App.supabasePanel); App.mongoPanel := p;
     App.drivePanel := st.(App.drivePanel) |}.

Definition with_drivePanel (st : App.AppState) (p : App.DrivePanel)
    : App.AppState :=
  {| App.selection := st.(App.selection);
     App.numberOfProblems := st.(App.numberOfProblems);
     App.ui := st.(App.ui); App.viewModes := st.(App.viewModes);
     App.supabasePanel := st.(App.supabasePanel);
     App.mongoPanel := st.(App.mongoPanel); App.drivePanel := p |}.

(** The state of the component together with the document. *)
Definition Config := (App.AppState * App.Page)%type.

Definition step (c : Config) (e : Event) : Config :=
  let (st, pg) := c in
  let sel := st.(App.selection) in
  match e with
  | SetLevel value firstTopic =>
      (with_selection st
         {| App.level := value; App.topic := firstTopic;
            App.difficulty := sel.(App.difficulty);
            App.problems := sel.(App.problems);
            App.activeProblemIndex := sel.(App.activeProblemIndex) |}, pg)
  | SetTopic value =>
      (with_selection st
         {| App.level := sel.(App.level); App.topic := value;
            App.difficulty := sel.(App.difficulty);
            App.problems := sel.(App.problems);
            App.activeProblemIndex := sel.(App.activeProblemIndex) |}, pg)
  | SetDifficulty value =>
      (with_selection st
         {| App.level := sel.(App.level); App.topic := sel.(App.topic);
            App.difficulty := value; App.problems := sel.(App.problems);
            App.activeProblemIndex := sel.(App.activeProblemIndex) |}, pg)
  | NumberOfProblemsChange value =>
      ({| App.selection := sel;
          App.numberOfProblems :=
            App.onNumberOfProblemsChange st.(App.numberOfProblems) value;
          App.ui := st.(App.ui); App.viewModes := st.(App.viewModes);
          App.supabasePanel := st.(App.supabasePanel);
          App.mongoPanel := st.(App.mongoPanel);
          App.drivePanel := st.(App.drivePanel) |}, pg)
  | GenerateProblem generate earliest =>
      (App.handleGenerateProblem st generate earliest, pg)
  | SelectTab index =>
      if Nat.ltb index (List.length sel.(App.problems))
      then (App.selectTab st index, pg) else c
  | ToggleViewMode =>
      ({| App.selection := sel;
          App.numberOfProblems := st.(App.numberOfProblems);
          App.ui := st.(App.ui);
          App.viewModes :=
            App.handleToggleViewMode sel.(App.activeProblemIndex)
              st.(App.viewModes);
          App.supabasePanel := st.(App.supabasePanel);
          App.mongoPanel := st.(App.mongoPanel);
          App.drivePanel := st.(App.drivePanel) |}, pg)
  | DownloadAsWord mathJax =>
      let (ui', pg') :=
        App.handleDownloadAsWord serialized sel mathJax st.(App.ui) pg in
      ({| App.selection := sel;
          App.numberOfProblems := st.(App.numberOfProblems);
          App.ui := ui'; App.viewModes := st.(App.viewModes);
          App.supabasePanel := st.(App.supabasePanel);
          App.mongoPanel := st.(App.mongoPanel);
          App.drivePanel := st.(App.drivePanel) |}, pg')
  | SetSupabaseUrl value =>
      let p := st.(App.supabasePanel) in
      (with_supabasePanel st
         {| App.supabaseUrl := value;
            App.supabaseAnonKey := p.(App.supabaseAnonKey);
            App.isSupabaseConnected := p.(App.isSupabaseConnected);
            App.supabaseError := p.(App.supabaseError);
            App.saveError := p.(App.saveError);
            App.saveSuccess := p.(App.saveSuccess);
            App.supabase := p.(App.supabase) |}, pg)
  | SetSupabaseAnonKey value =>
      let p := st.(App.supabasePanel) in
      (with_supabasePanel st
         {| App.supabaseUrl := p.(App.supabaseUrl);
            App.supabaseAnonKey := value;
            App.isSupabaseConnected := p.(App.isSupabaseConnected);
            App.supabaseError := p.(App.supabaseError);
            App.saveError := p.(App.saveError);
            App.saveSuccess := p.(App.saveSuccess);
            App.supabase := p.(App.supabase) |}, pg)
  | SupabaseConnect =>
      (with_supabasePanel st
         (App.handleSupabaseConnect createClient st.(App.supabasePanel)), pg)
  | SupabaseDisconnect =>
      (with_supabasePanel st (App.supabaseDisconnect st.(App.supabasePanel)), pg)
  | SaveToDb respond =>
      (with_supabasePanel st
         (fst (fst (App.handleSaveToDb sel st.(App.supabasePanel) respond))), pg)
  | SetMongoDbBackendUrl value =>
      let p := st.(App.mongoPanel) in
      (with_mongoPanel st
         {| App.mongoDbBackendUrl := value;
            App.isMongoDbConnected := p.(App.isMongoDbConnected);
            App.mongoDbError := p.(App.mongoDbError);
            App.mongoDbSaveSuccess := p.(App.mongoDbSaveSuccess);
            App.mongoDbSaveError := p.(App.mongoDbSaveError);
            App.backend := p.(App.backend) |}, pg)
  | MongoDbConnect =>
      (with_mongoPanel st
         (App.handleMongoDbConnect URL_parses st.(App.mongoPanel)), pg)
  | MongoDbDisconnect =>
      (with_mongoPanel st (App.mongoDisconnect st.(App.mongoPanel)), pg)
  | SaveToMongo network =>
      (with_mongoPanel st
         (fst (fst (App.handleSaveToMongo URL_resolve JSON_stringify sel
                      st.(App.mongoPanel) network))), pg)
  | SetGoogleApiKey value =>
      let p := st.(App.drivePanel) in
      (with_drivePanel st
         {| App.googleApiKey := value;
            App.googleClientId := p.(App.googleClientId);
            App.isGoogleAuthReady := p.(App.isGoogleAuthReady);
            App.isGoogleLoggedIn := p.(App.isGoogleLoggedIn);
            App.googleAuthError := p.(App.googleAuthError);
            App.driveSaveError := p.(App.driveSaveError);
            App.driveSaveSuccess := p.(App.driveSaveSuccess);
            App.drive := p.(App.drive) |}, pg)
  | SetGoogleClientId value =>
      let p := st.(App.drivePanel) in
      (with_drivePanel st
         {| App.googleApiKey := p.(App.googleApiKey);
            App.googleClientId := value;
            App.isGoogleAuthReady := p.(App.isGoogleAuthReady);
            App.isGoogleLoggedIn := p.(App.isGoogleLoggedIn);
            App.googleAuthError := p.(App.googleAuthError);
            App.driveSaveError := p.(App.driveSaveError);
            App.driveSaveSuccess := p.(App.driveSaveSuccess);
            App.drive := p.(App.drive) |}, pg)
  | GoogleConnect libs =>
      (with_drivePanel st
         (fst (App.handleGoogleConnect st.(App.drivePanel) libs)), pg)
  | TokenResponse access_token =>
      match st.(App.drivePanel).(App.drive).(GoogleDriveService.tokenClient) with
      | Some _ =>
          (with_drivePanel st
             (App.onTokenResponse st.(App.drivePanel) access_token), pg)
      | None => c
      end
  | Signout revoked =>
      (with_drivePanel st (fst (App.onSignout st.(App.drivePanel) revoked)), pg)
  | SaveToDrive respond =>
      (with_drivePanel st
         (fst (fst (App.handleSaveToDrive JSON_stringify now sel
                      st.(App.drivePanel) respond))), pg)
  end.

(** The state after a sequence of events. *)
Definition run (c : Config) (events : list Event) : Config :=
  fold_left step events c.

End WithPlatform.

(** The state of a freshly mounted component; [firstTopic] is the first
    topic of the middle-school list. *)
Definition initialState (firstTopic : jsstring) : App.AppState :=
  {| App.selection :=
       {| App.level := Middle; App.topic := firstTopic;
          App.difficulty := Concept; App.problems := [];
          App.activeProblemIndex := 0 |};
     App.numberOfProblems := 1%Z;
     App.ui := {| App.isDownloading := false; App.error := None |};
     App.viewModes := fun _ => None;
     App.supabasePanel := App.supabase_start [] [];
     App.mongoPanel := App.mongo_start [];
     App.drivePanel := App.drive_start [] [] |}.

(** What every reachable state satisfies, part by part. *)
Definition inv_workspace (st : App.AppState) : Prop :=
  (1 <= st.(App.numberOfProblems) <= 10)%Z /\
  (st.(App.selection).(App.problems) <> [] ->
   st.(App.selection).(App.activeProblemIndex)
   < List.length st.(App.selection).(App.problems)).

Definition inv_supabase (p : App.SupabasePanel) : Prop :=
  (p.(App.isSupabaseConnected) = true -> p.(App.supabase) <> None) /\
  (p.(App.saveSuccess) = true -> p.(App.saveError) = None).

Definition inv_mongo (p : App.MongoPanel) : Prop :=
  (p.(App.isMongoDbConnected) = true ->
   MongoDbService.unset p.(App.backend) = false) /\
  (p.(App.mongoDbSaveSuccess) = true -> p.(App.mongoDbSaveError) = None).

Definition inv_drive (p : App.DrivePanel) : Prop :=
  (p.(App.isGoogleLoggedIn) = true ->
   p.(App.drive).(GoogleDriveService.gapi) = true /\
   p.(App.drive).(GoogleDriveService.token) <> None) /\
  (p.(App.drive).(GoogleDriveService.tokenClient) <> None ->
   p.(App.drive).(GoogleDriveService.gapi) = true) /\
  (p.(App.driveSaveSuccess) = true -> p.(App.driveSaveError) = None).

Definition inv_page (pg : App.Page) : Prop :=
  Forall (fun n => n.(App.node_id) < pg.(App.created)) pg.(App.children).

Definition invariant (c : App.AppState * App.Page) : Prop :=
  inv_workspace (fst c) /\
  inv_supabase (fst c).(App.supabasePanel) /\
  inv_mongo (fst c).(App.mongoPanel) /\
  inv_drive (fst c).(App.drivePanel) /\
  inv_page (snd c).

End Machine.

(* ------------------------------------------------------------------ *)
(** * Vocabulary of the specification *)

(** The tokens that the specification lists as markup. *)
Definition no_markup_token (s : jsstring) : Prop :=
  includes s (js "$") = false /\
  includes s (js "{") = false /\
  includes s (js "}") = false /\
  includes s (js "\times") = false /\
  includes s (js "\div") = false /\
  includes s (js "\cdot") = false /\
  includes s (js "\frac") = false.

(** The two bracket delimiters that the first replacement removes too. *)
Definition no_display_bracket (s : jsstring) : Prop :=
  includes s (js "\[") = false /\ includes s (js "\]") = false.

(** A code unit other than [$], [{] and [}]. *)
Definition plain_char (c : N) : Prop :=
  c <> 36%N /\ c <> 123%N /\ c <> 125%N.


(** No key occurs twice. *)
Fixpoint distinct_keys (keys : list jsstring) : bool :=
  match keys with
  | [] => true
  | k :: r => negb (existsb (JS.eqb k) r) && distinct_keys r
  end.

(* ================================================================== *)
(** * Properties *)

(** ** Unit checks of the normaliser *)

Example normalize_empty : SupabaseService.convertLatexToPlainText (js "") = js "".
Proof. reflexivity. Qed.

Example normalize_inline : SupabaseService.convertLatexToPlainText (js "$x^2$") = js "x^2".
Proof. vm_compute. reflexivity. Qed.

Example normalize_frac : SupabaseService.convertLatexToPlainText (js "\frac{1}{2}") = js "1/2".
Proof. vm_compute. reflexivity. Qed.

Example normalize_frac_cdot :
  SupabaseService.convertLatexToPlainText (js "\frac{a}{b} \cdot 2") = js "a/b · 2".
Proof. vm_compute. reflexivity. Qed.

(** A nested fraction is rewritten at its inner fraction only. *)
Example normalize_nested_frac :
  SupabaseService.convertLatexToPlainText (js "\frac{\frac{1}{2}}{3}") = js "\frac1/23".
Proof. vm_compute. reflexivity. Qed.

(** ** Strings without a pattern are left alone by a replacement *)

Section Unmatched.

Lemma startsWith_nil_r (s : jsstring) : startsWith s [] = true.
Proof. destruct s; reflexivity. Qed.

(** A text that nowhere includes [p] does not start with [p] at any of
    its positions. *)
Lemma includes_false_skipn (p s : jsstring) :
  includes s p = false -> forall k, startsWith (skipn k s) p = false.
Proof.
  induction s as [|c r IH]; intros H k.
  - simpl in H. rewrite orb_false_r in H. destruct k; exact H.
  - simpl includes in H. apply orb_false_iff in H as [Hhere Hlater].
    destruct k as [|k]; [exact Hhere|].
    simpl skipn. apply IH. exact Hlater.
Qed.

Lemma replace_g_unmatched (m : matcher) (s : jsstring) :
  (forall k, m (skipn k s) = None) -> replace_g m 0 s = s.
Proof.
  induction s as [|c r IH]; intros H; [reflexivity|].
  pose proof (H 0%nat) as H0. simpl in H0.
  simpl. rewrite H0. f_equal. apply IH.
  intros k. exact (H (S k)).
Qed.

Lemma literal_unmatched (pat rep s : jsstring) :
  includes s pat = false -> replace_g (literal pat rep) 0 s = s.
Proof.
  intros H. apply replace_g_unmatched. intros k. unfold literal.
  rewrite (includes_false_skipn _ _ H k). reflexivity.
Qed.

(** Not starting with a one-unit text is a statement about the head. *)
Lemma startsWith_unit_false (c : N) (t : jsstring) :
  startsWith t [c] = false ->
  match t with x :: _ => char_eqb x c = false | [] => True end.
Proof.
  destruct t as [|x t']; [trivial|]. simpl.
  rewrite startsWith_nil_r, andb_true_r. intros H. exact H.
Qed.

End Unmatched.

Lemma js_dollar : js "$" = [36%N]. Proof. reflexivity. Qed.
Lemma js_open_brace : js "{" = [123%N]. Proof. reflexivity. Qed.
Lemma js_close_brace : js "}" = [125%N]. Proof. reflexivity. Qed.
Lemma js_dollar_dollar : js "$$" = [36%N; 36%N]. Proof. reflexivity. Qed.

Lemma delimiters_unmatched (s : jsstring) :
  includes s (js "$") = false -> no_display_bracket s ->
  replace_g SupabaseService.re_delimiters 0 s = s.
Proof.
  intros Hd [Ho Hc]. apply replace_g_unmatched. intros k.
  unfold SupabaseService.re_delimiters.
  rewrite (includes_false_skipn _ _ Ho k), (includes_false_skipn _ _ Hc k).
  pose proof (includes_false_skipn _ _ Hd k) as H1.
  rewrite H1. rewrite js_dollar in H1.
  apply startsWith_unit_false in H1.
  rewrite js_dollar_dollar.
  destruct (skipn k s) as [|x t]; [reflexivity|].
  simpl. rewrite H1. reflexivity.
Qed.

Lemma frac_unmatched (s : jsstring) :
  includes s (js "\frac") = false -> replace_g SupabaseService.re_frac 0 s = s.
Proof.
  intros H. apply replace_g_unmatched. intros k.
  unfold SupabaseService.re_frac, expect_lit.
  rewrite (includes_false_skipn _ _ H k). reflexivity.
Qed.

Lemma braces_unmatched (s : jsstring) :
  includes s (js "{") = false -> includes s (js "}") = false ->
  replace_g SupabaseService.re_braces 0 s = s.
Proof.
  intros Ho Hc. apply replace_g_unmatched. intros k.
  pose proof (includes_false_skipn _ _ Ho k) as H1.
  pose proof (includes_false_skipn _ _ Hc k) as H2.
  rewrite js_open_brace in H1. rewrite js_close_brace in H2.
  apply startsWith_unit_false in H1. apply startsWith_unit_false in H2.
  unfold SupabaseService.re_braces.
  destruct (skipn k s) as [|x t]; [reflexivity|].
  rewrite H1, H2. reflexivity.
Qed.

Lemma normalize_without_tokens (s : jsstring) :
  no_markup_token s -> no_display_bracket s ->
  SupabaseService.convertLatexToPlainText s = trim s.
Proof.
  intros (Hd & Ho & Hc & Ht & Hv & Hp & Hf) Hb.
  unfold SupabaseService.convertLatexToPlainText.
  destruct s as [|c r]; [reflexivity|].
  cbv beta iota delta [truthy negb].
  rewrite (delimiters_unmatched _ Hd Hb).
  unfold SupabaseService.re_times, SupabaseService.re_div, SupabaseService.re_cdot.
  rewrite (literal_unmatched _ _ _ Ht), (literal_unmatched _ _ _ Hv),
    (literal_unmatched _ _ _ Hp).
  rewrite (frac_unmatched _ Hf), (braces_unmatched _ Ho Hc).
  reflexivity.
Qed.

(** ** C4 *)

(** C4, as stated, fails: a text with none of the seven listed tokens is
    changed by the normaliser when it ends in a blank ("a " becomes "a"),
    and also when it holds a bracket delimiter. *)
Lemma C4_counterexample :
  no_markup_token (js "a ") /\
  SupabaseService.convertLatexToPlainText (js "a ") <> js "a ".
Proof.
  split; [repeat split|]. vm_compute. discriminate.
Qed.

Lemma C4_counterexample_bracket :
  no_markup_token (js "\[x\]") /\
  SupabaseService.convertLatexToPlainText (js "\[x\]") = js "x".
Proof.
  split; [repeat split|]. vm_compute. reflexivity.
Qed.

(** C4 (amended): on a text containing none of the tokens [$], [{], [}],
    [\times], [\div], [\cdot], [\frac] and none of the delimiters [\[],
    [\]], the normaliser only trims: its result is [trim s], which is [s]
    itself when [s] has no white space at either end. *)
Theorem C4_normalize_plain_text (s : jsstring) :
  no_markup_token s -> no_display_bracket s ->
  SupabaseService.convertLatexToPlainText s = trim s /\
  (trim s = s -> SupabaseService.convertLatexToPlainText s = s).
Proof.
  intros Ht Hb. pose proof (normalize_without_tokens _ Ht Hb) as E.
  split; [exact E|]. intros Hs. rewrite E. exact Hs.
Qed.

Lemma C4_normalize_plain_text_witness :
  (no_markup_token (js " 2 + 3 = 5") /\ no_display_bracket (js " 2 + 3 = 5")) /\
  SupabaseService.convertLatexToPlainText (js " 2 + 3 = 5") = js "2 + 3 = 5".
Proof.
  split.
  - split; repeat split.
  - destruct (C4_normalize_plain_text (js " 2 + 3 = 5")) as [E _].
    + repeat split.
    + repeat split.
    + rewrite E. reflexivity.
Defined.

(** ** C10 *)

(** C10: the app's copy of the normaliser and the service's copy return
    the same text on every input. *)
Theorem C10_normalizer_copies_agree (latex : jsstring) :
  App.convertLatexToPlainText latex = SupabaseService.convertLatexToPlainText latex.
Proof.
  unfold App.convertLatexToPlainText, SupabaseService.convertLatexToPlainText.
  reflexivity.
Qed.

(** ** C5 *)

(** C5: with a client handle, the DocumentStore save issues one insert of
    one row into [math_problems]; the row holds the classification, the
    three raw fields and their three normalised texts. For the record of
    the end-to-end scenario the row has [answer_plain = "4"] and
    [solution_plain = "4/1=4"]. *)
Theorem C5_save_inserts_one_row :
  (forall client respond p l t d,
      fst (SupabaseService.saveProblemToDb (Some client) respond p l t d) =
      [ {| SupabaseService.via := client;
           SupabaseService.table := js "math_problems";
           SupabaseService.rows :=
             [ [ (js "level", JStr (Level_value l));
                 (js "topic", JStr t);
                 (js "difficulty", JStr (Difficulty_value d));
                 (js "problem", JStr p.(problem));
                 (js "answer", JStr p.(answer));
                 (js "solution", JStr p.(solution));
                 (js "problem_plain",
                  JStr (SupabaseService.convertLatexToPlainText p.(problem)));
                 (js "answer_plain",
                  JStr (SupabaseService.convertLatexToPlainText p.(answer)));
                 (js "solution_plain",
                  JStr (SupabaseService.convertLatexToPlainText p.(solution))) ] ] |} ])
  /\
  (forall client respond,
      exists row,
        map SupabaseService.rows
          (fst (SupabaseService.saveProblemToDb (Some client) respond
                  (mkProblem (js "$2+2$") (js "4") (js "\frac{4}{1}=4"))
                  Middle (js "Algebra") Basic)) = [[row]] /\
        obj_get row (js "problem_plain") = Some (JStr (js "2+2")) /\
        obj_get row (js "answer_plain") = Some (JStr (js "4")) /\
        obj_get row (js "solution_plain") = Some (JStr (js "4/1=4"))).
Proof.
  split.
  - intros client respond p l t d.
    unfold SupabaseService.saveProblemToDb.
    destruct (respond _); reflexivity.
  - intros client respond.
    exists (SupabaseService.row_of
              (mkProblem (js "$2+2$") (js "4") (js "\frac{4}{1}=4"))
              Middle (js "Algebra") Basic).
    split.
    + unfold SupabaseService.saveProblemToDb.
      destruct (respond _); reflexivity.
    + vm_compute. repeat split.
Qed.

(** ** C9 *)

Lemma initMongoDb_success_truthy URL_parses st url st' :
  MongoDbService.initMongoDb URL_parses st url = (st', true) ->
  st' = Some url /\ truthy url = true.
Proof.
  unfold MongoDbService.initMongoDb.
  destruct (truthy url); simpl.
  - destruct (startsWith url (js "http://") || startsWith url (js "https://")).
    + destruct (URL_parses url); intros H; inversion H. split; reflexivity.
    + intros H; inversion H.
  - intros H; inversion H.
Qed.

(** C9: after a successful connect to [old], a connect with a text that
    is empty or lacks the [http://] / [https://] prefix answers [false]
    and leaves [old] stored, so that the next save posts to the endpoint
    resolved from [old]; the stored URL is cleared exactly by a text that
    has the prefix and fails to parse. *)
Theorem C9_rejected_reconnect_keeps_old_url
    (URL_parses : jsstring -> bool)
    (URL_resolve : jsstring -> jsstring -> Settled jsstring)
    (JSON_stringify : JsObject -> jsstring)
    (st0 : MongoDbService.State) (old url : jsstring) :
  MongoDbService.initMongoDb URL_parses st0 old = (Some old, true) ->
  (truthy url = false \/
   (startsWith url (js "http://") = false /\
    startsWith url (js "https://") = false) ->
   MongoDbService.initMongoDb URL_parses (Some old) url = (Some old, false) /\
   forall network p l t d endpoint,
     URL_resolve (js "api/problems") old = Fulfilled endpoint ->
     map MongoDbService.endpoint
       (fst (MongoDbService.saveProblemToMongoDb URL_resolve JSON_stringify
               (fst (MongoDbService.initMongoDb URL_parses (Some old) url))
               network p l t d)) = [endpoint])
  /\
  (fst (MongoDbService.initMongoDb URL_parses (Some old) url) = None <->
   truthy url = true /\
   (startsWith url (js "http://") || startsWith url (js "https://")) = true /\
   URL_parses url = false).
Proof.
  intros Hprev. apply initMongoDb_success_truthy in Hprev as [_ Hold].
  split.
  - intros Hbad.
    assert (E : MongoDbService.initMongoDb URL_parses (Some old) url
                = (Some old, false)).
    { unfold MongoDbService.initMongoDb.
      destruct Hbad as [He | [H1 H2]].
      - rewrite He. reflexivity.
      - rewrite H1, H2, andb_false_r. reflexivity. }
    split; [exact E|].
    intros network p l t d endpoint Hres. rewrite E. simpl fst.
    unfold MongoDbService.saveProblemToMongoDb, MongoDbService.unset.
    rewrite Hold, Hres. simpl negb. cbv iota.
    destruct (network _) as [r|e]; [destruct (negb (MongoDbService.ok r))|];
      reflexivity.
  - unfold MongoDbService.initMongoDb.
    destruct (truthy url); simpl.
    + destruct (startsWith url (js "http://") || startsWith url (js "https://")).
      * destruct (URL_parses url); simpl; split.
        -- discriminate.
        -- intros (_ & _ & H). discriminate.
        -- intros _. repeat split.
        -- reflexivity.
      * simpl. split; [discriminate|]. intros (_ & H & _). discriminate.
    + split; [discriminate|]. intros (H & _). discriminate.
Qed.

Lemma C9_rejected_reconnect_keeps_old_url_witness :
  let URL_parses := fun _ : jsstring => true in
  let URL_resolve := fun rel base : jsstring => Fulfilled (base ++ js "/" ++ rel) in
  let st :=
    fst (MongoDbService.initMongoDb URL_parses
           (Some (js "https://db.example")) (js "db.example")) in
  MongoDbService.initMongoDb URL_parses None (js "https://db.example")
    = (Some (js "https://db.example"), true) /\
  st = Some (js "https://db.example") /\
  map MongoDbService.endpoint
    (fst (MongoDbService.saveProblemToMongoDb URL_resolve (fun _ => [])
            st (fun _ => Rejected (TypeError (js "Failed to fetch")))
            (mkProblem (js "p") (js "a") (js "s")) Middle (js "t") Basic))
  = [js "https://db.example/api/problems"].
Proof.
  intros URL_parses URL_resolve st.
  destruct (C9_rejected_reconnect_keeps_old_url URL_parses URL_resolve
              (fun _ => []) None (js "https://db.example") (js "db.example")
              eq_refl) as [H _].
  destruct H as [E Hsave].
  - right. split; reflexivity.
  - split; [reflexivity|]. split.
    + unfold st. rewrite E. reflexivity.
    + apply Hsave. reflexivity.
Defined.

(** ** Objects *)

Lemma eqb_eq (a b : jsstring) : JS.eqb a b = true <-> a = b.
Proof.
  revert b. induction a as [|x a IH]; intros [|y b]; simpl;
    try (split; [discriminate|discriminate]); [tauto|].
  unfold char_eqb. rewrite andb_true_iff, N.eqb_eq, IH.
  split; [intros [-> ->]; reflexivity|intros H; inversion H; tauto].
Qed.

Lemma eqb_refl (a : jsstring) : JS.eqb a a = true.
Proof. apply eqb_eq. reflexivity. Qed.

Lemma obj_get_set_same (o : JsObject) (k : jsstring) (v : JsValue) :
  obj_get (obj_set o k v) k = Some v.
Proof.
  induction o as [|[k' v'] o IH]; simpl.
  - rewrite eqb_refl. reflexivity.
  - destruct (JS.eqb k' k) eqn:E; simpl; rewrite E; [reflexivity|exact IH].
Qed.

Lemma obj_get_set_other (o : JsObject) (k k' : jsstring) (v : JsValue) :
  k <> k' -> obj_get (obj_set o k v) k' = obj_get o k'.
Proof.
  intros Hk. induction o as [|[k0 v0] o IH]; simpl.
  - destruct (JS.eqb k k') eqn:E; [apply eqb_eq in E; contradiction|reflexivity].
  - destruct (JS.eqb k0 k) eqn:E; simpl.
    + apply eqb_eq in E. subst k0.
      destruct (JS.eqb k k') eqn:E'; [apply eqb_eq in E'; contradiction|].
      reflexivity.
    + destruct (JS.eqb k0 k'); [reflexivity|exact IH].
Qed.


(** ** C7 *)



(** The typed function is the function on the record's properties. *)
Lemma saveProblemToMongoDb_on_props
    (URL_resolve : jsstring -> jsstring -> Settled jsstring)
    (JSON_stringify : JsObject -> jsstring) (st : MongoDbService.State)
    (network : MongoDbService.FetchRequest -> Settled MongoDbService.Response)
    (p : Problem) (l : Level) (t : jsstring) (d : Difficulty) :
  MongoDbService.saveProblemToMongoDb URL_resolve JSON_stringify st network p l t d =
  MongoDbService.saveProblemToMongoDb_object URL_resolve JSON_stringify st network
    (MongoDbService.Problem_props p) l t d.
Proof. reflexivity. Qed.







(** ** C8 *)

Lemma drive_messages_differ (status : N) :
  GoogleDriveService.save_failed <> GoogleDriveService.bad_status status.
Proof.
  intros H.
  assert (H1 : nth_error GoogleDriveService.save_failed 14 = Some 47928%N)
    by reflexivity.
  assert (H2 : nth_error (GoogleDriveService.bad_status status) 14 = Some 51200%N)
    by reflexivity.
  rewrite H in H1. rewrite H1 in H2. discriminate.
Qed.

(** C8 on the code: when the upload answers with a status other than 200,
    the error built from that status is caught by the function's own
    [catch] and the caller receives the fixed message instead, whatever
    the status was. *)
Theorem C8_status_detail_replaced
    (JSON_stringify : JsObject -> jsstring) (now : jsstring)
    (g : bool) (tc : option GoogleDriveService.TokenClient) (tok : jsstring)
    (problemData : Problem) (l : Level) (t : jsstring) (d : Difficulty)
    (status : N) :
  snd (GoogleDriveService.saveProblemToDrive JSON_stringify now
         {| GoogleDriveService.gapi := true; GoogleDriveService.google := g;
            GoogleDriveService.tokenClient := tc;
            GoogleDriveService.token := Some tok |}
         (fun _ => Fulfilled status) problemData l t d)
  = (if (status =? 200)%N then Fulfilled tt
     else Rejected (Error GoogleDriveService.save_failed))
  /\ GoogleDriveService.save_failed <> GoogleDriveService.bad_status status.
Proof.
  split; [|apply drive_messages_differ].
  unfold GoogleDriveService.saveProblemToDrive. simpl.
  destruct (status =? 200)%N; reflexivity.
Qed.

Example drive_save_status_500 :
  snd (GoogleDriveService.saveProblemToDrive (fun _ => []) (js "2025-01-01T00:00:00.000Z")
         {| GoogleDriveService.gapi := true; GoogleDriveService.google := true;
            GoogleDriveService.tokenClient := None;
            GoogleDriveService.token := Some (js "ya29.token") |}
         (fun _ => Fulfilled 500%N)
         (mkProblem (js "$2+2$") (js "4") (js "\frac{4}{1}=4"))
         Middle (js "Algebra") Basic)
  = Rejected
      (Error (js "Google Drive에 문제를 저장하는 데 실패했습니다. 자세한 내용은 콘솔을 확인하세요.")).
Proof. vm_compute. reflexivity. Qed.

(** ** C1 and C3: the export *)

Lemma filter_fresh (k : nat) (l : list App.Node) :
  Forall (fun c => c.(App.node_id) < k) l ->
  filter (fun c => negb (Nat.eqb c.(App.node_id) k)) l = l.
Proof.
  induction 1 as [|c l Hc _ IH]; [reflexivity|].
  simpl. rewrite IH.
  destruct (Nat.eqb_spec (App.node_id c) k) as [E|_]; [lia|reflexivity].
Qed.

Lemma filter_last_removed (k : nat) (l : list App.Node) (n : App.Node) :
  Forall (fun c => c.(App.node_id) < k) l ->
  n.(App.node_id) = k ->
  filter (fun c => negb (Nat.eqb c.(App.node_id) k)) (l ++ [n]) = l.
Proof.
  intros Hl Hn. rewrite filter_app, (filter_fresh _ _ Hl). simpl.
  rewrite Hn, Nat.eqb_refl. simpl. apply app_nil_r.
Qed.

(** The path that works: when typesetting succeeds the hidden container
    and the link are both gone afterwards and one document was handed
    over (on a page whose elements were all created before the call). *)
Lemma export_success_restores_body
    (serialized : jsstring -> jsstring) (sel : App.Selection)
    (mathJax : option App.MathJax) (ui : App.DownloadUi) (pg : App.Page)
    (renderedContent : jsstring) :
  sel.(App.problems) <> [] ->
  Forall (fun c => c.(App.node_id) < pg.(App.created)) pg.(App.children) ->
  App.typesetting mathJax (serialized (App.contentHtml_of sel.(App.problems)))
    = Fulfilled renderedContent ->
  let after := snd (App.handleDownloadAsWord serialized sel mathJax ui pg) in
  after.(App.children) = pg.(App.children) /\
  App.is_child after (App.renderDiv_of serialized pg sel.(App.problems)) = false /\
  map App.content after.(App.downloads)
    = map App.content pg.(App.downloads) ++ [App.staticSource_of renderedContent].
Proof.
  intros Hne Hfresh Hts after.
  assert (Hfresh' : Forall (fun c => App.node_id c < S (App.created pg))
                      (App.children pg)).
  { eapply Forall_impl; [|exact Hfresh]. simpl. intros c Hc. lia. }
  assert (Hchildren : after.(App.children) = pg.(App.children)).
  { unfold after, App.handleDownloadAsWord.
    destruct (App.problems sel) as [|p ps] eqn:Eps; [contradiction|].
    cbn [App.innerHTML App.renderDiv_of]. rewrite Hts.
    cbn [snd App.children App.downloads App.created App.node_id
         App.removeChild App.appendChild].
    erewrite (filter_last_removed (App.created pg) (App.children pg));
      [|exact Hfresh|reflexivity].
    erewrite (filter_last_removed (S (App.created pg)) (App.children pg));
      [|exact Hfresh'|reflexivity].
    reflexivity. }
  split; [exact Hchildren|]. split.
  - unfold App.is_child. rewrite Hchildren. cbn [App.renderDiv_of App.node_id].
    apply not_true_is_false. intros Hex.
    apply existsb_exists in Hex as (c & Hin & Hc).
    rewrite Forall_forall in Hfresh. specialize (Hfresh c Hin).
    apply Nat.eqb_eq in Hc. lia.
  - unfold after, App.handleDownloadAsWord.
    destruct (App.problems sel) as [|p ps] eqn:Eps; [contradiction|].
    cbn [App.innerHTML App.renderDiv_of]. rewrite Hts.
    cbn [snd App.children App.downloads App.created App.node_id
         App.removeChild App.appendChild].
    rewrite map_app. reflexivity.
Qed.

(** C1 on the code: when [typesetPromise] rejects, the hidden container
    appended for the export is still a child of the body after the call
    has ended; the call ends with the error message set and without a
    download. *)
Theorem C1_container_left_after_render_failure
    (serialized : jsstring -> jsstring)
    (l : Level) (t : jsstring) (d : Difficulty) (p : Problem)
    (ps : list Problem) (i : nat)
    (fallback : option (jsstring -> Settled jsstring)) (err : JsError)
    (ui : App.DownloadUi) (pg : App.Page) :
  let sel :=
    {| App.level := l; App.topic := t; App.difficulty := d;
       App.problems := p :: ps; App.activeProblemIndex := i |} in
  let mathJax :=
    Some {| App.typesetPromise := Some (fun _ => Rejected err);
            App.typeset := fallback |} in
  let renderDiv := App.renderDiv_of serialized pg (p :: ps) in
  let result := App.handleDownloadAsWord serialized sel mathJax ui pg in
  (snd result).(App.children) = pg.(App.children) ++ [renderDiv] /\
  App.is_child (snd result) renderDiv = true /\
  (snd result).(App.downloads) = pg.(App.downloads) /\
  fst result = {| App.isDownloading := false;
                  App.error := Some App.export_failed |}.
Proof.
  intros sel mathJax renderDiv result.
  unfold result, App.handleDownloadAsWord. simpl.
  split; [reflexivity|]. split; [|split; reflexivity].
  unfold App.is_child. simpl. rewrite existsb_app. simpl.
  rewrite Nat.eqb_refl. simpl. apply orb_true_r.
Qed.

(** C3, as stated, fails: an export of no records hands nothing to the
    browser. *)
Lemma C3_counterexample :
  let sel :=
    {| App.level := Middle; App.topic := js "Algebra"; App.difficulty := Basic;
       App.problems := []; App.activeProblemIndex := 0 |} in
  let page := {| App.children := []; App.created := 0; App.downloads := [] |} in
  let result :=
    App.handleDownloadAsWord (fun html => html) sel None
      {| App.isDownloading := false; App.error := None |} page in
  (snd result).(App.downloads) = [] /\ (fst result).(App.error) = None.
Proof. split; reflexivity. Qed.

(** C3 (amended): called with an empty list of records the export returns
    at once: no document is produced, no error is set, no container is
    created and nothing else changes. *)
Theorem C3_empty_export_does_nothing
    (serialized : jsstring -> jsstring) (sel : App.Selection)
    (mathJax : option App.MathJax) (ui : App.DownloadUi) (pg : App.Page) :
  sel.(App.problems) = [] ->
  App.handleDownloadAsWord serialized sel mathJax ui pg = (ui, pg).
Proof.
  intros H. unfold App.handleDownloadAsWord. rewrite H. reflexivity.
Qed.

Lemma C3_empty_export_does_nothing_witness :
  let sel :=
    {| App.level := High; App.topic := js "Geometry"; App.difficulty := Top;
       App.problems := []; App.activeProblemIndex := 0 |} in
  let ui := {| App.isDownloading := false; App.error := None |} in
  let page := {| App.children := []; App.created := 3; App.downloads := [] |} in
  App.handleDownloadAsWord (fun html => html) sel None ui page = (ui, page).
Proof.
  intros sel ui page.
  apply (C3_empty_export_does_nothing (fun html => html) sel None ui page).
  reflexivity.
Defined.

(** ** C2: disconnecting *)

(** C2, as stated, fails: after connecting the DocumentStore and
    disconnecting it again, the service still holds the client, and a
    dispatcher call writes through it instead of failing. *)
Lemma C2_counterexample :
  let createClient := fun url key =>
    Some {| SupabaseService.supabaseUrl := url;
            SupabaseService.supabaseKey := key |} in
  let connected :=
    App.handleSupabaseConnect createClient
      (App.supabase_start (js "https://x.supabase.co") (js "anon-key")) in
  let disconnected := App.supabaseDisconnect connected in
  let client :=
    {| SupabaseService.supabaseUrl := js "https://x.supabase.co";
       SupabaseService.supabaseKey := js "anon-key" |} in
  connected.(App.isSupabaseConnected) = true /\
  disconnected.(App.isSupabaseConnected) = false /\
  disconnected.(App.supabase) = Some client /\
  exists row,
    SupabaseService.saveProblemToDb disconnected.(App.supabase) (fun _ => None)
      (mkProblem (js "$2+2$") (js "4") (js "\frac{4}{1}=4"))
      Middle (js "Algebra") Basic
    = ([ {| SupabaseService.via := client;
            SupabaseService.table := js "math_problems";
            SupabaseService.rows := [row] |} ],
       Fulfilled tt).
Proof.
  repeat split. eexists. reflexivity.
Qed.

(** C2 (amended): for the DocumentStore and the RelayBackend, disconnect
    clears only the app's connected flag and leaves the service's handle
    as it was; the app's save handler, which tests that flag, then returns
    without calling the dispatcher: no write and no error. For the
    CloudFileStore, disconnect while a token is held revokes it and, once
    the revocation has completed, the token is cleared and the flag is
    off; after that the dispatcher fails with the not-logged-in error
    without a request, and the app's save handler returns without calling
    it. *)
Theorem C2_disconnect_then_save :
  (forall sel p respond,
      (App.supabaseDisconnect p).(App.supabase) = p.(App.supabase) /\
      App.handleSaveToDb sel (App.supabaseDisconnect p) respond
        = (App.supabaseDisconnect p, [], App.NotIssued)) /\
  (forall URL_resolve JSON_stringify sel p network,
      (App.mongoDisconnect p).(App.backend) = p.(App.backend) /\
      App.handleSaveToMongo URL_resolve JSON_stringify sel
        (App.mongoDisconnect p) network
        = (App.mongoDisconnect p, [], App.NotIssued)) /\
  (forall JSON_stringify now sel p respond tok problemData l t d,
      p.(App.drive).(GoogleDriveService.gapi) = true ->
      p.(App.drive).(GoogleDriveService.google) = true ->
      p.(App.drive).(GoogleDriveService.token) = Some tok ->
      let after := fst (App.onSignout p true) in
      snd (App.onSignout p true) = [GoogleDriveService.Revoke tok] /\
      after.(App.drive).(GoogleDriveService.token) = None /\
      after.(App.isGoogleLoggedIn) = false /\
      GoogleDriveService.saveProblemToDrive JSON_stringify now
        after.(App.drive) respond problemData l t d
        = ([], Rejected (Error GoogleDriveService.not_logged_in)) /\
      App.handleSaveToDrive JSON_stringify now sel after respond
        = (after, [], App.NotIssued)).
Proof.
  split; [|split].
  - intros sel p respond. split; [reflexivity|].
    unfold App.handleSaveToDb. cbn [App.isSupabaseConnected App.supabaseDisconnect].
    destruct (App.problemToSave sel); reflexivity.
  - intros URL_resolve JSON_stringify sel p network. split; [reflexivity|].
    unfold App.handleSaveToMongo. cbn [App.isMongoDbConnected App.mongoDisconnect].
    destruct (App.problemToSave sel); reflexivity.
  - intros JSON_stringify now sel p respond tok problemData l t d Hg Hgo Htok after.
    assert (E : App.onSignout p true =
      ({| App.googleApiKey := p.(App.googleApiKey);
          App.googleClientId := p.(App.googleClientId);
          App.isGoogleAuthReady := false; App.isGoogleLoggedIn := false;
          App.googleAuthError := p.(App.googleAuthError);
          App.driveSaveError := None; App.driveSaveSuccess := false;
          App.drive :=
            {| GoogleDriveService.gapi := true;
               GoogleDriveService.google := true;
               GoogleDriveService.tokenClient :=
                 p.(App.drive).(GoogleDriveService.tokenClient);
               GoogleDriveService.token := None |} |},
       [GoogleDriveService.Revoke tok])).
    { unfold App.onSignout, GoogleDriveService.handleSignoutClick.
      rewrite Hg, Hgo, Htok. reflexivity. }
    unfold after. rewrite E. cbn [fst snd].
    split; [reflexivity|]. split; [reflexivity|]. split; [reflexivity|].
    split; [reflexivity|].
    unfold App.handleSaveToDrive. cbn [App.isGoogleLoggedIn].
    destruct (App.problemToSave sel); reflexivity.
Qed.

Lemma C2_disconnect_then_save_witness :
  let libs :=
    {| GoogleDriveService.client_init := None;
       GoogleDriveService.token_client_init := fun _ => None |} in
  let connecting :=
    fst (App.handleGoogleConnect (App.drive_start (js "") (js "client-id")) libs) in
  let connected := App.onTokenResponse connecting (Some (js "ya29.token")) in
  let after := fst (App.onSignout connected true) in
  connected.(App.isGoogleLoggedIn) = true /\
  after.(App.drive).(GoogleDriveService.token) = None /\
  GoogleDriveService.saveProblemToDrive (fun _ => []) (js "2025-01-01T00:00:00.000Z")
    after.(App.drive) (fun _ => Fulfilled 200%N)
    (mkProblem (js "$2+2$") (js "4") (js "\frac{4}{1}=4")) Middle (js "Algebra") Basic
  = ([], Rejected (Error GoogleDriveService.not_logged_in)).
Proof.
  intros libs connecting connected after.
  destruct C2_disconnect_then_save as (_ & _ & Hdrive).
  destruct (Hdrive (fun _ => []) (js "2025-01-01T00:00:00.000Z")
              {| App.level := Middle; App.topic := js "Algebra";
                 App.difficulty := Basic; App.problems := [];
                 App.activeProblemIndex := 0 |}
              connected (fun _ => Fulfilled 200%N) (js "ya29.token")
              (mkProblem (js "$2+2$") (js "4") (js "\frac{4}{1}=4"))
              Middle (js "Algebra") Basic eq_refl eq_refl eq_refl)
    as (_ & Htoken & _ & Hsave & _).
  split; [reflexivity|]. split; [exact Htoken|exact Hsave].
Defined.

(** ** C6: credentials at connect *)

(** C6, as stated, fails: the CloudFileStore connect called with an empty
    API key and an empty client id loads the client library and fetches
    the discovery document, whether or not the token client accepts the
    empty client id afterwards. *)
Lemma C6_counterexample :
  let accepting :=
    {| GoogleDriveService.client_init := None;
       GoogleDriveService.token_client_init := fun _ => None |} in
  let refusing :=
    {| GoogleDriveService.client_init := None;
       GoogleDriveService.token_client_init := fun config =>
         if truthy config.(GoogleDriveService.client_id) then None
         else Some (GoogleDriveService.AnError
                      (Error (js "Missing required parameter client_id."))) |} in
  let empty_config :=
    {| GoogleDriveService.client_id := js "";
       GoogleDriveService.scope := GoogleDriveService.SCOPES |} in
  let calls :=
    [ GoogleDriveService.GapiLoad (js "client");
      GoogleDriveService.GapiClientInit [GoogleDriveService.DISCOVERY_DOC];
      GoogleDriveService.InitTokenClient empty_config ] in
  let r1 :=
    GoogleDriveService.initGoogleClient GoogleDriveService.initial accepting
      (js "") (js "") in
  let r2 :=
    GoogleDriveService.initGoogleClient GoogleDriveService.initial refusing
      (js "") (js "") in
  snd (fst r1) = calls /\ snd r1 = Fulfilled tt /\
  snd (fst r2) = calls /\
  existsb GoogleDriveService.is_network_call calls = true.
Proof. repeat split. Qed.

(** C6 (amended): the DocumentStore connect with an empty URL or an empty
    key makes no call at all and answers with the failure result. With
    both given it makes one call, to the client constructor, which sends
    nothing, and it fails exactly when the constructor throws, leaving no
    client behind; so, with a constructor that refuses every URL outside
    some class of well-formed ones, the connect fails without a network
    call for every URL outside that class. The RelayBackend connect with a
    URL that is empty, lacks the [http://] / [https://] prefix or does not
    parse makes no network call and answers with the failure result.
    Neither function makes a network call on any input. The CloudFileStore
    connect does not look at its credentials: on every input it loads the
    client library and initialises it with the discovery document, and it
    rejects exactly when that initialisation or the creation of the token
    client throws. *)
Theorem C6_connect_with_bad_credentials :
  (forall createClient st url key,
      let result := SupabaseService.initSupabase_calls createClient st url key in
      fst result = SupabaseService.initSupabase createClient st url key /\
      existsb SupabaseService.is_network_call (snd result) = false /\
      (truthy url && truthy key = false -> result = (st, false, [])) /\
      (truthy url && truthy key = true ->
         snd result = [SupabaseService.CreateClient url key] /\
         (createClient url key = None -> fst result = (None, false)) /\
         (forall c, createClient url key = Some c ->
                    fst result = (Some c, true))) /\
      (forall well_formed : jsstring -> bool,
         (forall u k, well_formed u = false -> createClient u k = None) ->
         well_formed url = false -> snd (fst result) = false)) /\
  (forall URL_parses st url,
      let result := MongoDbService.initMongoDb_calls URL_parses st url in
      fst result = MongoDbService.initMongoDb URL_parses st url /\
      existsb MongoDbService.is_network_call (snd result) = false /\
      (truthy url
       && (startsWith url (js "http://") || startsWith url (js "https://"))
       && URL_parses url = false ->
       snd (fst result) = false)) /\
  (forall st libs apiKey clientId,
      let result := GoogleDriveService.initGoogleClient st libs apiKey clientId in
      let config :=
        {| GoogleDriveService.client_id := clientId;
           GoogleDriveService.scope := GoogleDriveService.SCOPES |} in
      (exists rest,
          snd (fst result) =
          GoogleDriveService.GapiLoad (js "client")
          :: GoogleDriveService.GapiClientInit [GoogleDriveService.DISCOVERY_DOC]
          :: rest) /\
      (libs.(GoogleDriveService.client_init) = None ->
       libs.(GoogleDriveService.token_client_init) config = None ->
       snd result = Fulfilled tt) /\
      (forall error,
         libs.(GoogleDriveService.client_init) = Some error \/
         (libs.(GoogleDriveService.client_init) = None /\
          libs.(GoogleDriveService.token_client_init) config = Some error) ->
         snd result = Rejected (Error (GoogleDriveService.init_failed error)))).
Proof.
  split; [|split].
  - intros createClient st url key result. unfold result.
    unfold SupabaseService.initSupabase_calls, SupabaseService.initSupabase.
    destruct (truthy url && truthy key) eqn:Hgiven.
    + destruct (createClient url key) as [c|] eqn:Hc.
      * split; [reflexivity|]. split; [reflexivity|].
        split; [discriminate|].
        split; [split; [reflexivity|split; [discriminate|]]|].
        -- intros c' E. injection E as <-. reflexivity.
        -- intros well_formed Hlib Hurl. rewrite (Hlib url key Hurl) in Hc.
           discriminate.
      * split; [reflexivity|]. split; [reflexivity|].
        split; [discriminate|].
        split; [split; [reflexivity|split; [reflexivity|discriminate]]|].
        reflexivity.
    + split; [reflexivity|]. split; [reflexivity|].
      split; [reflexivity|]. split; [discriminate|reflexivity].
  - intros URL_parses st url result. unfold result.
    unfold MongoDbService.initMongoDb_calls, MongoDbService.initMongoDb.
    destruct (truthy url &&
              (startsWith url (js "http://") || startsWith url (js "https://"))).
    + destruct (URL_parses url).
      * split; [reflexivity|]. split; [reflexivity|discriminate].
      * split; [reflexivity|]. split; reflexivity.
    + split; [reflexivity|]. split; reflexivity.
  - intros st libs apiKey clientId result config. unfold result.
    unfold GoogleDriveService.initGoogleClient. fold config.
    destruct (GoogleDriveService.client_init libs) as [e1|].
    + split; [eexists; reflexivity|]. split; [discriminate|].
      intros e [He|[He _]]; [|discriminate]. inversion He. reflexivity.
    + destruct (GoogleDriveService.token_client_init libs config) as [e2|].
      * split; [eexists; reflexivity|]. split; [discriminate|].
        intros e [He|[_ He]]; [discriminate|]. inversion He. reflexivity.
      * split; [eexists; reflexivity|]. split; [reflexivity|].
        intros e [He|[_ He]]; discriminate.
Qed.

Lemma C6_connect_with_bad_credentials_witness :
  let well_formed := fun url =>
    startsWith url (js "http://") || startsWith url (js "https://") in
  let createClient := fun url key =>
    if well_formed url
    then Some {| SupabaseService.supabaseUrl := url;
                 SupabaseService.supabaseKey := key |}
    else None in
  let connected :=
    Some {| SupabaseService.supabaseUrl := js "https://x.supabase.co";
            SupabaseService.supabaseKey := js "anon-key" |} in
  let accepting :=
    {| GoogleDriveService.client_init := None;
       GoogleDriveService.token_client_init := fun _ => None |} in
  let failing :=
    {| GoogleDriveService.client_init := Some GoogleDriveService.NotAnError;
       GoogleDriveService.token_client_init := fun _ => None |} in
  SupabaseService.initSupabase_calls createClient connected (js "") (js "anon-key")
    = (connected, false, []) /\
  SupabaseService.initSupabase_calls createClient connected
      (js "not a url") (js "anon-key")
    = (None, false, [SupabaseService.CreateClient (js "not a url") (js "anon-key")]) /\
  SupabaseService.initSupabase createClient connected (js "not a url") (js "anon-key")
    = (None, false) /\
  snd (fst (SupabaseService.initSupabase_calls createClient None
              (js "ftp://x.supabase.co") (js "anon-key"))) = false /\
  fst (SupabaseService.initSupabase_calls createClient None
         (js "https://x.supabase.co") (js "anon-key")) = (connected, true) /\
  MongoDbService.initMongoDb_calls (fun _ => true) None (js "localhost:5000")
    = (None, false, []) /\
  snd (fst (MongoDbService.initMongoDb_calls (fun _ => false) None (js "http://")))
    = false /\
  existsb MongoDbService.is_network_call
    (snd (MongoDbService.initMongoDb_calls (fun _ => false) None (js "http://")))
    = false /\
  snd (GoogleDriveService.initGoogleClient GoogleDriveService.initial accepting
         (js "") (js "")) = Fulfilled tt /\
  snd (GoogleDriveService.initGoogleClient GoogleDriveService.initial failing
         (js "") (js "client-id"))
    = Rejected (Error (GoogleDriveService.init_failed GoogleDriveService.NotAnError)).
Proof.
  intros well_formed createClient connected accepting failing.
  destruct C6_connect_with_bad_credentials as (Hsupabase & Hmongo & Hgoogle).
  split; [|split; [|split; [|split; [|split; [|split; [|split; [|split; [|split]]]]]]]].
  - destruct (Hsupabase createClient connected (js "") (js "anon-key"))
      as (_ & _ & Hempty & _).
    apply Hempty. reflexivity.
  - destruct (Hsupabase createClient connected (js "not a url") (js "anon-key"))
      as (_ & _ & _ & Hgiven & _).
    destruct (Hgiven eq_refl) as (Hcalls & Hthrows & _).
    rewrite (surjective_pairing (SupabaseService.initSupabase_calls _ _ _ _)).
    rewrite Hcalls, (Hthrows eq_refl). reflexivity.
  - destruct (Hsupabase createClient connected (js "not a url") (js "anon-key"))
      as (Hsame & _ & _ & Hgiven & _).
    destruct (Hgiven eq_refl) as (_ & Hthrows & _).
    rewrite <- Hsame. apply Hthrows. reflexivity.
  - destruct (Hsupabase createClient None (js "ftp://x.supabase.co") (js "anon-key"))
      as (_ & _ & _ & _ & Hlibrary).
    apply (Hlibrary well_formed); [|reflexivity].
    intros u k Hu. unfold createClient. rewrite Hu. reflexivity.
  - destruct (Hsupabase createClient None (js "https://x.supabase.co") (js "anon-key"))
      as (_ & _ & _ & Hgiven & _).
    destruct (Hgiven eq_refl) as (_ & _ & Hbuilt).
    apply Hbuilt. reflexivity.
  - rewrite (surjective_pairing (MongoDbService.initMongoDb_calls _ _ _)).
    destruct (Hmongo (fun _ => true) None (js "localhost:5000")) as (Hsame & _).
    rewrite Hsame. reflexivity.
  - destruct (Hmongo (fun _ => false) None (js "http://")) as (_ & _ & Hfails).
    apply Hfails. reflexivity.
  - destruct (Hmongo (fun _ => false) None (js "http://")) as (_ & Hquiet & _).
    exact Hquiet.
  - destruct (Hgoogle GoogleDriveService.initial accepting (js "") (js ""))
      as (_ & Hresolves & _).
    apply Hresolves; reflexivity.
  - destruct (Hgoogle GoogleDriveService.initial failing (js "") (js "client-id"))
      as (_ & _ & Hrejects).
    apply Hrejects. left. reflexivity.
Defined.

(* ================================================================== *)
(** * Further properties of the code *)

(** ** Lists of code units *)

Section StringFacts.

Variable f : N -> bool.

Lemma dropWhile_idem (s : jsstring) :
  dropWhile f (dropWhile f s) = dropWhile f s.
Proof.
  induction s as [|c r IH]; [reflexivity|].
  simpl. destruct (f c) eqn:E; [exact IH|]. simpl. rewrite E. reflexivity.
Qed.

Lemma dropWhile_head (s : jsstring) (c : N) (r : jsstring) :
  dropWhile f s = c :: r -> f c = false.
Proof.
  induction s as [|x s IH]; [discriminate|].
  simpl. destruct (f x) eqn:E; [exact IH|].
  intros H. inversion H. subst. exact E.
Qed.

Lemma dropWhile_app_stop (s : jsstring) (c : N) :
  f c = false -> dropWhile f (s ++ [c]) = dropWhile f s ++ [c].
Proof.
  intros Hc. induction s as [|x s IH]; simpl.
  - rewrite Hc. reflexivity.
  - destruct (f x); [exact IH|reflexivity].
Qed.

Lemma take_drop_length (s : jsstring) :
  List.length (takeWhile f s) + List.length (dropWhile f s) = List.length s.
Proof.
  induction s as [|c r IH]; [reflexivity|].
  simpl. destruct (f c); simpl; lia.
Qed.

Lemma dropWhile_length (s : jsstring) :
  List.length (dropWhile f s) <= List.length s.
Proof. pose proof (take_drop_length s). lia. Qed.

Lemma Forall_takeWhile (P : N -> Prop) (s : jsstring) :
  Forall P s -> Forall P (takeWhile f s).
Proof.
  induction 1 as [|c r Hc _ IH]; simpl; [constructor|].
  destruct (f c); constructor; assumption.
Qed.

Lemma Forall_dropWhile (P : N -> Prop) (s : jsstring) :
  Forall P s -> Forall P (dropWhile f s).
Proof.
  induction 1 as [|c r Hc Hr IH]; simpl; [constructor|].
  destruct (f c); [exact IH|constructor; assumption].
Qed.

End StringFacts.

Lemma Forall_skipn_units (P : N -> Prop) (k : nat) (s : jsstring) :
  Forall P s -> Forall P (skipn k s).
Proof.
  revert s. induction k as [|k IH]; intros s H; [exact H|].
  destruct H; simpl; [constructor|]. apply IH. assumption.
Qed.

Lemma expect_Some (c : N) (s r : jsstring) :
  expect c s = Some r -> s = c :: r.
Proof.
  destruct s as [|x s]; [discriminate|]. unfold expect, char_eqb.
  destruct (N.eqb_spec x c) as [->|_]; [|discriminate].
  intros H. inversion H. reflexivity.
Qed.

Lemma startsWith_length (s p : jsstring) :
  startsWith s p = true -> List.length p <= List.length s.
Proof.
  revert s. induction p as [|x p IH]; intros s H; [simpl; lia|].
  destruct s as [|y s]; [discriminate|].
  simpl in H. apply andb_true_iff in H as [_ H]. apply IH in H. simpl. lia.
Qed.

Lemma startsWith_app (s x p : jsstring) :
  startsWith s p = true -> startsWith (s ++ x) p = true.
Proof.
  revert s. induction p as [|c p IH]; intros s H.
  - apply startsWith_nil_r.
  - destruct s as [|y s]; [discriminate|].
    simpl in H |- *. apply andb_true_iff in H as [H1 H2].
    rewrite H1. simpl. apply IH. exact H2.
Qed.

Lemma startsWith_split (s p : jsstring) :
  startsWith s p = true -> s = p ++ skipn (List.length p) s.
Proof.
  revert s. induction p as [|x p IH]; intros s H; [reflexivity|].
  destruct s as [|y s]; [discriminate|].
  simpl in H. apply andb_true_iff in H as [H1 H2].
  apply N.eqb_eq in H1. subst y. simpl. f_equal. apply IH. exact H2.
Qed.

(** ** Trimming *)

Lemma trimEnd_cons_stop (c : N) (r : jsstring) :
  isWhiteSpace c = false -> trimEnd (c :: r) = c :: trimEnd r.
Proof.
  intros Hc. unfold trimEnd. simpl rev.
  rewrite (dropWhile_app_stop _ _ _ Hc), rev_app_distr. reflexivity.
Qed.

Lemma trimEnd_idem (s : jsstring) : trimEnd (trimEnd s) = trimEnd s.
Proof.
  unfold trimEnd. rewrite rev_involutive, dropWhile_idem. reflexivity.
Qed.

Lemma trimStart_trim (s : jsstring) : trimStart (trim s) = trim s.
Proof.
  unfold trim. destruct (trimStart s) as [|c r] eqn:E; [reflexivity|].
  pose proof (dropWhile_head _ _ _ _ E) as Hc.
  rewrite (trimEnd_cons_stop _ _ Hc). unfold trimStart. simpl.
  rewrite Hc. reflexivity.
Qed.

Lemma trim_idem (s : jsstring) : trim (trim s) = trim s.
Proof.
  unfold trim at 1. rewrite trimStart_trim. unfold trim.
  apply trimEnd_idem.
Qed.

Lemma trim_head (s : jsstring) (c : N) (r : jsstring) :
  trim s = c :: r -> isWhiteSpace c = false.
Proof.
  intros H. pose proof (trimStart_trim s) as E. rewrite H in E.
  exact (dropWhile_head _ _ _ _ E).
Qed.

Lemma trim_last (s : jsstring) (i : jsstring) (c : N) :
  trim s = i ++ [c] -> isWhiteSpace c = false.
Proof.
  unfold trim, trimEnd. intros H.
  apply (f_equal (@rev N)) in H. rewrite rev_involutive, rev_app_distr in H.
  simpl in H. exact (dropWhile_head _ _ _ _ H).
Qed.

Lemma trim_length (s : jsstring) : List.length (trim s) <= List.length s.
Proof.
  unfold trim, trimEnd, trimStart. rewrite length_rev.
  pose proof (dropWhile_length isWhiteSpace (rev (dropWhile isWhiteSpace s))).
  pose proof (dropWhile_length isWhiteSpace s).
  rewrite length_rev in *. lia.
Qed.

Lemma Forall_trim (P : N -> Prop) (s : jsstring) :
  Forall P s -> Forall P (trim s).
Proof.
  intros H. unfold trim, trimEnd, trimStart.
  apply Forall_rev, Forall_dropWhile, Forall_rev, Forall_dropWhile. exact H.
Qed.

(** ** What a global replacement keeps and how long its result is *)

(** If every replacement text satisfies [P] and every code unit of the
    input either satisfies [P] or starts a match, the result satisfies
    [P] throughout. *)
Lemma replace_g_Forall (Q P : N -> Prop) (m : matcher) :
  (forall t rep n, Forall Q t -> m t = Some (rep, n) -> Forall P rep) ->
  (forall c r, Q c -> P c \/ exists rep k, m (c :: r) = Some (rep, S k)) ->
  forall s k, Forall Q s -> Forall P (replace_g m k s).
Proof.
  intros Hrep Hunit s. induction s as [|c r IH]; intros k Hs; [constructor|].
  inversion Hs as [|? ? Hc Hr]; subst.
  destruct k as [|k]; simpl; [|apply IH; exact Hr].
  destruct (m (c :: r)) as [[rep [|n]]|] eqn:E.
  - apply Forall_app. split; [exact (Hrep _ _ _ Hs E)|].
    constructor; [|apply IH; exact Hr].
    destruct (Hunit c r Hc) as [Hp|(rep' & k' & E')]; [exact Hp|].
    rewrite E in E'. discriminate.
  - apply Forall_app. split; [exact (Hrep _ _ _ Hs E)|]. apply IH. exact Hr.
  - constructor; [|apply IH; exact Hr].
    destruct (Hunit c r Hc) as [Hp|(rep' & k' & E')]; [exact Hp|].
    rewrite E in E'. discriminate.
Qed.

(** If no replacement text is longer than its match and every match lies
    within the text, the result is at most as long as the input. *)
Lemma replace_g_length (m : matcher) :
  (forall t rep n, m t = Some (rep, n) ->
     List.length rep <= n /\ n <= List.length t) ->
  forall s k, List.length (replace_g m k s) <= List.length s - k.
Proof.
  intros Hm s. induction s as [|c r IH]; intros k; [simpl; lia|].
  destruct k as [|k]; simpl; [|apply IH].
  destruct (m (c :: r)) as [[rep [|n]]|] eqn:E.
  - destruct (Hm _ _ _ E) as [H1 _]. rewrite length_app. simpl.
    specialize (IH 0). lia.
  - destruct (Hm _ _ _ E) as [H1 H2]. rewrite length_app. simpl in H2.
    specialize (IH n). lia.
  - simpl. specialize (IH 0). lia.
Qed.

Lemma literal_bound (pat rep : jsstring) :
  List.length rep <= List.length pat ->
  forall t r n, literal pat rep t = Some (r, n) ->
    List.length r <= n /\ n <= List.length t.
Proof.
  intros Hlen t r n. unfold literal.
  destruct (startsWith t pat) eqn:E; [|discriminate].
  intros H. inversion H. subst. split; [exact Hlen|].
  apply startsWith_length. exact E.
Qed.

Lemma delimiters_bound (t r : jsstring) (n : nat) :
  SupabaseService.re_delimiters t = Some (r, n) ->
  List.length r <= n /\ n <= List.length t.
Proof.
  unfold SupabaseService.re_delimiters.
  destruct (startsWith t (js "$$")) eqn:E1;
    [|destruct (startsWith t (js "\[")) eqn:E2;
      [|destruct (startsWith t (js "\]")) eqn:E3;
        [|destruct (startsWith t (js "$")) eqn:E4; [|discriminate]]]];
    intros H; inversion H; subst; simpl; (split; [lia|]);
    match goal with
    | E : startsWith t ?p = true |- _ => apply startsWith_length in E; exact E
    end.
Qed.

Lemma braces_bound (t r : jsstring) (n : nat) :
  SupabaseService.re_braces t = Some (r, n) ->
  List.length r <= n /\ n <= List.length t.
Proof.
  unfold SupabaseService.re_braces. destruct t as [|c t]; [discriminate|].
  destruct (char_eqb c 123 || char_eqb c 125); [|discriminate].
  intros H. inversion H. simpl. lia.
Qed.

(** The parts of a match of the fraction pattern. *)
Lemma frac_match (t rep : jsstring) (n : nat) :
  SupabaseService.re_frac t = Some (rep, n) ->
  exists ws1 g1 ws2 g2 rest,
    t = js "\frac" ++ ws1 ++ [123%N] ++ g1 ++ [125%N] ++ ws2 ++ [123%N]
        ++ g2 ++ [125%N] ++ rest /\
    rep = g1 ++ js "/" ++ g2 /\
    n = 5 + List.length ws1 + 1 + List.length g1 + 1
        + List.length ws2 + 1 + List.length g2 + 1.
Proof.
  unfold SupabaseService.re_frac, expect_lit.
  destruct (startsWith t (js "\frac")) eqn:E0; [|discriminate].
  set (s1 := skipn (List.length (js "\frac")) t).
  destruct (expect 123 (dropWhile isWhiteSpace s1)) as [s2|] eqn:E1;
    [|discriminate].
  destruct (negb (truthy (takeWhile SupabaseService.notCloseBrace s2)));
    [discriminate|].
  destruct (expect 125 (dropWhile SupabaseService.notCloseBrace s2))
    as [s3|] eqn:E2; [|discriminate].
  destruct (expect 123 (dropWhile isWhiteSpace s3)) as [s4|] eqn:E3;
    [|discriminate].
  destruct (negb (truthy (takeWhile SupabaseService.notCloseBrace s4)));
    [discriminate|].
  destruct (expect 125 (dropWhile SupabaseService.notCloseBrace s4))
    as [s5|] eqn:E4; [|discriminate].
  intros H. inversion H. subst rep n. clear H.
  exists (takeWhile isWhiteSpace s1), (takeWhile SupabaseService.notCloseBrace s2),
    (takeWhile isWhiteSpace s3), (takeWhile SupabaseService.notCloseBrace s4), s5.
  split; [|split; reflexivity].
  apply expect_Some in E1, E2, E3, E4.
  assert (Ht : t = js "\frac" ++ s1).
  { unfold s1. apply startsWith_split. exact E0. }
  assert (Hsplit : forall (f : N -> bool) (s : jsstring),
             s = takeWhile f s ++ dropWhile f s).
  { intros f s. induction s as [|x s IH]; [reflexivity|].
    simpl. destruct (f x); [simpl; f_equal; exact IH|reflexivity]. }
  rewrite Ht at 1. f_equal.
  rewrite (Hsplit isWhiteSpace s1) at 1. f_equal. rewrite E1. simpl. f_equal.
  rewrite (Hsplit SupabaseService.notCloseBrace s2) at 1. f_equal.
  rewrite E2. simpl. f_equal.
  rewrite (Hsplit isWhiteSpace s3) at 1. f_equal. rewrite E3. simpl. f_equal.
  rewrite (Hsplit SupabaseService.notCloseBrace s4) at 1. f_equal.
  rewrite E4. reflexivity.
Qed.

Lemma frac_bound (t r : jsstring) (n : nat) :
  SupabaseService.re_frac t = Some (r, n) ->
  List.length r <= n /\ n <= List.length t.
Proof.
  intros H. apply frac_match in H
    as (ws1 & g1 & ws2 & g2 & rest & -> & -> & ->).
  repeat rewrite length_app.
  change (List.length (js "\frac")) with 5.
  change (List.length (js "/")) with 1. simpl. lia.
Qed.

Lemma frac_Forall (P : N -> Prop) (t rep : jsstring) (n : nat) :
  P 47%N -> Forall P t -> SupabaseService.re_frac t = Some (rep, n) ->
  Forall P rep.
Proof.
  intros Hslash Ht H. apply frac_match in H
    as (ws1 & g1 & ws2 & g2 & rest & -> & -> & _).
  repeat (apply Forall_app in Ht as [? Ht]).
  apply Forall_app. split; [assumption|].
  apply Forall_app. split; [|assumption].
  change (js "/") with [47%N]. constructor; [exact Hslash|constructor].
Qed.

(** ** The normaliser's result *)

Lemma delimiters_remove_dollar (s : jsstring) (k : nat) :
  Forall (fun c => c <> 36%N)
    (replace_g SupabaseService.re_delimiters k s).
Proof.
  apply (replace_g_Forall (fun _ => True)); [| |apply Forall_forall; trivial].
  - intros t rep n _. unfold SupabaseService.re_delimiters.
    destruct (startsWith t (js "$$")); [intros H; inversion H; constructor|].
    destruct (startsWith t (js "\[")); [intros H; inversion H; constructor|].
    destruct (startsWith t (js "\]")); [intros H; inversion H; constructor|].
    destruct (startsWith t (js "$")); [intros H; inversion H; constructor|].
    discriminate.
  - intros c r _. destruct (N.eq_dec c 36) as [->|Hc]; [right|left; exact Hc].
    unfold SupabaseService.re_delimiters.
    destruct (startsWith (36%N :: r) (js "$$")); [eexists; eexists; reflexivity|].
    rewrite js_dollar.
    change (js "\[") with [92%N; 91%N]. change (js "\]") with [92%N; 93%N].
    simpl. rewrite startsWith_nil_r. exists [], 0. reflexivity.
Qed.

Lemma literal_keeps (P : N -> Prop) (pat rep s : jsstring) (k : nat) :
  Forall P rep -> Forall P s -> Forall P (replace_g (literal pat rep) k s).
Proof.
  intros Hrep. apply (replace_g_Forall P).
  - intros t r n _. unfold literal. destruct (startsWith t pat); [|discriminate].
    intros H. inversion H. subst. exact Hrep.
  - intros c r Hc. left. exact Hc.
Qed.

Lemma frac_keeps (P : N -> Prop) (s : jsstring) (k : nat) :
  P 47%N -> Forall P s -> Forall P (replace_g SupabaseService.re_frac k s).
Proof.
  intros Hslash. apply (replace_g_Forall P).
  - intros t rep n Ht H. exact (frac_Forall P _ _ _ Hslash Ht H).
  - intros c r Hc. left. exact Hc.
Qed.

Lemma braces_removed (s : jsstring) (k : nat) :
  Forall (fun c => c <> 36%N) s ->
  Forall plain_char (replace_g SupabaseService.re_braces k s).
Proof.
  apply (replace_g_Forall (fun c => c <> 36%N)).
  - intros t rep n _. unfold SupabaseService.re_braces.
    destruct t as [|c t]; [discriminate|].
    destruct (char_eqb c 123 || char_eqb c 125); [|discriminate].
    intros H. inversion H. constructor.
  - intros c r Hc. unfold SupabaseService.re_braces, char_eqb.
    destruct (N.eqb_spec c 123) as [->|H1]; [right; exists [], 0; reflexivity|].
    destruct (N.eqb_spec c 125) as [->|H2]; [right; exists [], 0; reflexivity|].
    left. repeat split; assumption.
Qed.

Lemma normalize_Forall_plain (latex : jsstring) :
  Forall plain_char (SupabaseService.convertLatexToPlainText latex).
Proof.
  unfold SupabaseService.convertLatexToPlainText.
  destruct (negb (truthy latex)); [constructor|].
  apply Forall_trim, braces_removed, frac_keeps; [lia|].
  unfold SupabaseService.re_cdot, SupabaseService.re_div,
    SupabaseService.re_times.
  apply literal_keeps;
    [change (js "·") with [183%N]; repeat constructor; lia|].
  apply literal_keeps;
    [change (js "÷") with [247%N]; repeat constructor; lia|].
  apply literal_keeps;
    [change (js "x") with [120%N]; repeat constructor; lia|].
  apply delimiters_remove_dollar.
Qed.

Lemma normalize_length_le (latex : jsstring) :
  List.length (SupabaseService.convertLatexToPlainText latex)
  <= List.length latex.
Proof.
  unfold SupabaseService.convertLatexToPlainText.
  destruct (negb (truthy latex)); [simpl; lia|].
  pose proof (replace_g_length SupabaseService.re_delimiters
                delimiters_bound latex 0) as H1.
  set (s1 := replace_g SupabaseService.re_delimiters 0 latex) in *.
  pose proof (replace_g_length SupabaseService.re_times
                (literal_bound (js "\times") (js "x") ltac:(vm_compute; lia))
                s1 0) as H2.
  set (s2 := replace_g SupabaseService.re_times 0 s1) in *.
  pose proof (replace_g_length SupabaseService.re_div
                (literal_bound (js "\div") (js "÷") ltac:(vm_compute; lia))
                s2 0) as H3.
  set (s3 := replace_g SupabaseService.re_div 0 s2) in *.
  pose proof (replace_g_length SupabaseService.re_cdot
                (literal_bound (js "\cdot") (js "·") ltac:(vm_compute; lia))
                s3 0) as H4.
  set (s4 := replace_g SupabaseService.re_cdot 0 s3) in *.
  pose proof (replace_g_length SupabaseService.re_frac frac_bound s4 0) as H5.
  set (s5 := replace_g SupabaseService.re_frac 0 s4) in *.
  pose proof (replace_g_length SupabaseService.re_braces braces_bound s5 0) as H6.
  pose proof (trim_length (replace_g SupabaseService.re_braces 0 s5)) as H7.
  lia.
Qed.

Lemma normalize_trim_fixed (latex : jsstring) :
  let plain := SupabaseService.convertLatexToPlainText latex in
  trim plain = plain /\
  (forall c r, plain = c :: r -> isWhiteSpace c = false) /\
  (forall i c, plain = i ++ [c] -> isWhiteSpace c = false).
Proof.
  unfold SupabaseService.convertLatexToPlainText.
  destruct (negb (truthy latex)).
  - split; [reflexivity|]. split.
    + discriminate.
    + intros [|? ?] c H; discriminate.
  - split; [apply trim_idem|]. split.
    + intros c r. apply trim_head.
    + intros i c. apply trim_last.
Qed.

(** The stored plain text holds no [$], no [{] and no [}], whatever the
    markup was. *)
Theorem normalize_has_no_markup_characters (latex : jsstring) :
  Forall plain_char (SupabaseService.convertLatexToPlainText latex).
Proof. apply normalize_Forall_plain. Qed.

(** The stored plain text is never longer than the markup. *)
Theorem normalize_never_lengthens (latex : jsstring) :
  List.length (SupabaseService.convertLatexToPlainText latex)
  <= List.length latex.
Proof. apply normalize_length_le. Qed.

(** The stored plain text has no white space at either end: trimming it
    again changes nothing, and neither its first nor its last code unit
    is white space. *)
Theorem normalize_is_trimmed (latex : jsstring) :
  let plain := SupabaseService.convertLatexToPlainText latex in
  trim plain = plain /\
  (forall c r, plain = c :: r -> isWhiteSpace c = false) /\
  (forall i c, plain = i ++ [c] -> isWhiteSpace c = false).
Proof. apply normalize_trim_fixed. Qed.

(** The text that the copy buttons put on the clipboard holds no [$],
    [{] or [}], is not longer than the markup shown, and has no white
    space at either end. *)
Theorem copied_text_is_plain (latexContent : jsstring) :
  let copied := App.handleCopy latexContent in
  Forall plain_char copied /\
  List.length copied <= List.length latexContent /\
  trim copied = copied.
Proof.
  change (App.handleCopy latexContent)
    with (SupabaseService.convertLatexToPlainText latexContent).
  split; [apply normalize_Forall_plain|].
  split; [apply normalize_length_le|].
  apply normalize_trim_fixed.
Qed.

(** ** The topic part of a file name *)

Lemma before_first_cons (sep : jsstring) (c : N) (r : jsstring) :
  before_first sep (c :: r) =
  if startsWith (c :: r) sep then [] else c :: before_first sep r.
Proof. reflexivity. Qed.

Lemma includes_cons (p : jsstring) (c : N) (r : jsstring) :
  includes (c :: r) p = startsWith (c :: r) p || includes r p.
Proof. reflexivity. Qed.

(** The part of a topic that goes into the file names of the download
    and of the Drive upload is the start of the topic up to, and without,
    its first [" ("]: it is a prefix of the topic, it contains no
    separator, and it is the whole topic when the topic has none. *)
Theorem before_first_is_the_separator_free_prefix (sep s : jsstring) :
  sep <> [] ->
  (exists rest, s = before_first sep s ++ rest) /\
  includes (before_first sep s) sep = false /\
  (includes s sep = false -> before_first sep s = s) /\
  (includes s sep = true ->
   exists rest, s = before_first sep s ++ sep ++ rest).
Proof.
  intros Hsep.
  assert (Hinc : includes [] sep = false)
    by (destruct sep; [contradiction|reflexivity]).
  induction s as [|c r IH].
  - assert (Hb : before_first sep [] = []) by (destruct sep; reflexivity).
    rewrite Hb. repeat split.
    + exists []. reflexivity.
    + exact Hinc.
    + rewrite Hinc. discriminate.
  - destruct IH as ((rest & Hrest) & Hfree & Hsame & Hcut).
    rewrite before_first_cons, includes_cons.
    destruct (startsWith (c :: r) sep) eqn:E.
    + repeat split.
      * exists (c :: r). reflexivity.
      * exact Hinc.
      * discriminate.
      * intros _. exists (skipn (List.length sep) (c :: r)).
        apply startsWith_split. exact E.
    + repeat split.
      * exists rest. rewrite <- app_comm_cons. f_equal. exact Hrest.
      * rewrite includes_cons, Hfree, orb_false_r.
        destruct (startsWith (c :: before_first sep r) sep) eqn:E2;
          [|reflexivity].
        apply (startsWith_app _ rest) in E2. rewrite <- app_comm_cons in E2.
        rewrite <- Hrest in E2. rewrite E2 in E. discriminate.
      * rewrite orb_false_l. intros H. f_equal. apply Hsame, H.
      * rewrite orb_false_l. intros H.
        destruct (Hcut H) as (rest' & Hr). exists rest'.
        rewrite <- app_comm_cons. f_equal. exact Hr.
Qed.

Lemma before_first_is_the_separator_free_prefix_witness :
  before_first (js " (") (js "일차방정식 (중1)") = js "일차방정식" /\
  includes (js "일차방정식") (js " (") = false.
Proof.
  destruct (before_first_is_the_separator_free_prefix
              (js " (") (js "일차방정식 (중1)")) as (_ & Hfree & _).
  - discriminate.
  - split; [reflexivity|exact Hfree].
Defined.

(** ** Objects *)

Lemma distinct_keys_NoDup (keys : list jsstring) :
  distinct_keys keys = true -> NoDup keys.
Proof.
  induction keys as [|k r IH]; [constructor|].
  simpl. intros H. apply andb_true_iff in H as [H1 H2].
  constructor; [|apply IH; exact H2].
  intros Hin. apply negb_true_iff in H1.
  assert (existsb (JS.eqb k) r = true)
    by (apply existsb_exists; exists k; split; [exact Hin|apply eqb_refl]).
  congruence.
Qed.

Lemma Problem_props_distinct (p : Problem) :
  distinct_keys (map fst (MongoDbService.Problem_props p)) = true.
Proof.
  destruct p as [[?|] [?|] ? ? ? [?|] [?|] [?|] [?|] [?|] [?|]];
    vm_compute; reflexivity.
Qed.

Lemma Problem_props_required (p : Problem) :
  obj_get (MongoDbService.Problem_props p) (js "problem") = Some (JStr p.(problem)) /\
  obj_get (MongoDbService.Problem_props p) (js "answer") = Some (JStr p.(answer)) /\
  obj_get (MongoDbService.Problem_props p) (js "solution") = Some (JStr p.(solution)).
Proof.
  destruct p as [[?|] [?|] ? ? ? ? ? ? ? ? ?]; repeat split; reflexivity.
Qed.

Lemma payload_distinct (p : Problem) (l : Level) (t : jsstring) (d : Difficulty) :
  distinct_keys (map fst (MongoDbService.payload_of p l t d)) = true.
Proof.
  destruct p as [[?|] [?|] ? ? ? [?|] [?|] [?|] [?|] [?|] [?|]];
    vm_compute; reflexivity.
Qed.

(** The body sent to the backend always carries the level, topic and
    difficulty chosen in the form, also when the record saved has such
    fields of its own; it carries the record's problem, answer and
    solution unchanged; and no key occurs twice in it. *)
Theorem payload_lookup (p : Problem) (l : Level) (t : jsstring) (d : Difficulty) :
  let payload := MongoDbService.payload_of p l t d in
  obj_get payload (js "level") = Some (JStr (Level_value l)) /\
  obj_get payload (js "topic") = Some (JStr t) /\
  obj_get payload (js "difficulty") = Some (JStr (Difficulty_value d)) /\
  obj_get payload (js "problem") = Some (JStr p.(problem)) /\
  obj_get payload (js "answer") = Some (JStr p.(answer)) /\
  obj_get payload (js "solution") = Some (JStr p.(solution)) /\
  NoDup (map fst payload).
Proof.
  intros payload. unfold payload, MongoDbService.payload_of.
  destruct (Problem_props_required p) as (Hp & Ha & Hs).
  split; [|split; [|split; [|split; [|split; [|split]]]]].
  - rewrite 2 obj_get_set_other by discriminate. apply obj_get_set_same.
  - rewrite obj_get_set_other by discriminate. apply obj_get_set_same.
  - apply obj_get_set_same.
  - rewrite 3 obj_get_set_other by discriminate. exact Hp.
  - rewrite 3 obj_get_set_other by discriminate. exact Ha.
  - rewrite 3 obj_get_set_other by discriminate. exact Hs.
  - apply distinct_keys_NoDup. apply (payload_distinct p l t d).
Qed.

(** ** Saving *)

(** The backend save is fire-once: it issues at most one request, none
    without a stored URL, and its promise is fulfilled exactly when the
    one request was answered with a 2xx status. *)
Theorem mongo_save_is_fire_once
    (URL_resolve : jsstring -> jsstring -> Settled jsstring)
    (JSON_stringify : JsObject -> jsstring) (st : MongoDbService.State)
    (network : MongoDbService.FetchRequest -> Settled MongoDbService.Response)
    (p : Problem) (l : Level) (t : jsstring) (d : Difficulty) :
  let result :=
    MongoDbService.saveProblemToMongoDb URL_resolve JSON_stringify st
      network p l t d in
  List.length (fst result) <= 1 /\
  (MongoDbService.unset st = true ->
   result = ([], Rejected (Error MongoDbService.not_initialized))) /\
  (snd result = Fulfilled tt <->
   exists request response,
     fst result = [request] /\
     network request = Fulfilled response /\
     MongoDbService.ok response = true).
Proof.
  intros result. unfold result, MongoDbService.saveProblemToMongoDb.
  destruct (MongoDbService.unset st) eqn:Eu.
  - simpl. split; [lia|]. split; [reflexivity|]. split; [discriminate|].
    intros (request & response & H & _). discriminate.
  - destruct (URL_resolve _ _) as [endpoint|error].
    + destruct (network _) as [response|error] eqn:En.
      * destruct (MongoDbService.ok response) eqn:Eok; simpl.
        -- split; [lia|]. split; [discriminate|]. split; [|reflexivity].
           intros _. eexists; eexists. split; [reflexivity|].
           split; [exact En|exact Eok].
        -- split; [lia|]. split; [discriminate|]. split; [discriminate|].
           intros (request & response' & H & Hn & Hok).
           inversion H. subst request. rewrite En in Hn. inversion Hn.
           subst. congruence.
      * simpl. split; [lia|]. split; [discriminate|]. split; [discriminate|].
        intros (request & response' & H & Hn & _).
        inversion H. subst request. rewrite En in Hn. discriminate.
    + simpl. split; [lia|]. split; [discriminate|]. split; [discriminate|].
      intros (request & response & H & _). discriminate.
Qed.

(** The Drive save issues no request unless the library is set and a
    token is held; otherwise it issues exactly one upload, is fulfilled
    exactly when that is answered with status 200, and reports every
    other outcome, a rejected request included, with one fixed message. *)
Theorem drive_save_outcomes
    (JSON_stringify : JsObject -> jsstring) (now : jsstring)
    (st : GoogleDriveService.State)
    (respond : GoogleDriveService.UploadRequest -> Settled N)
    (p : Problem) (l : Level) (t : jsstring) (d : Difficulty) :
  let result :=
    GoogleDriveService.saveProblemToDrive JSON_stringify now st respond p l t d in
  let upload := GoogleDriveService.upload_of JSON_stringify now p l t d in
  ((st.(GoogleDriveService.gapi) = false \/ st.(GoogleDriveService.token) = None) ->
   result = ([], Rejected (Error GoogleDriveService.not_logged_in))) /\
  (st.(GoogleDriveService.gapi) = true ->
   st.(GoogleDriveService.token) <> None ->
   fst result = [GoogleDriveService.ClientRequest upload] /\
   (respond upload = Fulfilled 200%N -> snd result = Fulfilled tt) /\
   (respond upload <> Fulfilled 200%N ->
    snd result = Rejected (Error GoogleDriveService.save_failed))).
Proof.
  intros result upload. unfold result, upload, GoogleDriveService.saveProblemToDrive.
  destruct (GoogleDriveService.gapi st), (GoogleDriveService.token st) as [tok|];
    (split; [intros [H|H]; try discriminate; reflexivity|]);
    intros Hg Ht; try discriminate; try contradiction.
  split; [reflexivity|]. cbn [snd].
  destruct (respond _) as [status|error]; split.
  - intros H. inversion H. reflexivity.
  - intros H. destruct (N.eqb_spec status 200) as [->|Hs]; [contradiction|].
    reflexivity.
  - discriminate.
  - reflexivity.
Qed.

Lemma drive_save_outcomes_witness :
  let st :=
    {| GoogleDriveService.gapi := true; GoogleDriveService.google := true;
       GoogleDriveService.tokenClient := None;
       GoogleDriveService.token := Some (js "ya29.token") |} in
  snd (GoogleDriveService.saveProblemToDrive (fun _ => []) (js "2025-01-01T00:00:00.000Z")
         st (fun _ => Rejected (Error (js "quota exceeded")))
         (mkProblem (js "p") (js "a") (js "s")) High (js "t") Top)
  = Rejected (Error GoogleDriveService.save_failed) /\
  GoogleDriveService.saveProblemToDrive (fun _ => []) (js "2025-01-01T00:00:00.000Z")
    GoogleDriveService.initial (fun _ => Fulfilled 200%N)
    (mkProblem (js "p") (js "a") (js "s")) High (js "t") Top
  = ([], Rejected (Error GoogleDriveService.not_logged_in)).
Proof.
  intros st. split.
  - destruct (drive_save_outcomes (fun _ => []) (js "2025-01-01T00:00:00.000Z")
                st (fun _ => Rejected (Error (js "quota exceeded")))
                (mkProblem (js "p") (js "a") (js "s")) High (js "t") Top)
      as [_ H].
    destruct (H eq_refl ltac:(discriminate)) as (_ & _ & Hfail).
    apply Hfail. discriminate.
  - destruct (drive_save_outcomes (fun _ => []) (js "2025-01-01T00:00:00.000Z")
                GoogleDriveService.initial (fun _ => Fulfilled 200%N)
                (mkProblem (js "p") (js "a") (js "s")) High (js "t") Top)
      as [H _].
    apply H. left. reflexivity.
Defined.

(** ** Connecting and disconnecting *)

(** Disconnecting twice is disconnecting once: for each of the three
    backends a second disconnect changes nothing, and for Google Drive it
    makes no further call once the first revocation has completed. *)
Theorem disconnect_twice_is_disconnect_once :
  (forall p, App.supabaseDisconnect (App.supabaseDisconnect p)
             = App.supabaseDisconnect p) /\
  (forall p, App.mongoDisconnect (App.mongoDisconnect p)
             = App.mongoDisconnect p) /\
  (forall p revoked,
      App.onSignout (fst (App.onSignout p true)) revoked
      = (fst (App.onSignout p true), [])) /\
  (forall st revoked,
      GoogleDriveService.handleSignoutClick
        (fst (fst (GoogleDriveService.handleSignoutClick st true))) revoked
      = (fst (fst (GoogleDriveService.handleSignoutClick st true)), [], None)).
Proof.
  split; [reflexivity|]. split; [reflexivity|]. split.
  - intros [k c r f e se ss [g go tc [tok|]]] revoked;
      unfold App.onSignout, GoogleDriveService.handleSignoutClick; simpl;
      destruct g, go; reflexivity.
  - intros [g go tc [tok|]] revoked;
      unfold GoogleDriveService.handleSignoutClick; simpl;
      destruct g, go; reflexivity.
Qed.

(** A save that follows a successful connect goes through the handle
    made from the credentials of that connect: the Supabase insert is
    issued through the client built from the URL and key given, and the
    backend request goes to the endpoint resolved from the URL given. *)
Theorem save_after_connect_uses_the_new_handle :
  (forall createClient st url key st' respond p l t d,
      SupabaseService.initSupabase createClient st url key = (st', true) ->
      exists client,
        createClient url key = Some client /\
        map SupabaseService.via
          (fst (SupabaseService.saveProblemToDb st' respond p l t d)) = [client]) /\
  (forall URL_parses URL_resolve JSON_stringify st url st' network p l t d endpoint,
      MongoDbService.initMongoDb URL_parses st url = (st', true) ->
      URL_resolve (js "api/problems") url = Fulfilled endpoint ->
      map MongoDbService.endpoint
        (fst (MongoDbService.saveProblemToMongoDb URL_resolve JSON_stringify
                st' network p l t d)) = [endpoint]).
Proof.
  split.
  - intros createClient st url key st' respond p l t d.
    unfold SupabaseService.initSupabase.
    destruct (truthy url && truthy key); [|intros H; inversion H].
    destruct (createClient url key) as [client|]; intros H; inversion H.
    exists client. split; [reflexivity|].
    unfold SupabaseService.saveProblemToDb. destruct (respond _); reflexivity.
  - intros URL_parses URL_resolve JSON_stringify st url st' network p l t d
      endpoint Hinit Hres.
    apply initMongoDb_success_truthy in Hinit as [-> Hurl].
    unfold MongoDbService.saveProblemToMongoDb, MongoDbService.unset.
    rewrite Hurl, Hres. simpl negb. cbv iota.
    destruct (network _) as [r|e]; [destruct (negb (MongoDbService.ok r))|];
      reflexivity.
Qed.

Lemma save_after_connect_uses_the_new_handle_witness :
  let createClient := fun url key =>
    Some {| SupabaseService.supabaseUrl := url;
            SupabaseService.supabaseKey := key |} in
  let old :=
    Some {| SupabaseService.supabaseUrl := js "https://old.supabase.co";
            SupabaseService.supabaseKey := js "old" |} in
  let st :=
    fst (SupabaseService.initSupabase createClient old
           (js "https://new.supabase.co") (js "new")) in
  map SupabaseService.via
    (fst (SupabaseService.saveProblemToDb st (fun _ => None)
            (mkProblem (js "p") (js "a") (js "s")) Middle (js "t") Basic))
  = [ {| SupabaseService.supabaseUrl := js "https://new.supabase.co";
         SupabaseService.supabaseKey := js "new" |} ] /\
  map MongoDbService.endpoint
    (fst (MongoDbService.saveProblemToMongoDb
            (fun rel base => Fulfilled (base ++ js "/" ++ rel)) (fun _ => [])
            (fst (MongoDbService.initMongoDb (fun _ => true)
                    (Some (js "http://old.example")) (js "http://new.example")))
            (fun _ => Rejected (TypeError (js "Failed to fetch")))
            (mkProblem (js "p") (js "a") (js "s")) Middle (js "t") Basic))
  = [js "http://new.example/api/problems"].
Proof.
  intros createClient old st.
  destruct save_after_connect_uses_the_new_handle as [Hsupabase Hmongo].
  split.
  - destruct (Hsupabase createClient old (js "https://new.supabase.co")
                (js "new") st (fun _ => None)
                (mkProblem (js "p") (js "a") (js "s")) Middle (js "t") Basic
                eq_refl) as (client & Hc & Hvia).
    inversion Hc. subst client. exact Hvia.
  - apply (Hmongo (fun _ => true)
             (fun rel base => Fulfilled (base ++ js "/" ++ rel)) (fun _ => [])
             (Some (js "http://old.example")) (js "http://new.example"));
      reflexivity.
Defined.

(** ** Generation *)

Lemma and_then_truthy (a b : PropertyRead) (v : JsValue) :
  GeminiService.and_then a b = ReadValue v -> ToBoolean v = true ->
  (exists va, a = ReadValue va /\ ToBoolean va = true) /\ b = ReadValue v.
Proof.
  destruct a as [| |va]; simpl; try discriminate.
  destruct (ToBoolean va) eqn:E.
  - intros -> _. split; [exists va; split; [reflexivity|exact E]|reflexivity].
  - intros H Hv. inversion H. subst. congruence.
Qed.

(** A call to the generator issues one request whose contents are the
    prompt. Whatever goes wrong (the request fails, the response has no
    text, the text is not JSON, or a field is missing or empty), the
    caller receives the same fixed error. A problem is returned only when
    the response text, trimmed, parses to an object whose [problem],
    [answer] and [solution] are all truthy. *)
Theorem generator_returns_complete_problems_only
    (JSON_parse : jsstring -> option JsValue)
    (ai : GeminiService.GenerateRequest -> Settled (option jsstring))
    (prompt : jsstring) :
  let result := GeminiService.callGeminiApi JSON_parse ai prompt in
  map GeminiService.contents (fst result) = [prompt] /\
  (forall error, snd result = Rejected error ->
     error = Error GeminiService.generation_failed) /\
  (forall data, snd result = Fulfilled data ->
     exists request text props vp va vs,
       fst result = [request] /\
       ai request = Fulfilled (Some text) /\
       JSON_parse (trim text) = Some data /\
       data = JObj props /\
       obj_get props (js "problem") = Some vp /\ ToBoolean vp = true /\
       obj_get props (js "answer") = Some va /\ ToBoolean va = true /\
       obj_get props (js "solution") = Some vs /\ ToBoolean vs = true).
Proof.
  intros result. unfold result, GeminiService.callGeminiApi.
  split; [reflexivity|]. cbn [fst snd]. split.
  - intros error.
    destruct (ai _) as [[text|]|e]; try (intros H; inversion H; reflexivity).
    destruct (JSON_parse _) as [data|]; try (intros H; inversion H; reflexivity).
    destruct (GeminiService.basic_validation data) as [[|]|];
      intros H; inversion H; reflexivity.
  - intros data.
    destruct (ai _) as [[text|]|e] eqn:Eai; try discriminate.
    destruct (JSON_parse _) as [data'|] eqn:Ep; try discriminate.
    destruct (GeminiService.basic_validation data') as [[|]|] eqn:Ev;
      try discriminate.
    intros H. inversion H. subst data'. clear H.
    unfold GeminiService.basic_validation in Ev.
    destruct (GeminiService.and_then _ _) as [| |vs] eqn:E3; try discriminate.
    injection Ev as Hvs.
    apply and_then_truthy in E3 as ((v2 & E2 & Hv2) & Hs); [|exact Hvs].
    apply and_then_truthy in E2 as ((v1 & E1 & Hv1) & Ha); [|exact Hv2].
    unfold get_property in E1, Ha, Hs.
    destruct data as [| | | | |props]; try discriminate.
    destruct (obj_get props (js "problem")) as [vp|] eqn:Gp; try discriminate.
    destruct (obj_get props (js "answer")) as [va|] eqn:Ga; try discriminate.
    destruct (obj_get props (js "solution")) as [vs'|] eqn:Gs; try discriminate.
    injection E1 as ->. injection Ha as ->. injection Hs as ->.
    eexists; exists text, props, v1, v2, vs.
    repeat split; try reflexivity; assumption.
Qed.

(** ** The history modal *)

(** Loading the history: with the connected flag off nothing is requested,
    the list is emptied and the connect-first message is shown. With the
    flag on at most one select is issued; the list shown afterwards is
    the data of that select when no error is shown, and the list from
    before when one is. *)
Theorem history_fetch
    (isSupabaseConnected : bool) (supabase : SupabaseService.State)
    (respond : SupabaseService.SelectRequest -> SupabaseService.SelectResponse)
    (m : ProblemHistoryModal.State) :
  let result :=
    ProblemHistoryModal.fetchProblems isSupabaseConnected supabase respond m in
  (isSupabaseConnected = false ->
   snd result = [] /\
   (fst result).(ProblemHistoryModal.problems) = [] /\
   (fst result).(ProblemHistoryModal.error)
     = Some ProblemHistoryModal.connect_first) /\
  (isSupabaseConnected = true ->
   List.length (snd result) <= 1 /\
   ((fst result).(ProblemHistoryModal.error) = None ->
    exists request data,
      snd result = [request] /\
      request.(SupabaseService.select_table) = js "math_problems" /\
      request.(SupabaseService.order_column) = js "created_at" /\
      request.(SupabaseService.ascending) = false /\
      respond request = SupabaseService.SelectData data /\
      (fst result).(ProblemHistoryModal.problems) = data) /\
   ((fst result).(ProblemHistoryModal.error) <> None ->
    (fst result).(ProblemHistoryModal.problems)
      = m.(ProblemHistoryModal.problems))).
Proof.
  intros result. unfold result, ProblemHistoryModal.fetchProblems.
  split; intros ->; simpl negb; cbv iota.
  - repeat split.
  - unfold SupabaseService.getProblemsFromDb.
    destruct supabase as [client|].
    + destruct (respond _) as [data|message] eqn:E; simpl.
      * split; [lia|]. split; [|intros H; contradiction].
        intros _. eexists; exists data. repeat split. exact E.
      * split; [lia|]. split; [discriminate|reflexivity].
    + simpl. split; [lia|]. split; [discriminate|reflexivity].
Qed.

(** ** View modes and the number of problems *)

(** Switching the view of the active problem flips what is displayed for
    it, leaves every other problem's view alone, and switching twice
    brings back what was displayed before. *)
Theorem toggle_view_mode (active : nat) (viewModes : App.ViewModes) :
  App.currentViewMode (App.handleToggleViewMode active viewModes) active
    <> App.currentViewMode viewModes active /\
  (forall index, index <> active ->
     App.handleToggleViewMode active viewModes index = viewModes index) /\
  (forall index,
     App.currentViewMode
       (App.handleToggleViewMode active
          (App.handleToggleViewMode active viewModes)) index
     = App.currentViewMode viewModes index).
Proof.
  unfold App.currentViewMode, App.handleToggleViewMode.
  split; [|split].
  - rewrite Nat.eqb_refl. destruct (viewModes active) as [[|]|]; discriminate.
  - intros index H. apply Nat.eqb_neq in H. rewrite H. reflexivity.
  - intros index. rewrite Nat.eqb_refl.
    destruct (Nat.eqb_spec index active) as [->|_]; [|reflexivity].
    destruct (viewModes active) as [[|]|]; reflexivity.
Qed.

Lemma onNumberOfProblemsChange_range (numberOfProblems : Z) (value : jsstring) :
  (1 <= numberOfProblems <= 10)%Z ->
  (1 <= App.onNumberOfProblemsChange numberOfProblems value <= 10)%Z.
Proof.
  intros Hn. unfold App.onNumberOfProblemsChange.
  destruct (App.parseInt value) as [val|].
  - destruct ((0 <? val)%Z && (val <=? 10)%Z) eqn:Er.
    + apply andb_true_iff in Er as [H1 H2].
      apply Z.ltb_lt in H1. apply Z.leb_le in H2. lia.
    + destruct (negb (truthy value)); lia.
  - destruct (negb (truthy value)); lia.
Qed.

(** Whatever is typed into the number-of-problems field, the number of
    problems stays between 1 and 10. The empty text gives 1; any other
    text changes the number only to the integer it starts with, and only
    when that lies between 1 and 10. *)
Theorem number_of_problems_stays_in_range (numberOfProblems : Z)
    (value : jsstring) :
  (1 <= numberOfProblems <= 10)%Z ->
  let next := App.onNumberOfProblemsChange numberOfProblems value in
  (1 <= next <= 10)%Z /\
  (value = [] -> next = 1%Z) /\
  (value <> [] -> next <> numberOfProblems ->
   App.parseInt value = Some next).
Proof.
  intros Hn next. unfold next, App.onNumberOfProblemsChange.
  destruct (App.parseInt value) as [val|] eqn:Ep.
  - destruct ((0 <? val)%Z && (val <=? 10)%Z) eqn:Er.
    + apply andb_true_iff in Er as [H1 H2].
      apply Z.ltb_lt in H1. apply Z.leb_le in H2.
      split; [lia|]. split; [|reflexivity].
      intros ->. discriminate.
    + destruct value as [|c r]; simpl.
      * split; [lia|]. split; [reflexivity|]. intros H. contradiction.
      * split; [lia|]. split; [discriminate|]. intros _ H. contradiction.
  - destruct value as [|c r]; simpl.
    + split; [lia|]. split; [reflexivity|]. intros H. contradiction.
    + split; [lia|]. split; [discriminate|]. intros _ H. contradiction.
Qed.

Lemma number_of_problems_stays_in_range_witness :
  App.onNumberOfProblemsChange 3 (js "7") = 7%Z /\
  App.onNumberOfProblemsChange 3 (js "12") = 3%Z /\
  App.onNumberOfProblemsChange 3 (js "") = 1%Z /\
  (1 <= App.onNumberOfProblemsChange 3 (js "-4 problems") <= 10)%Z.
Proof.
  split; [reflexivity|]. split; [reflexivity|]. split; [reflexivity|].
  apply (number_of_problems_stays_in_range 3 (js "-4 problems")). lia.
Defined.

(** ** Generating problems *)

Lemma Promise_all_fulfilled {A} (outcomes : list (Settled A)) (earliest : nat)
    (vs : list A) :
  App.Promise_all outcomes earliest = Fulfilled vs ->
  outcomes = map Fulfilled vs.
Proof.
  unfold App.Promise_all.
  destruct (App.rejections outcomes) as [|e rest] eqn:E; [|discriminate].
  intros H. injection H as <-.
  induction outcomes as [|[a|e] r IH]; [reflexivity| |discriminate].
  simpl. f_equal. apply IH. exact E.
Qed.

Lemma rejections_In {A} (outcomes : list (Settled A)) (e : JsError) :
  In e (App.rejections outcomes) -> In (Rejected e) outcomes.
Proof.
  induction outcomes as [|[a|e'] r IH]; simpl; [tauto| |].
  - intros H. right. apply IH. exact H.
  - intros [->|H]; [left; reflexivity|right; apply IH; exact H].
Qed.

Lemma Promise_all_rejected {A} (outcomes : list (Settled A)) (earliest : nat)
    (err : JsError) :
  App.Promise_all outcomes earliest = Rejected err ->
  In (Rejected err) outcomes.
Proof.
  unfold App.Promise_all.
  destruct (App.rejections outcomes) as [|e rest] eqn:E; [discriminate|].
  intros H. injection H as <-. apply rejections_In. rewrite E.
  assert (G : forall (l : list JsError) d, In d l -> In (nth earliest l d) l).
  { intros l d Hd.
    destruct (Nat.lt_ge_cases earliest (List.length l)) as [Hlt|Hge].
    - apply nth_In. exact Hlt.
    - rewrite nth_overflow by exact Hge. exact Hd. }
  apply (G (e :: rest) e). left. reflexivity.
Qed.

Lemma handleGenerateProblem_cases (st : App.AppState)
    (generate : nat -> Settled Problem) (earliest : nat) :
  let n := Z.to_nat st.(App.numberOfProblems) in
  let after := App.handleGenerateProblem st generate earliest in
  let sel := after.(App.selection) in
  (map Fulfilled sel.(App.problems) = map generate (seq 0 n) /\
   List.length sel.(App.problems) = n /\
   sel.(App.activeProblemIndex) = 0 /\
   after.(App.ui).(App.error) = None)
  \/
  (sel.(App.problems) = [] /\
   exists i e,
     i < n /\ generate i = Rejected e /\
     after.(App.ui).(App.error) = Some (error_message e)).
Proof.
  intros n after sel. unfold sel, after, App.handleGenerateProblem. fold n.
  destruct (App.Promise_all _ _) as [newProblems|err] eqn:E.
  - left. apply Promise_all_fulfilled in E. cbn.
    split; [symmetry; exact E|]. split; [|split; reflexivity].
    apply (f_equal (@List.length _)) in E.
    rewrite !length_map, length_seq in E. symmetry. exact E.
  - right. apply Promise_all_rejected in E. cbn. split; [reflexivity|].
    apply in_map_iff in E as (i & Hi & Hin). apply in_seq in Hin.
    exists i, err. split; [lia|]. split; [exact Hi|reflexivity].
Qed.

(** Generation is all or nothing. Either every call succeeded: then the
    list holds exactly the problems returned, in the order of the calls,
    as many as were asked for, the first one is active and no error is
    shown. Or some call failed: then the list is empty, whatever the
    other calls returned, and the error shown is the message of a failed
    call. *)
Theorem generation_is_all_or_nothing (st : App.AppState)
    (generate : nat -> Settled Problem) (earliest : nat) :
  let n := Z.to_nat st.(App.numberOfProblems) in
  let after := App.handleGenerateProblem st generate earliest in
  let sel := after.(App.selection) in
  (map Fulfilled sel.(App.problems) = map generate (seq 0 n) /\
   List.length sel.(App.problems) = n /\
   sel.(App.activeProblemIndex) = 0 /\
   after.(App.ui).(App.error) = None)
  \/
  (sel.(App.problems) = [] /\
   exists i e,
     i < n /\ generate i = Rejected e /\
     after.(App.ui).(App.error) = Some (error_message e)).
Proof. apply handleGenerateProblem_cases. Qed.

(** ** Saving without an active problem *)

(** When the active index does not point into the list of problems, a
    click on any of the three save buttons does nothing, connected or
    not: the panel is unchanged and no request is issued. *)
Theorem save_without_active_problem (sel : App.Selection) :
  List.length sel.(App.problems) <= sel.(App.activeProblemIndex) ->
  (forall p respond,
      App.handleSaveToDb sel p respond = (p, [], App.NotIssued)) /\
  (forall URL_resolve JSON_stringify p network,
      App.handleSaveToMongo URL_resolve JSON_stringify sel p network
      = (p, [], App.NotIssued)) /\
  (forall JSON_stringify now p respond,
      App.handleSaveToDrive JSON_stringify now sel p respond
      = (p, [], App.NotIssued)).
Proof.
  intros H.
  assert (E : App.problemToSave sel = None)
    by (apply nth_error_None; exact H).
  unfold App.handleSaveToDb, App.handleSaveToMongo, App.handleSaveToDrive.
  rewrite E. repeat split.
Qed.

Lemma save_without_active_problem_witness :
  let sel :=
    {| App.level := Middle; App.topic := js "t"; App.difficulty := Basic;
       App.problems := []; App.activeProblemIndex := 2 |} in
  let p :=
    {| App.supabaseUrl := js "u"; App.supabaseAnonKey := js "k";
       App.isSupabaseConnected := true; App.supabaseError := None;
       App.saveError := None; App.saveSuccess := false;
       App.supabase :=
         Some {| SupabaseService.supabaseUrl := js "u";
                 SupabaseService.supabaseKey := js "k" |} |} in
  App.handleSaveToDb sel p (fun _ => None) = (p, [], App.NotIssued).
Proof.
  intros sel p.
  destruct (save_without_active_problem sel) as (H & _).
  - simpl. lia.
  - apply H.
Defined.

(** ** The export *)

(** When typesetting succeeds, the export leaves the body as it found it:
    its children are those from before, the hidden container is not among
    them, and one document wrapping the typeset markup was handed over
    (on a page whose elements were all created before the call). *)
Theorem export_success_leaves_body_unchanged
    (serialized : jsstring -> jsstring) (sel : App.Selection)
    (mathJax : option App.MathJax) (ui : App.DownloadUi) (pg : App.Page)
    (renderedContent : jsstring) :
  sel.(App.problems) <> [] ->
  Forall (fun c => c.(App.node_id) < pg.(App.created)) pg.(App.children) ->
  App.typesetting mathJax (serialized (App.contentHtml_of sel.(App.problems)))
    = Fulfilled renderedContent ->
  let after := snd (App.handleDownloadAsWord serialized sel mathJax ui pg) in
  after.(App.children) = pg.(App.children) /\
  App.is_child after (App.renderDiv_of serialized pg sel.(App.problems)) = false /\
  map App.content after.(App.downloads)
    = map App.content pg.(App.downloads) ++ [App.staticSource_of renderedContent].
Proof. apply export_success_restores_body. Qed.

Lemma export_success_leaves_body_unchanged_witness :
  let sel :=
    {| App.level := Middle; App.topic := js "일차방정식 (중1)";
       App.difficulty := Basic;
       App.problems := [mkProblem (js "$2+2$") (js "4") (js "\frac{4}{1}=4")];
       App.activeProblemIndex := 0 |} in
  let mathJax :=
    Some {| App.typesetPromise := Some (fun html => Fulfilled (js "<svg/>" ++ html));
            App.typeset := None |} in
  let ui := {| App.isDownloading := false; App.error := None |} in
  let root :=
    {| App.node_id := 0; App.tagName := js "div"; App.hidden := false;
       App.innerHTML := js "app" |} in
  let page := {| App.children := [root]; App.created := 1; App.downloads := [] |} in
  let after := snd (App.handleDownloadAsWord (fun html => html) sel mathJax ui page) in
  after.(App.children) = [root] /\
  map App.filename after.(App.downloads) = [js "수학_문제_중등_일차방정식.doc"].
Proof.
  intros sel mathJax ui root page after.
  destruct (export_success_leaves_body_unchanged (fun html => html) sel mathJax
              ui page (js "<svg/>" ++ App.contentHtml_of sel.(App.problems)))
    as (Hchildren & _ & _).
  - discriminate.
  - repeat constructor.
  - reflexivity.
  - split; [exact Hchildren|]. vm_compute. reflexivity.
Defined.

(** An export never touches the downloads already made and adds at most
    one; it adds one only when there are problems and typesetting
    succeeded, and that one wraps the typeset markup. Elements are never
    un-created. *)
Theorem export_adds_at_most_one_download
    (serialized : jsstring -> jsstring) (sel : App.Selection)
    (mathJax : option App.MathJax) (ui : App.DownloadUi) (pg : App.Page) :
  let after := snd (App.handleDownloadAsWord serialized sel mathJax ui pg) in
  pg.(App.created) <= after.(App.created) /\
  exists added,
    after.(App.downloads) = pg.(App.downloads) ++ added /\
    List.length added <= 1 /\
    (added <> [] ->
     sel.(App.problems) <> [] /\
     exists renderedContent,
       App.typesetting mathJax
         (serialized (App.contentHtml_of sel.(App.problems)))
       = Fulfilled renderedContent /\
       map App.content added = [App.staticSource_of renderedContent] /\
       map App.mime added = [js "application/msword"]).
Proof.
  intros after. unfold after, App.handleDownloadAsWord.
  destruct (App.problems sel) as [|p ps] eqn:Eps.
  - split; [simpl; lia|]. exists []. rewrite app_nil_r.
    split; [reflexivity|]. split; [simpl; lia|]. intros H. contradiction.
  - cbn [App.innerHTML App.renderDiv_of].
    destruct (App.typesetting _ _) as [renderedContent|err] eqn:Et.
    + cbn [snd App.children App.downloads App.created App.removeChild
           App.appendChild].
      split; [lia|]. eexists. split; [reflexivity|].
      split; [simpl; lia|]. intros _. split; [discriminate|].
      exists renderedContent. repeat split.
    + cbn [snd App.children App.downloads App.created App.appendChild].
      split; [lia|]. exists []. rewrite app_nil_r.
      split; [reflexivity|]. split; [simpl; lia|]. intros H. contradiction.
Qed.

Lemma export_keeps_fresh
    (serialized : jsstring -> jsstring) (sel : App.Selection)
    (mathJax : option App.MathJax) (ui : App.DownloadUi) (pg : App.Page) :
  Machine.inv_page pg ->
  Machine.inv_page (snd (App.handleDownloadAsWord serialized sel mathJax ui pg)).
Proof.
  unfold Machine.inv_page. intros Hfresh.
  destruct (App.problems sel) as [|p ps] eqn:Eps.
  - unfold App.handleDownloadAsWord. rewrite Eps. exact Hfresh.
  - destruct (App.typesetting mathJax
                (serialized (App.contentHtml_of (App.problems sel))))
      as [renderedContent|err] eqn:Et.
    + assert (Hne : App.problems sel <> []) by (rewrite Eps; discriminate).
      destruct (export_success_restores_body serialized sel mathJax ui pg
                  renderedContent Hne Hfresh Et) as (Hc & _ & _).
      rewrite Hc.
      assert (Hcr : App.created
                      (snd (App.handleDownloadAsWord serialized sel mathJax ui pg))
                    = S (S (App.created pg))).
      { unfold App.handleDownloadAsWord. rewrite Eps in *.
        cbn [App.innerHTML App.renderDiv_of]. rewrite Et. reflexivity. }
      rewrite Hcr. eapply Forall_impl; [|exact Hfresh]. simpl. intros; lia.
    + unfold App.handleDownloadAsWord. rewrite Eps in *.
      cbn [App.innerHTML App.renderDiv_of]. rewrite Et.
      cbn [snd App.children App.created App.appendChild].
      apply Forall_app. split.
      * eapply Forall_impl; [|exact Hfresh]. simpl. intros; lia.
      * repeat constructor.
Qed.

(** ** The markup that is exported *)

Lemma join_nil_concat (l : list jsstring) : join [] l = List.concat l.
Proof.
  induction l as [|x [|y r] IH]; [reflexivity| |].
  - simpl. rewrite app_nil_r. reflexivity.
  - change (join [] (x :: y :: r)) with (x ++ [] ++ join [] (y :: r)).
    rewrite IH. reflexivity.
Qed.

Lemma map_index_spec (k : nat) (ps : list Problem) :
  App.map_index k ps =
  map (fun ip => App.fragment (fst ip) (snd ip))
    (combine (seq k (List.length ps)) ps).
Proof.
  revert k. induction ps as [|p r IH]; intros k; [reflexivity|].
  simpl. f_equal. apply IH.
Qed.

Lemma includes_app_r (a b p : jsstring) :
  includes b p = true -> includes (a ++ b) p = true.
Proof.
  intros H. induction a as [|c a IH]; [exact H|].
  rewrite <- app_comm_cons, includes_cons, IH. apply orb_true_r.
Qed.

Lemma includes_prefix (p r : jsstring) : includes (p ++ r) p = true.
Proof.
  assert (H : startsWith (p ++ r) p = true).
  { apply startsWith_app. induction p as [|c p IH]; [reflexivity|].
    simpl. unfold char_eqb. rewrite N.eqb_refl. exact IH. }
  assert (U : forall s, includes s p =
            startsWith s p || match s with [] => false | _ :: t => includes t p end)
    by (intros [|? ?]; reflexivity).
  rewrite U, H. reflexivity.
Qed.

(** The exported markup is the concatenation of one fragment per problem,
    in the order of the list, and the fragment of the problem at
    position [i] is headed with the number [i + 1]. *)
Theorem exported_markup_numbers_problems_from_one (ps : list Problem) :
  App.contentHtml_of ps =
  List.concat (map (fun ip => App.fragment (fst ip) (snd ip))
            (combine (seq 0 (List.length ps)) ps)) /\
  (forall i p,
     includes (App.fragment i p)
       (js "<h1>문제 " ++ of_N (N.of_nat (i + 1)) ++ js "</h1>") = true).
Proof.
  split.
  - unfold App.contentHtml_of. rewrite join_nil_concat, map_index_spec.
    reflexivity.
  - intros i p. unfold App.fragment.
    do 7 apply includes_app_r.
    change (js "                <h1>문제 ")
      with (js "                " ++ js "<h1>문제 ").
    rewrite <- app_assoc. apply includes_app_r.
    match goal with
    | |- includes (?b ++ ?n ++ ?h ++ ?r) _ = true =>
        replace (b ++ n ++ h ++ r) with ((b ++ n ++ h) ++ r)
          by (repeat rewrite <- app_assoc; reflexivity)
    end.
    apply includes_prefix.
Qed.

(** ** What holds in every state the component can reach *)

Lemma inv_supabase_reset (p : App.SupabasePanel) :
  Machine.inv_supabase p -> Machine.inv_supabase (App.supabaseResetStatus p).
Proof.
  intros [H1 _]. split; [exact H1|]. simpl. discriminate.
Qed.

Lemma inv_supabase_connect createClient (p : App.SupabasePanel) :
  Machine.inv_supabase p ->
  Machine.inv_supabase (App.handleSupabaseConnect createClient p).
Proof.
  intros [_ H2]. unfold App.handleSupabaseConnect, SupabaseService.initSupabase.
  destruct (truthy (App.supabaseUrl p) && truthy (App.supabaseAnonKey p));
    [destruct (createClient _ _)|]; split; simpl; try discriminate;
    try exact H2.
Qed.

Lemma inv_supabase_save (sel : App.Selection) (p : App.SupabasePanel) respond :
  Machine.inv_supabase p ->
  Machine.inv_supabase (fst (fst (App.handleSaveToDb sel p respond))).
Proof.
  intros Hinv. pose proof Hinv as [H1 H2]. unfold App.handleSaveToDb.
  destruct (App.problemToSave sel) as [problem|]; [|exact Hinv].
  destruct (App.isSupabaseConnected p) eqn:E; [|exact Hinv].
  destruct (SupabaseService.saveProblemToDb _ _ _ _ _ _) as [requests [u|e]];
    simpl; (split; [intros _; exact (H1 eq_refl)|]);
    [reflexivity|discriminate].
Qed.

Lemma inv_mongo_reset (p : App.MongoPanel) :
  Machine.inv_mongo p -> Machine.inv_mongo (App.mongoResetStatus p).
Proof.
  intros [H1 _]. split; [exact H1|]. simpl. discriminate.
Qed.

Lemma inv_mongo_connect URL_parses (p : App.MongoPanel) :
  Machine.inv_mongo p ->
  Machine.inv_mongo (App.handleMongoDbConnect URL_parses p).
Proof.
  intros [_ H2]. unfold App.handleMongoDbConnect.
  destruct (MongoDbService.initMongoDb URL_parses (App.backend p)
              (App.mongoDbBackendUrl p)) as [st [|]] eqn:E;
    split; simpl; try discriminate; try exact H2.
  intros _. apply initMongoDb_success_truthy in E as [-> Hu].
  unfold MongoDbService.unset. rewrite Hu. reflexivity.
Qed.

Lemma inv_mongo_save URL_resolve JSON_stringify (sel : App.Selection)
    (p : App.MongoPanel) network :
  Machine.inv_mongo p ->
  Machine.inv_mongo
    (fst (fst (App.handleSaveToMongo URL_resolve JSON_stringify sel p network))).
Proof.
  intros Hinv. pose proof Hinv as [H1 H2]. unfold App.handleSaveToMongo.
  destruct (App.problemToSave sel) as [problem|]; [|exact Hinv].
  destruct (App.isMongoDbConnected p) eqn:E; [|exact Hinv].
  destruct (MongoDbService.saveProblemToMongoDb _ _ _ _ _ _ _ _)
    as [requests [u|e]];
    simpl; (split; [intros _; exact (H1 eq_refl)|]);
    [reflexivity|discriminate].
Qed.

Lemma inv_drive_reset (p : App.DrivePanel) :
  Machine.inv_drive p -> Machine.inv_drive (App.driveResetStatus p).
Proof.
  intros (H1 & H2 & _). split; [exact H1|]. split; [exact H2|].
  simpl. discriminate.
Qed.

Lemma inv_drive_connect (p : App.DrivePanel) libs :
  Machine.inv_drive p ->
  Machine.inv_drive (fst (App.handleGoogleConnect p libs)).
Proof.
  intros (H1 & H2 & H3).
  unfold App.handleGoogleConnect, GoogleDriveService.initGoogleClient.
  destruct (GoogleDriveService.client_init libs);
    [|destruct (GoogleDriveService.token_client_init libs _)];
    (split; [|split]); simpl; try reflexivity; try exact H3;
    intros H; split; try reflexivity; apply (H1 H).
Qed.

Lemma inv_drive_token (p : App.DrivePanel) (access_token : option jsstring) :
  p.(App.drive).(GoogleDriveService.tokenClient) <> None ->
  Machine.inv_drive p ->
  Machine.inv_drive (App.onTokenResponse p access_token).
Proof.
  intros Htc (H1 & H2 & H3).
  unfold App.onTokenResponse, GoogleDriveService.callback.
  destruct access_token as [t|]; [destruct (truthy t)|];
    (split; [|split]); simpl; try exact H2; try exact H3; try discriminate.
  intros _. split; [exact (H2 Htc)|discriminate].
Qed.

Lemma inv_drive_signout (p : App.DrivePanel) (revoked : bool) :
  Machine.inv_drive p -> Machine.inv_drive (fst (App.onSignout p revoked)).
Proof.
  destruct p as [k c r f e se ss [g go tc tok]].
  unfold Machine.inv_drive, App.onSignout, GoogleDriveService.handleSignoutClick.
  simpl. intros (H1 & H2 & H3).
  destruct g, go, tok as [t|], revoked; simpl;
    (split; [|split]); try exact H1; try exact H2; discriminate.
Qed.

Lemma inv_drive_save JSON_stringify now (sel : App.Selection)
    (p : App.DrivePanel) respond :
  Machine.inv_drive p ->
  Machine.inv_drive
    (fst (fst (App.handleSaveToDrive JSON_stringify now sel p respond))).
Proof.
  intros Hinv. pose proof Hinv as (H1 & H2 & H3). unfold App.handleSaveToDrive.
  destruct (App.problemToSave sel) as [problem|]; [|exact Hinv].
  destruct (App.isGoogleLoggedIn p) eqn:E; [|exact Hinv].
  destruct (GoogleDriveService.saveProblemToDrive _ _ _ _ _ _ _ _)
    as [calls [u|e]]; simpl;
    (split; [intros _; exact (H1 eq_refl)|split; [exact H2|]]);
    [reflexivity|discriminate].
Qed.

Lemma inv_workspace_generate (st : App.AppState) generate earliest :
  Machine.inv_workspace st ->
  Machine.inv_workspace (App.handleGenerateProblem st generate earliest).
Proof.
  intros [Hn _]. split.
  - unfold App.handleGenerateProblem.
    destruct (App.Promise_all _ _); exact Hn.
  - destruct (handleGenerateProblem_cases st generate earliest)
      as [(_ & _ & Hi & _)|(He & _)].
    + intros Hne. rewrite Hi.
      destruct (App.problems (App.selection
                  (App.handleGenerateProblem st generate earliest)));
        [contradiction|simpl; lia].
    + intros Hne. contradiction.
Qed.

Lemma generate_panels (st : App.AppState) generate earliest :
  let after := App.handleGenerateProblem st generate earliest in
  after.(App.supabasePanel) = App.supabaseResetStatus st.(App.supabasePanel) /\
  after.(App.mongoPanel) = App.mongoResetStatus st.(App.mongoPanel) /\
  after.(App.drivePanel) = App.driveResetStatus st.(App.drivePanel).
Proof.
  unfold App.handleGenerateProblem.
  destruct (App.Promise_all _ _); repeat split.
Qed.

Section Reachable.

Variable createClient :
  jsstring -> jsstring -> option SupabaseService.SupabaseClient.
Variable URL_parses : jsstring -> bool.
Variable URL_resolve : jsstring -> jsstring -> Settled jsstring.
Variable JSON_stringify : JsObject -> jsstring.
Variable now : jsstring.
Variable serialized : jsstring -> jsstring.

Let step :=
  Machine.step createClient URL_parses URL_resolve JSON_stringify now serialized.
Let run :=
  Machine.run createClient URL_parses URL_resolve JSON_stringify now serialized.

Lemma step_keeps_invariant (c : Machine.Config) (e : Machine.Event) :
  Machine.invariant c -> Machine.invariant (step c e).
Proof.
  destruct c as [st pg]. intros (Hw & Hs & Hm & Hd & Hp).
  simpl fst in *. simpl snd in *.
  unfold step, Machine.step, Machine.invariant.
  destruct e;
    try (refine (conj _ (conj _ (conj _ (conj _ _))));
         first [exact Hw | exact Hs | exact Hm | exact Hd | exact Hp
               | apply inv_supabase_connect; exact Hs
               | apply inv_supabase_save; exact Hs
               | apply inv_mongo_connect; exact Hm
               | apply inv_mongo_save; exact Hm
               | apply inv_drive_connect; exact Hd
               | apply inv_drive_signout; exact Hd
               | apply inv_drive_save; exact Hd
               | split; [discriminate|exact (proj2 Hs)]
               | split; [discriminate|exact (proj2 Hm)] ]).
  - refine (conj _ (conj Hs (conj Hm (conj Hd Hp)))).
    destruct Hw as [Hn Hi]. split; [|exact Hi].
    apply onNumberOfProblemsChange_range. exact Hn.
  - destruct (generate_panels st generate earliest) as (E1 & E2 & E3).
    cbn [fst snd]. rewrite E1, E2, E3.
    split; [apply inv_workspace_generate; exact Hw|].
    split; [apply inv_supabase_reset; exact Hs|].
    split; [apply inv_mongo_reset; exact Hm|].
    split; [apply inv_drive_reset; exact Hd|exact Hp].
  - destruct (Nat.ltb_spec index
                (List.length (App.problems (App.selection st)))) as [Hlt|_];
      [|exact (conj Hw (conj Hs (conj Hm (conj Hd Hp))))].
    unfold App.selectTab.
    destruct (Nat.eqb index (App.activeProblemIndex (App.selection st)));
      [exact (conj Hw (conj Hs (conj Hm (conj Hd Hp))))|].
    cbn [fst snd App.supabasePanel App.mongoPanel App.drivePanel].
    split; [split; [exact (proj1 Hw)|intros _; exact Hlt]|].
    split; [apply inv_supabase_reset; exact Hs|].
    split; [apply inv_mongo_reset; exact Hm|].
    split; [apply inv_drive_reset; exact Hd|exact Hp].
  - pose proof (export_keeps_fresh serialized (App.selection st) mathJax
                  (App.ui st) pg Hp) as Hp'.
    destruct (App.handleDownloadAsWord serialized (App.selection st) mathJax
                (App.ui st) pg) as [ui' pg'].
    exact (conj Hw (conj Hs (conj Hm (conj Hd Hp')))).
  - destruct (GoogleDriveService.tokenClient (App.drive (App.drivePanel st)))
      as [tc|] eqn:Etc; [|exact (conj Hw (conj Hs (conj Hm (conj Hd Hp))))].
    refine (conj Hw (conj Hs (conj Hm (conj _ Hp)))).
    apply inv_drive_token; [rewrite Etc; discriminate|exact Hd].
Qed.

Lemma run_keeps_invariant (events : list Machine.Event) (c : Machine.Config) :
  Machine.invariant c -> Machine.invariant (run c events).
Proof.
  revert c. induction events as [|e r IH]; intros c H; [exact H|].
  apply IH. apply step_keeps_invariant. exact H.
Qed.

Lemma initial_invariant (firstTopic : jsstring) (pg : App.Page) :
  Machine.inv_page pg ->
  Machine.invariant (Machine.initialState firstTopic, pg).
Proof.
  intros Hp. split; [split; [simpl; lia|intros H; contradiction]|].
  split; [split; discriminate|]. split; [split; discriminate|].
  split; [|exact Hp]. split; [discriminate|]. split; [|discriminate].
  intros H. contradiction.
Qed.

End Reachable.

Section ReachableStates.

Variable createClient :
  jsstring -> jsstring -> option SupabaseService.SupabaseClient.
Variable URL_parses : jsstring -> bool.
Variable URL_resolve : jsstring -> jsstring -> Settled jsstring.
Variable JSON_stringify : JsObject -> jsstring.
Variable now : jsstring.
Variable serialized : jsstring -> jsstring.

Let run :=
  Machine.run createClient URL_parses URL_resolve JSON_stringify now serialized.

Lemma reachable_invariant (firstTopic : jsstring) (pg : App.Page)
    (events : list Machine.Event) :
  Machine.inv_page pg ->
  Machine.invariant (run (Machine.initialState firstTopic, pg) events).
Proof.
  intros Hp. apply run_keeps_invariant. apply initial_invariant. exact Hp.
Qed.

Lemma reachable_workspace (firstTopic : jsstring) (pg : App.Page)
    (events : list Machine.Event) :
  Machine.inv_page pg ->
  let st := fst (run (Machine.initialState firstTopic, pg) events) in
  (1 <= st.(App.numberOfProblems) <= 10)%Z /\
  (st.(App.selection).(App.problems) <> [] ->
   exists currentProblem,
     App.problemToSave st.(App.selection) = Some currentProblem).
Proof.
  intros Hp st.
  destruct (reachable_invariant firstTopic pg events Hp) as ([Hn Hi] & _).
  split; [exact Hn|]. intros Hne. specialize (Hi Hne).
  unfold App.problemToSave.
  destruct (nth_error _ _) as [p|] eqn:E; [exists p; reflexivity|].
  apply nth_error_None in E. fold st in Hi. lia.
Qed.

(** In every state the component reaches, the number of problems asked
    for lies between 1 and 10, and whenever the list of problems is not
    empty the active index points into it: the problem displayed, and
    saved by the save buttons, exists. *)
Theorem reachable_active_problem_exists (firstTopic : jsstring) (pg : App.Page)
    (events : list Machine.Event) :
  Machine.inv_page pg ->
  let st := fst (run (Machine.initialState firstTopic, pg) events) in
  (1 <= st.(App.numberOfProblems) <= 10)%Z /\
  (st.(App.selection).(App.problems) <> [] ->
   exists currentProblem,
     App.problemToSave st.(App.selection) = Some currentProblem).
Proof. apply reachable_workspace. Qed.

(** In every state the component reaches, a connected flag that is on
    means that the service holds its handle. So a click on an enabled
    save button, with a problem on display, always reaches the backend:
    exactly one insert for Supabase, exactly one upload for Google
    Drive, and for the MongoDB backend the stored URL is set. *)
Theorem reachable_connected_flag_means_handle (firstTopic : jsstring)
    (pg : App.Page) (events : list Machine.Event) :
  Machine.inv_page pg ->
  let st := fst (run (Machine.initialState firstTopic, pg) events) in
  let sel := st.(App.selection) in
  (st.(App.supabasePanel).(App.isSupabaseConnected) = true ->
   st.(App.supabasePanel).(App.supabase) <> None /\
   (sel.(App.problems) <> [] ->
    forall respond, exists request,
      snd (fst (App.handleSaveToDb sel st.(App.supabasePanel) respond))
      = [request])) /\
  (st.(App.mongoPanel).(App.isMongoDbConnected) = true ->
   exists url,
     st.(App.mongoPanel).(App.backend) = Some url /\ truthy url = true) /\
  (st.(App.drivePanel).(App.isGoogleLoggedIn) = true ->
   st.(App.drivePanel).(App.drive).(GoogleDriveService.token) <> None /\
   (sel.(App.problems) <> [] ->
    forall respond, exists request,
      snd (fst (App.handleSaveToDrive JSON_stringify now sel
                  st.(App.drivePanel) respond))
      = [GoogleDriveService.ClientRequest request])).
Proof.
  intros Hp st sel.
  destruct (reachable_workspace firstTopic pg events Hp) as [_ Hcur].
  destruct (reachable_invariant firstTopic pg events Hp)
    as (_ & [Hs _] & [Hm _] & (Hd & _ & _) & _).
  fold st in Hcur, Hs, Hm, Hd. fold sel in Hcur.
  split; [|split].
  - intros Hflag. specialize (Hs Hflag). split; [exact Hs|].
    intros Hne respond. destruct (Hcur Hne) as [p Hp'].
    unfold App.handleSaveToDb. rewrite Hp', Hflag.
    destruct (App.supabase (App.supabasePanel st)) as [client|];
      [|contradiction].
    unfold SupabaseService.saveProblemToDb.
    destruct (respond _); eexists; reflexivity.
  - intros Hflag. specialize (Hm Hflag). unfold MongoDbService.unset in Hm.
    destruct (App.backend (App.mongoPanel st)) as [url|]; [|discriminate].
    exists url. split; [reflexivity|].
    destruct (truthy url); [reflexivity|discriminate].
  - intros Hflag. destruct (Hd Hflag) as [Hg Ht]. split; [exact Ht|].
    intros Hne respond. destruct (Hcur Hne) as [p Hp'].
    unfold App.handleSaveToDrive. rewrite Hp', Hflag.
    unfold GoogleDriveService.saveProblemToDrive. rewrite Hg.
    destruct (GoogleDriveService.token (App.drive (App.drivePanel st)))
      as [tok|]; [|contradiction].
    eexists. reflexivity.
Qed.

(** In every state the component reaches, no save button shows its
    success mark together with an error message. *)
Theorem reachable_save_status_is_consistent (firstTopic : jsstring)
    (pg : App.Page) (events : list Machine.Event) :
  Machine.inv_page pg ->
  let st := fst (run (Machine.initialState firstTopic, pg) events) in
  (st.(App.supabasePanel).(App.saveSuccess) = true ->
   st.(App.supabasePanel).(App.saveError) = None) /\
  (st.(App.mongoPanel).(App.mongoDbSaveSuccess) = true ->
   st.(App.mongoPanel).(App.mongoDbSaveError) = None) /\
  (st.(App.drivePanel).(App.driveSaveSuccess) = true ->
   st.(App.drivePanel).(App.driveSaveError) = None).
Proof.
  intros Hp st.
  destruct (reachable_invariant firstTopic pg events Hp)
    as (_ & [_ Hs] & [_ Hm] & (_ & _ & Hd) & _).
  split; [exact Hs|]. split; [exact Hm|exact Hd].
Qed.

(** In every state the component reaches, an export changes the number of
    children of the body by exactly this much: not at all when the list
    of problems is empty or typesetting succeeds, and by one, the hidden
    container, when typesetting fails. *)
Theorem reachable_export_leaves_one_container_per_failure
    (firstTopic : jsstring) (pg : App.Page) (events : list Machine.Event)
    (mathJax : option App.MathJax) :
  Machine.inv_page pg ->
  let c := run (Machine.initialState firstTopic, pg) events in
  let sel := (fst c).(App.selection) in
  let after :=
    snd (App.handleDownloadAsWord serialized sel mathJax (fst c).(App.ui) (snd c)) in
  List.length after.(App.children) =
  List.length (snd c).(App.children)
  + match sel.(App.problems),
          App.typesetting mathJax
            (serialized (App.contentHtml_of sel.(App.problems))) with
    | _ :: _, Rejected _ => 1
    | _, _ => 0
    end.
Proof.
  intros Hp c sel after.
  destruct (reachable_invariant firstTopic pg events Hp) as (_ & _ & _ & _ & Hpg).
  fold c in Hpg. unfold after.
  destruct (App.problems sel) as [|p ps] eqn:Eps.
  - unfold App.handleDownloadAsWord. rewrite Eps. simpl. lia.
  - destruct (App.typesetting mathJax (serialized (App.contentHtml_of (p :: ps))))
      as [renderedContent|err] eqn:Et.
    + destruct (export_success_restores_body serialized sel mathJax
                  (App.ui (fst c)) (snd c) renderedContent) as (Hc & _).
      * rewrite Eps. discriminate.
      * exact Hpg.
      * rewrite Eps. exact Et.
      * rewrite Hc. lia.
    + unfold App.handleDownloadAsWord. rewrite Eps.
      cbn [App.innerHTML App.renderDiv_of]. rewrite Et.
      cbn [snd App.children App.appendChild]. rewrite length_app. reflexivity.
Qed.

End ReachableStates.

(** ** A run of the component *)

Lemma reachable_active_problem_exists_witness :
  let createClient := fun url key =>
    Some {| SupabaseService.supabaseUrl := url;
            SupabaseService.supabaseKey := key |} in
  let URL_resolve := fun rel base : jsstring => Fulfilled (base ++ js "/" ++ rel) in
  let page := {| App.children := []; App.created := 0; App.downloads := [] |} in
  let events :=
    [ Machine.NumberOfProblemsChange (js "3");
      Machine.GenerateProblem
        (fun i => Fulfilled (mkProblem (js "$2+2$") (js "4") (of_N (N.of_nat i)))) 0;
      Machine.SelectTab 2;
      Machine.SelectTab 7;
      Machine.NumberOfProblemsChange (js "0") ] in
  let st :=
    fst (Machine.run createClient (fun _ => true) URL_resolve (fun _ => [])
           (js "2025-01-01T00:00:00.000Z") (fun html => html)
           (Machine.initialState (js "일차방정식"), page) events) in
  st.(App.numberOfProblems) = 3%Z /\
  App.problemToSave st.(App.selection)
    = Some (mkProblem (js "$2+2$") (js "4") (js "2")).
Proof.
  intros createClient URL_resolve page events st.
  destruct (reachable_active_problem_exists createClient (fun _ => true)
              URL_resolve (fun _ => []) (js "2025-01-01T00:00:00.000Z")
              (fun html => html) (js "일차방정식") page events)
    as [_ Hcur].
  - constructor.
  - split; [reflexivity|].
    destruct Hcur as [p Hp]; [discriminate|].
    fold st in Hp. rewrite Hp. f_equal.
    assert (E : App.problemToSave st.(App.selection)
                = Some (mkProblem (js "$2+2$") (js "4") (js "2")))
      by (vm_compute; reflexivity).
    rewrite Hp in E. injection E as E. exact E.
Defined.

Lemma reachable_connected_flag_means_handle_witness :
  let createClient := fun url key =>
    Some {| SupabaseService.supabaseUrl := url;
            SupabaseService.supabaseKey := key |} in
  let URL_resolve := fun rel base : jsstring => Fulfilled (base ++ js "/" ++ rel) in
  let page := {| App.children := []; App.created := 0; App.downloads := [] |} in
  let events :=
    [ Machine.SetSupabaseUrl (js "https://x.supabase.co");
      Machine.SetSupabaseAnonKey (js "anon-key");
      Machine.SupabaseConnect;
      Machine.GenerateProblem
        (fun _ => Fulfilled (mkProblem (js "$2+2$") (js "4") (js "s"))) 0;
      Machine.SaveToDb (fun _ => Some (js "permission denied"));
      Machine.SetSupabaseUrl (js "");
      Machine.SupabaseConnect;
      Machine.SetSupabaseUrl (js "https://y.supabase.co");
      Machine.SupabaseConnect ] in
  let st :=
    fst (Machine.run createClient (fun _ => true) URL_resolve (fun _ => [])
           (js "2025-01-01T00:00:00.000Z") (fun html => html)
           (Machine.initialState (js "일차방정식"), page) events) in
  st.(App.supabasePanel).(App.isSupabaseConnected) = true /\
  st.(App.supabasePanel).(App.supabase) <> None /\
  exists request,
    snd (fst (App.handleSaveToDb st.(App.selection) st.(App.supabasePanel)
                (fun _ => None))) = [request].
Proof.
  intros createClient URL_resolve page events st.
  destruct (reachable_connected_flag_means_handle createClient (fun _ => true)
              URL_resolve (fun _ => []) (js "2025-01-01T00:00:00.000Z")
              (fun html => html) (js "일차방정식") page events)
    as [Hs _].
  - constructor.
  - assert (Hflag : st.(App.supabasePanel).(App.isSupabaseConnected) = true)
      by reflexivity.
    destruct (Hs Hflag) as [Hhandle Hsave].
    split; [exact Hflag|]. split; [exact Hhandle|].
    apply Hsave. discriminate.
Defined.

Lemma reachable_save_status_is_consistent_witness :
  let page := {| App.children := []; App.created := 0; App.downloads := [] |} in
  let events :=
    [ Machine.SetMongoDbBackendUrl (js "http://localhost:5000");
      Machine.MongoDbConnect;
      Machine.GenerateProblem
        (fun _ => Fulfilled (mkProblem (js "$2+2$") (js "4") (js "s"))) 0;
      Machine.SaveToMongo (fun _ => Rejected (TypeError (js "Failed to fetch")));
      Machine.SaveToMongo
        (fun _ => Fulfilled {| MongoDbService.status := 201%N;
                               MongoDbService.statusText := js "Created";
                               MongoDbService.json := None |}) ] in
  let st :=
    fst (Machine.run (fun _ _ => None) (fun _ => true)
           (fun rel base => Fulfilled (base ++ js "/" ++ rel)) (fun _ => [])
           (js "2025-01-01T00:00:00.000Z") (fun html => html)
           (Machine.initialState (js "일차방정식"), page) events) in
  st.(App.mongoPanel).(App.mongoDbSaveSuccess) = true /\
  st.(App.mongoPanel).(App.mongoDbSaveError) = None.
Proof.
  intros page events st.
  destruct (reachable_save_status_is_consistent (fun _ _ => None) (fun _ => true)
              (fun rel base => Fulfilled (base ++ js "/" ++ rel)) (fun _ => [])
              (js "2025-01-01T00:00:00.000Z") (fun html => html)
              (js "일차방정식") page events)
    as (_ & Hm & _).
  - constructor.
  - assert (Hok : st.(App.mongoPanel).(App.mongoDbSaveSuccess) = true)
      by reflexivity.
    split; [exact Hok|exact (Hm Hok)].
Defined.

Lemma reachable_export_leaves_one_container_per_failure_witness :
  let page := {| App.children := []; App.created := 0; App.downloads := [] |} in
  let failing :=
    Some {| App.typesetPromise :=
              Some (fun _ => Rejected (Error (js "typeset failed")));
            App.typeset := None |} in
  let events :=
    [ Machine.GenerateProblem
        (fun _ => Fulfilled (mkProblem (js "$2+2$") (js "4") (js "s"))) 0;
      Machine.DownloadAsWord failing;
      Machine.DownloadAsWord None ] in
  let c :=
    Machine.run (fun _ _ => None) (fun _ => true)
      (fun rel base => Fulfilled (base ++ js "/" ++ rel)) (fun _ => [])
      (js "2025-01-01T00:00:00.000Z") (fun html => html)
      (Machine.initialState (js "일차방정식"), page) events in
  List.length (snd c).(App.children) = 1 /\
  List.length
    (snd (App.handleDownloadAsWord (fun html => html) (fst c).(App.selection)
            failing (fst c).(App.ui) (snd c))).(App.children) = 2.
Proof.
  intros page failing events c.
  assert (Hone : List.length (snd c).(App.children) = 1)
    by (vm_compute; reflexivity).
  split; [exact Hone|].
  pose proof (reachable_export_leaves_one_container_per_failure (fun _ _ => None)
                (fun _ => true) (fun rel base => Fulfilled (base ++ js "/" ++ rel))
                (fun _ => []) (js "2025-01-01T00:00:00.000Z") (fun html => html)
                (js "일차방정식") page events failing (Forall_nil _)) as H.
  cbv zeta in H. fold c in H. rewrite H, Hone. reflexivity.
Defined.

(** ** The text file uploaded to Google Drive *)

Lemma dropWhile_app_stop_at (f : N -> bool) (a : jsstring) (c : N) (b : jsstring) :
  f c = false -> dropWhile f (a ++ c :: b) = dropWhile f a ++ c :: b.
Proof.
  intros Hc. induction a as [|x a IH]; simpl.
  - rewrite Hc. reflexivity.
  - destruct (f x); [exact IH|reflexivity].
Qed.

Lemma trimEnd_app_stop (x : jsstring) (c : N) (y : jsstring) :
  isWhiteSpace c = false -> trimEnd (x ++ c :: y) = x ++ c :: trimEnd y.
Proof.
  intros Hc. unfold trimEnd.
  rewrite rev_app_distr. simpl rev. rewrite <- app_assoc. simpl app.
  rewrite (dropWhile_app_stop_at _ _ _ _ Hc).
  rewrite rev_app_distr. simpl rev. rewrite rev_involutive, <- app_assoc.
  reflexivity.
Qed.

Lemma trimEnd_app_white (a w : jsstring) :
  forallb isWhiteSpace w = true -> trimEnd (a ++ w) = trimEnd a.
Proof.
  intros Hw. unfold trimEnd. rewrite rev_app_distr. f_equal.
  assert (H : forallb isWhiteSpace (rev w) = true).
  { rewrite forallb_forall in *. intros x Hx. apply Hw, in_rev, Hx. }
  induction (rev w) as [|x r IH]; [reflexivity|].
  simpl in H. apply andb_true_iff in H as [Hx Hr].
  simpl. rewrite Hx. apply IH, Hr.
Qed.

(** A text with a code unit that is not white space keeps everything
    before it when the end is trimmed. *)
Lemma trimEnd_app_ink (x y : jsstring) :
  (exists y1 c y2, y = y1 ++ c :: y2 /\ isWhiteSpace c = false) ->
  trimEnd (x ++ y) = x ++ trimEnd y.
Proof.
  intros (y1 & c & y2 & -> & Hc).
  rewrite app_assoc, !trimEnd_app_stop by exact Hc.
  rewrite <- app_assoc. reflexivity.
Qed.

Lemma ink_app_r (a y : jsstring) :
  (exists y1 c y2, y = y1 ++ c :: y2 /\ isWhiteSpace c = false) ->
  exists y1 c y2, a ++ y = y1 ++ c :: y2 /\ isWhiteSpace c = false.
Proof.
  intros (y1 & c & y2 & -> & Hc). exists (a ++ y1), c, y2.
  rewrite <- app_assoc. split; [reflexivity|exact Hc].
Qed.

Lemma ink_rule (y : jsstring) :
  exists y1 c y2,
    GoogleDriveService.rule ++ y = y1 ++ c :: y2 /\ isWhiteSpace c = false.
Proof.
  exists [], 61%N, (js "===================" ++ y). split; reflexivity.
Qed.

(** The text file written to Google Drive has a fixed layout: the three
    header lines, then the problem and the answer exactly as generated,
    each under its ruled heading, then the solution; of the whole text
    only the white space at the end of the solution is removed. *)
Theorem drive_file_content_layout (problemData : Problem) (l : Level)
    (t : jsstring) (d : Difficulty) :
  let nl := GoogleDriveService.nl in
  let rule := GoogleDriveService.rule in
  GoogleDriveService.createProblemFileContent problemData l t d =
  js "교육과정: " ++ Level_value l
  ++ nl ++ js "주제: " ++ t
  ++ nl ++ js "난이도: " ++ Difficulty_value d
  ++ nl
  ++ nl ++ rule ++ nl ++ js "문제" ++ nl ++ rule
  ++ nl ++ problemData.(problem)
  ++ nl
  ++ nl ++ rule ++ nl ++ js "정답" ++ nl ++ rule
  ++ nl ++ problemData.(answer)
  ++ nl
  ++ nl ++ rule ++ nl ++ js "풀이" ++ nl ++ rule
  ++ trimEnd (nl ++ problemData.(solution)).
Proof.
  intros nl rule. unfold GoogleDriveService.createProblemFileContent, trim.
  fold nl. fold rule.
  change (trimStart (nl ++ js "교육과정: " ++ ?x))
    with (js "교육과정: " ++ x).
  repeat (rewrite trimEnd_app_ink
            by (repeat first [apply ink_rule | apply ink_app_r])).
  assert (Hlast : forall y, trimEnd (rule ++ y) = rule ++ trimEnd y).
  { intros y.
    change (rule ++ y) with (js "===================" ++ 61%N :: y).
    rewrite trimEnd_app_stop by reflexivity. reflexivity. }
  rewrite Hlast. do 33 f_equal.
  rewrite (app_assoc nl (solution problemData)).
  apply trimEnd_app_white. reflexivity.
Qed.
